(** * Reconciliation engine of the wallix-bastion provider

    A shallow embedding of the two resource kinds of package [bastion] whose
    handlers are given: the device service ([resourceDeviceService*]) and the
    x509 configuration ([resourceConfigX509*]).

    Go values are modelled as follows.
    - [string] is [String.string]; [int] is [Z] (the handlers compare and
      print integers and do no arithmetic on them); [error] is
      [option string] ([None] is [nil], [Some msg] carries [err.Error()]).
    - [diag.Diagnostics] is the list of the summaries; [diag.FromErr] of a
      non-nil error is the one-element list.
    - A handler runs in the monad [M]: it threads the log of the requests
      handed to [Client.newRequest] and ends either normally or in a panic.
    - The remote system is a function of the requests seen so far and of the
      current request, so two identical requests can be answered differently
      (before and after a create).
    - What the handlers call and the files at hand do not define (the list
      of supported versions, two helpers of the device resource, the JSON
      decoder, the PEM and certificate parsers, the error and the set
      storage of [d.Set] on a device service) is a [Platform], over which
      every handler and every property is parametrised. *)

From Stdlib Require Import String Ascii List ZArith Bool Lia DecimalString.
Import ListNotations.
Local Open Scope list_scope.
Local Open Scope string_scope.

Set Implicit Arguments.
Set Warnings "-register-all".

(** ** Library functions of Go used by the handlers *)

Module Go.

Definition error := option string.

(** [fmt.Sprintf("%d", n)]. *)
Definition itoa (n : Z) : string := NilZero.string_of_int (Z.to_int n).

(** [strings.HasPrefix s p]. *)
Fixpoint strings_HasPrefix (s p : string) : bool :=
  match p, s with
  | EmptyString, _ => true
  | String _ _, EmptyString => false
  | String b p', String a s' => Ascii.eqb a b && strings_HasPrefix s' p'
  end.

(** [strings.Contains s substr]. *)
Fixpoint strings_Contains (s substr : string) : bool :=
  strings_HasPrefix s substr ||
  match s with
  | EmptyString => false
  | String _ s' => strings_Contains s' substr
  end.

(** [strings.Split s sep] for a separator of one character: one more
    component than there are separators in [s]. *)
Fixpoint strings_Split (s : string) (sep : ascii) : list string :=
  match s with
  | EmptyString => [EmptyString]
  | String c s' =>
      if Ascii.eqb c sep then EmptyString :: strings_Split s' sep
      else match strings_Split s' sep with
           | [] => [String c EmptyString]
           | w :: ws => String c w :: ws
           end
  end.

(** [slices.Contains l x] on strings. *)
Fixpoint slices_Contains (l : list string) (x : string) : bool :=
  match l with
  | [] => false
  | y :: l' => String.eqb y x || slices_Contains l' x
  end.

(** Number of occurrences of a character, used to state what
    [strings_Split] returns. *)
Fixpoint count_char (c : ascii) (s : string) : nat :=
  match s with
  | EmptyString => 0
  | String a s' => (if Ascii.eqb a c then 1 else 0) + count_char c s'
  end.

End Go.
Import Go.

(** ** The wire records *)

(** [jsonDeviceService], with the fields in the order of the struct. The two
    pointer fields are [None] when nil. *)
Record jsonDeviceService := mkJsonDeviceService {
  Port : Z;
  ID : string;
  ConnectionPolicy : string;
  Protocol : string;
  ServiceName : string;
  GlobalDomains : option (list string);
  SubProtocols : option (list string)
}.

(** The zero value, what [var result jsonDeviceService] holds. *)
Definition zeroDeviceService : jsonDeviceService :=
  mkJsonDeviceService 0 "" "" "" "" None None.

(** [jsonConfigX509]. *)
Record jsonConfigX509 := mkJsonConfigX509 {
  CaCertificate : string;
  ServerPublicKey : string;
  ServerPrivateKey : string;
  Enable : bool;
  Default : bool
}.

Definition zeroConfigX509 : jsonConfigX509 := mkJsonConfigX509 "" "" "" false false.

(** ** JSON: the part of [encoding/json] the wire records need

    Integers only (both records have no other number), the short escapes in
    strings, exact key match, the last of two equal keys wins. The handlers
    are parametrised by the decoders; this module gives the instance used
    to run them on concrete response bodies. *)

Module Json.

Inductive value :=
| JNull
| JBool (b : bool)
| JNum (z : Z)
| JStr (s : string)
| JArr (l : list value)
| JObj (l : list (string * value)).

(** The double quote. *)
Definition quote : ascii := "034".

Definition is_ws (c : ascii) : bool :=
  Ascii.eqb c " " || Ascii.eqb c "010" || Ascii.eqb c "013" || Ascii.eqb c "009".

Fixpoint skip_ws (s : string) : string :=
  match s with
  | String c s' => if is_ws c then skip_ws s' else s
  | EmptyString => s
  end.

(** The characters of a string literal after its opening quote, up to and
    without the closing quote. *)
Fixpoint string_body (s : string) : option (string * string) :=
  match s with
  | EmptyString => None
  | String c s' =>
      if Ascii.eqb c quote then Some (EmptyString, s')
      else if Ascii.eqb c "\" then
        match s' with
        | String e s'' =>
            let unescaped :=
              if Ascii.eqb e "n" then Some "010"%char
              else if Ascii.eqb e "t" then Some "009"%char
              else if Ascii.eqb e "r" then Some "013"%char
              else if Ascii.eqb e "b" then Some "008"%char
              else if Ascii.eqb e "f" then Some "012"%char
              else if Ascii.eqb e quote || Ascii.eqb e "\" || Ascii.eqb e "/" then Some e
              else None in
            match unescaped, string_body s'' with
            | Some u, Some (w, rest) => Some (String u w, rest)
            | _, _ => None
            end
        | EmptyString => None
        end
      else match string_body s' with
           | Some (w, rest) => Some (String c w, rest)
           | None => None
           end
  end.

Definition digit (c : ascii) : option Z :=
  let n := Z.of_nat (nat_of_ascii c) in
  if (48 <=? n)%Z && (n <=? 57)%Z then Some (n - 48)%Z else None.

(** Digits read most significant first, [acc] the value so far. *)
Fixpoint digits (acc : Z) (seen : bool) (s : string) : option (Z * string) :=
  match s with
  | String c s' =>
      match digit c with
      | Some d => digits (10 * acc + d) true s'
      | None =>
          if Ascii.eqb c "." || Ascii.eqb c "e" || Ascii.eqb c "E" then None
          else if seen then Some (acc, s) else None
      end
  | EmptyString => if seen then Some (acc, s) else None
  end.

Definition number (s : string) : option (Z * string) :=
  match s with
  | String "-" s' =>
      match digits 0 false s' with
      | Some (z, rest) => Some ((- z)%Z, rest)
      | None => None
      end
  | _ => digits 0 false s
  end.

Definition literal (w : string) (v : value) (s : string) : option (value * string) :=
  if strings_HasPrefix s w
  then Some (v, String.substring (String.length w) (String.length s - String.length w) s)
  else None.

(** Recursive descent; [fuel] bounds the depth of the calls, [parse]
    starts it from twice the length of the text. *)
Fixpoint parse_value (fuel : nat) (s : string) : option (value * string) :=
  match fuel with
  | O => None
  | S fuel' =>
      match skip_ws s with
      | String "[" s1 =>
          match skip_ws s1 with
          | String "]" s2 => Some (JArr [], s2)
          | _ =>
              match parse_elements fuel' s1 with
              | Some (l, rest) => Some (JArr l, rest)
              | None => None
              end
          end
      | String "{" s1 =>
          match skip_ws s1 with
          | String "}" s2 => Some (JObj [], s2)
          | _ =>
              match parse_members fuel' s1 with
              | Some (l, rest) => Some (JObj l, rest)
              | None => None
              end
          end
      | String "034"%char s1 =>
          match string_body s1 with
          | Some (w, rest) => Some (JStr w, rest)
          | None => None
          end
      | String "t" _ as s0 => literal "true" (JBool true) s0
      | String "f" _ as s0 => literal "false" (JBool false) s0
      | String "n" _ as s0 => literal "null" JNull s0
      | s0 =>
          match number s0 with
          | Some (z, rest) => Some (JNum z, rest)
          | None => None
          end
      end
  end
with parse_elements (fuel : nat) (s : string) : option (list value * string) :=
  match fuel with
  | O => None
  | S fuel' =>
      match parse_value fuel' s with
      | Some (v, s1) =>
          match skip_ws s1 with
          | String "," s2 =>
              match parse_elements fuel' s2 with
              | Some (l, rest) => Some (v :: l, rest)
              | None => None
              end
          | String "]" s2 => Some ([v], s2)
          | _ => None
          end
      | None => None
      end
  end
with parse_members (fuel : nat) (s : string) : option (list (string * value) * string) :=
  match fuel with
  | O => None
  | S fuel' =>
      match skip_ws s with
      | String "034"%char s1 =>
          match string_body s1 with
          | Some (k, s2) =>
              match skip_ws s2 with
              | String ":" s3 =>
                  match parse_value fuel' s3 with
                  | Some (v, s4) =>
                      match skip_ws s4 with
                      | String "," s5 =>
                          match parse_members fuel' s5 with
                          | Some (l, rest) => Some ((k, v) :: l, rest)
                          | None => None
                          end
                      | String "}" s5 => Some ([(k, v)], s5)
                      | _ => None
                      end
                  | None => None
                  end
              | _ => None
              end
          | None => None
          end
      | _ => None
      end
  end.

(** A whole text: one value, then only white space. *)
Definition parse (s : string) : option value :=
  match parse_value (2 * String.length s + 2) s with
  | Some (v, rest) =>
      match skip_ws rest with
      | EmptyString => Some v
      | _ => None
      end
  | None => None
  end.

(** The text of a value, with no white space. *)
Fixpoint escape (s : string) : string :=
  match s with
  | EmptyString => EmptyString
  | String c s' =>
      if Ascii.eqb c quote || Ascii.eqb c "\" then String "\" (String c (escape s'))
      else if Ascii.eqb c "010" then String "\" (String "n" (escape s'))
      else String c (escape s')
  end.

Definition quoted (s : string) : string :=
  String quote (escape s ++ String quote EmptyString).

Fixpoint print (v : value) : string :=
  match v with
  | JNull => "null"
  | JBool true => "true"
  | JBool false => "false"
  | JNum z => itoa z
  | JStr s => quoted s
  | JArr l =>
      "[" ++ (fix elements (l : list value) : string :=
                match l with
                | [] => ""
                | [v] => print v
                | v :: l' => print v ++ "," ++ elements l'
                end) l ++ "]"
  | JObj o =>
      "{" ++ (fix members (o : list (string * value)) : string :=
                match o with
                | [] => ""
                | [(k, v)] => quoted k ++ ":" ++ print v
                | (k, v) :: o' => quoted k ++ ":" ++ print v ++ "," ++ members o'
                end) o ++ "}"
  end.

(** The value of key [k], the last one when [k] occurs twice. *)
Fixpoint member (k : string) (o : list (string * value)) : option value :=
  match o with
  | [] => None
  | (k', v) :: o' =>
      match member k o' with
      | Some v' => Some v'
      | None => if String.eqb k' k then Some v else None
      end
  end.

End Json.

(** [json.Unmarshal] into the two wire records: the record as far as it was
    filled, and the error. A key that is absent or [null] leaves the field
    at its zero value. *)

Module Decode.
Import Json.

Definition typeError (k : string) : string :=
  "json: cannot unmarshal value into Go struct field " ++ k.

Definition str (k : string) (o : list (string * value)) : string * error :=
  match member k o with
  | None | Some JNull => ("", None)
  | Some (JStr s) => (s, None)
  | Some _ => ("", Some (typeError k))
  end.

Definition int (k : string) (o : list (string * value)) : Z * error :=
  match member k o with
  | None | Some JNull => (0%Z, None)
  | Some (JNum z) => (z, None)
  | Some _ => (0%Z, Some (typeError k))
  end.

Definition boolean (k : string) (o : list (string * value)) : bool * error :=
  match member k o with
  | None | Some JNull => (false, None)
  | Some (JBool b) => (b, None)
  | Some _ => (false, Some (typeError k))
  end.

Fixpoint strings (k : string) (l : list value) : list string * error :=
  match l with
  | [] => ([], None)
  | JStr s :: l' => let '(r, e) := strings k l' in (s :: r, e)
  | JNull :: l' => let '(r, e) := strings k l' in ("" :: r, e)
  | _ :: l' => let '(r, e) := strings k l' in ("" :: r, Some (typeError k))
  end.

Definition strs (k : string) (o : list (string * value)) : option (list string) * error :=
  match member k o with
  | None | Some JNull => (None, None)
  | Some (JArr l) => let '(r, e) := strings k l in (Some r, e)
  | Some _ => (None, Some (typeError k))
  end.

(** The first error met, in the order of the arguments. *)
Fixpoint firstError (l : list error) : error :=
  match l with
  | [] => None
  | Some e :: _ => Some e
  | None :: l' => firstError l'
  end.

Definition deviceServiceOfValue (v : value) : jsonDeviceService * error :=
  match v with
  | JNull => (zeroDeviceService, None)
  | JObj o =>
      let '(port, e1) := int "port" o in
      let '(id, e2) := str "id" o in
      let '(policy, e3) := str "connection_policy" o in
      let '(proto, e4) := str "protocol" o in
      let '(name, e5) := str "service_name" o in
      let '(domains, e6) := strs "global_domains" o in
      let '(subs, e7) := strs "subprotocols" o in
      (mkJsonDeviceService port id policy proto name domains subs,
       firstError [e1; e2; e3; e4; e5; e6; e7])
  | _ => (zeroDeviceService, Some "json: cannot unmarshal value into Go value of type bastion.jsonDeviceService")
  end.

Fixpoint deviceServicesOfValues (l : list value) : list jsonDeviceService * error :=
  match l with
  | [] => ([], None)
  | v :: l' =>
      let '(j, e) := deviceServiceOfValue v in
      let '(r, e') := deviceServicesOfValues l' in
      (j :: r, firstError [e; e'])
  end.

Definition syntaxError : string := "invalid character or unexpected end of JSON input".

(** [json.Unmarshal([]byte(body), &result)] with [result] a fresh
    [jsonDeviceService]. *)
Definition deviceService (body : string) : jsonDeviceService * error :=
  match parse body with
  | Some v => deviceServiceOfValue v
  | None => (zeroDeviceService, Some syntaxError)
  end.

(** The same with [results] a nil [[]jsonDeviceService]. *)
Definition deviceServices (body : string) : list jsonDeviceService * error :=
  match parse body with
  | Some JNull => ([], None)
  | Some (JArr l) => deviceServicesOfValues l
  | Some _ => ([], Some "json: cannot unmarshal value into Go value of type []bastion.jsonDeviceService")
  | None => ([], Some syntaxError)
  end.

(** The same with [result] a fresh [jsonConfigX509]. *)
Definition configX509 (body : string) : jsonConfigX509 * error :=
  match parse body with
  | Some JNull => (zeroConfigX509, None)
  | Some (JObj o) =>
      let '(ca, e1) := str "ca_certificate" o in
      let '(pub, e2) := str "server_public_key" o in
      let '(priv, e3) := str "server_private_key" o in
      let '(en, e4) := boolean "enable" o in
      let '(def, e5) := boolean "default" o in
      (mkJsonConfigX509 ca pub priv en def, firstError [e1; e2; e3; e4; e5])
  | Some _ => (zeroConfigX509, Some "json: cannot unmarshal value into Go value of type bastion.jsonConfigX509")
  | None => (zeroConfigX509, Some syntaxError)
  end.

End Decode.

(** [json.Marshal] of the wire records, as the struct tags direct: a field
    tagged [omitempty] is left out when it is the empty string, [false] or a
    nil pointer. *)

Module Encode.
Import Json.

Definition always (k : string) (v : value) : list (string * value) := [(k, v)].

Definition omitemptyStr (k s : string) : list (string * value) :=
  if String.eqb s "" then [] else [(k, JStr s)].

Definition omitemptyBool (k : string) (b : bool) : list (string * value) :=
  if b then [(k, JBool true)] else [].

Definition omitemptyStrs (k : string) (p : option (list string)) : list (string * value) :=
  match p with
  | None => []
  | Some l => [(k, JArr (map JStr l))]
  end.

Definition deviceService (j : jsonDeviceService) : list (string * value) :=
  (always "port" (JNum (Port j))
   ++ omitemptyStr "id" (ID j)
   ++ always "connection_policy" (JStr (ConnectionPolicy j))
   ++ omitemptyStr "protocol" (Protocol j)
   ++ omitemptyStr "service_name" (ServiceName j)
   ++ omitemptyStrs "global_domains" (GlobalDomains j)
   ++ omitemptyStrs "subprotocols" (SubProtocols j))%list.

Definition configX509 (j : jsonConfigX509) : list (string * value) :=
  (omitemptyStr "ca_certificate" (CaCertificate j)
   ++ always "server_public_key" (JStr (ServerPublicKey j))
   ++ always "server_private_key" (JStr (ServerPrivateKey j))
   ++ omitemptyBool "enable" (Enable j)
   ++ omitemptyBool "default" (Default j))%list.

(** The keys present in the payload. *)
Definition keys (o : list (string * value)) : list string := map fst o.

End Encode.

(** ** The gateway and the handler monad *)

(** [http.MethodGet] and the like. *)
Inductive Method := MethodGet | MethodPost | MethodPut | MethodDelete.

(** The [jsonData interface{}] argument of [newRequest]. *)
Inductive Payload :=
| NoPayload
| DeviceServicePayload (j : jsonDeviceService)
| ConfigX509Payload (j : jsonConfigX509).

Record Request := mkRequest {
  reqPath : string;
  reqMethod : Method;
  reqPayload : Payload
}.

(** What [newRequest] returns: [(body, code, err)], [err] set on a failure
    of the transport only. *)
Record Response := mkResponse {
  respBody : string;
  respCode : Z;
  respErr : error
}.

(** The requests issued so far, oldest first. *)
Definition Log := list Request.

(** [*Client]: the discovered API version and the remote system behind it,
    which answers a request knowing the requests before it. *)
Record Client := mkClient {
  bastionAPIVersion : string;
  remote : Log -> Request -> Response
}.

Definition StatusOK : Z := 200.
Definition StatusNoContent : Z := 204.
Definition StatusNotFound : Z := 404.

Inductive Outcome (A : Type) :=
| Done (a : A)
| Panicked (msg : string).
Arguments Panicked {A} msg.

Definition M (A : Type) : Type := Log -> Outcome A * Log.

Definition ret {A} (a : A) : M A := fun log => (Done a, log).

Definition bind {A B} (c : M A) (k : A -> M B) : M B :=
  fun log =>
    match c log with
    | (Done a, log') => k a log'
    | (Panicked msg, log') => (Panicked msg, log')
    end.

Definition panic {A} (msg : string) : M A := fun log => (Panicked msg, log).

Declare Scope go_scope.
Delimit Scope go_scope with go.
Notation "x <- c ;; k" := (bind c (fun x => k))
  (at level 61, c at next level, right associativity) : go_scope.
Notation "' p <- c ;; k" := (bind c (fun x => let 'p := x in k))
  (at level 61, p pattern, c at next level, right associativity) : go_scope.
Local Open Scope go_scope.

(** [c.newRequest(ctx, path, method, jsonData)]: one call to the remote
    system, recorded in the log whatever the answer. *)
Definition newRequest (c : Client) (path : string) (method : Method) (jsonData : Payload)
  : M (string * Z * error) :=
  fun log =>
    let req := mkRequest path method jsonData in
    let r := remote c log req in
    (Done (respBody r, respCode r, respErr r), (log ++ [req])%list).

(** [diag.Diagnostics] by their summaries, and [diag.FromErr]. *)
Definition Diagnostics := list string.

Definition diag_FromErr (err : error) : Diagnostics :=
  match err with
  | Some e => [e]
  | None => []
  end.

Definition nl : string := String "010" EmptyString.

(** ** [schema.ResourceData]

    The tracked identity, the attributes of the prior state, the attributes
    [d.Get] reads, and the partial-mode flag. [d.HasChange k] compares the
    prior and the current value of [k]; the handlers call it before any
    [d.Set]. A [schema.Set] of strings is the list [Set.List()] returns. *)

Record ResourceData (A : Type) := mkResourceData {
  Id : string;
  prior : A;
  attrs : A;
  partial : bool
}.

Definition SetId {A} (d : ResourceData A) (v : string) : ResourceData A :=
  mkResourceData v (prior d) (attrs d) (partial d).

Definition Partial {A} (d : ResourceData A) (on : bool) : ResourceData A :=
  mkResourceData (Id d) (prior d) (attrs d) on.

Definition SetAttrs {A} (d : ResourceData A) (a : A) : ResourceData A :=
  mkResourceData (Id d) (prior d) a (partial d).

(** The schema of [resourceDeviceService]. *)
Record DeviceServiceAttrs := mkDeviceServiceAttrs {
  device_id : string;
  service_name : string;
  connection_policy : string;
  port : Z;
  protocol : string;
  global_domains : list string;
  subprotocols : list string
}.

Definition strings_eqb (a b : list string) : bool :=
  if list_eq_dec string_dec a b then true else false.

(** [d.HasChange(key)] on a device service. *)
Definition HasChange (d : ResourceData DeviceServiceAttrs) (key : string) : bool :=
  let o := prior d in
  let n := attrs d in
  if String.eqb key "device_id" then negb (String.eqb (device_id o) (device_id n))
  else if String.eqb key "service_name" then negb (String.eqb (service_name o) (service_name n))
  else if String.eqb key "connection_policy" then negb (String.eqb (connection_policy o) (connection_policy n))
  else if String.eqb key "port" then negb (Z.eqb (port o) (port n))
  else if String.eqb key "protocol" then negb (String.eqb (protocol o) (protocol n))
  else if String.eqb key "global_domains" then negb (strings_eqb (global_domains o) (global_domains n))
  else if String.eqb key "subprotocols" then negb (strings_eqb (subprotocols o) (subprotocols n))
  else false.

(** The values the handlers of the device service hand to [d.Set]: a
    string, an int, or a pointer to a slice of strings, nil when the record
    has no such list. *)
Inductive SetValue :=
| StringValue (s : string)
| IntValue (n : Z)
| StringsValue (p : option (list string)).

(** The schema of [resourceConfigX509]. *)
Record ConfigX509Attrs := mkConfigX509Attrs {
  ca_certificate : string;
  server_public_key : string;
  server_private_key : string;
  enable : bool
}.

(** [*pem.Block] and [*x509.Certificate], the fields the handlers read. *)
Record pem_Block := mkPemBlock {
  Bytes : string
}.

Record x509_Certificate := mkCertificate {
  Subject_CommonName : string
}.

(** ** What the handlers take from outside the files at hand

    - [defaultVersionsValid], [resourceDeviceVersionCheck] and
      [readDeviceOptions] are defined elsewhere in package [bastion];
    - [json.Unmarshal] at the three types it is used at, the first result
      of [pem.Decode] (nil when no PEM block is found) and
      [x509.ParseCertificate] are library code;
    - so is [d.Set] on the schema of the device service: [Set_error key v]
      is the error [d.Set(key, v)] returns, [None] when the value is
      stored, and [Set_List l] is what [Set.List()] returns of the
      [schema.Set] stored from the slice [l] (the SDK keeps one element
      per hash code and lists them in the order of the codes). *)

Class Platform := {
  defaultVersionsValid : list string;
  resourceDeviceVersionCheck : string -> error;
  jsonDevice : Type;
  jsonDevice_ID : jsonDevice -> string;
  readDeviceOptions : string -> Client -> M (jsonDevice * error);
  unmarshalDeviceService : string -> jsonDeviceService * error;
  unmarshalDeviceServices : string -> list jsonDeviceService * error;
  unmarshalConfigX509 : string -> jsonConfigX509 * error;
  pem_Decode : string -> option pem_Block;
  x509_ParseCertificate : string -> x509_Certificate + string;
  Set_error : string -> SetValue -> error;
  Set_List : list string -> list string
}.

(** ** The device service *)

Section DeviceService.
Context {P : Platform}.

Definition resourceDeviceServiceVersionCheck (version : string) : error :=
  if slices_Contains defaultVersionsValid version then None
  else Some ("resource wallix-bastion_device_service not available with api version " ++ version).

Definition searchResourceDeviceService (deviceID serviceName : string) (m : Client)
  : M (string * bool * error) :=
  '(body, code, err) <- newRequest m
      ("/devices/" ++ deviceID ++ "/services/?q=service_name=" ++ serviceName) MethodGet NoPayload ;;
  match err with
  | Some _ => ret ("", false, err)
  | None =>
      if negb (code =? StatusOK)%Z then
        ret ("", false, Some ("api doesn't return OK: " ++ itoa code ++ " with body:" ++ nl ++ body))
      else
        let '(results, uerr) := unmarshalDeviceServices body in
        match uerr with
        | Some e => ret ("", false, Some ("unmarshaling json: " ++ e))
        | None =>
            if Nat.eqb (length results) 1 then ret (ID (nth 0 results zeroDeviceService), true, None)
            else ret ("", false, None)
        end
  end.

Definition sshSubProtocolsValid : list string :=
  [ "SSH_SHELL_SESSION"; "SSH_REMOTE_COMMAND"; "SSH_SCP_UP"; "SSH_SCP_DOWN"; "SSH_X11";
    "SFTP_SESSION"; "SSH_DIRECT_TCPIP"; "SSH_REVERSE_TCPIP"; "SSH_AUTH_AGENT";
    "SSH_DIRECT_UNIXSOCK"; "SSH_REVERSE_UNIXSOCK" ].

Definition rdpSubProtocolsValid : list string :=
  [ "RDP_CLIPBOARD_UP"; "RDP_CLIPBOARD_DOWN"; "RDP_CLIPBOARD_FILE"; "RDP_PRINTER";
    "RDP_COM_PORT"; "RDP_DRIVE"; "RDP_SMARTCARD"; "RDP_AUDIO_OUTPUT"; "RDP_AUDIO_INPUT" ].

(** The loop over [listSubProtocols] in [prepareDeviceServiceJSON]: the
    slice filled, or the error of the first token that is refused. *)
Fixpoint subProtocolsLoop (proto : string) (l : list string) : list string * error :=
  match l with
  | [] => ([], None)
  | v :: l' =>
      if String.eqb proto "SSH" then
        if negb (slices_Contains sshSubProtocolsValid v)
        then ([], Some ("subprotocols " ++ v ++ " not valid for SSH service"))
        else let '(r, e) := subProtocolsLoop proto l' in (v :: r, e)
      else if String.eqb proto "RDP" then
        if negb (slices_Contains rdpSubProtocolsValid v)
        then ([], Some ("subprotocols " ++ v ++ " not valid for RDP service"))
        else let '(r, e) := subProtocolsLoop proto l' in (v :: r, e)
      else ([], Some ("subprotocols need to not set for " ++ proto ++ " service"))
  end.

Definition prepareDeviceServiceJSON (d : ResourceData DeviceServiceAttrs) (newResource : bool)
  : jsonDeviceService * error :=
  let a := attrs d in
  let jsonData := mkJsonDeviceService (port a) "" (connection_policy a) "" "" None None in
  let jsonData :=
    if newResource
    then mkJsonDeviceService (Port jsonData) (ID jsonData) (ConnectionPolicy jsonData)
           (protocol a) (service_name a) (GlobalDomains jsonData) (SubProtocols jsonData)
    else jsonData in
  let jsonData :=
    if HasChange d "global_domains"
    then mkJsonDeviceService (Port jsonData) (ID jsonData) (ConnectionPolicy jsonData)
           (Protocol jsonData) (ServiceName jsonData) (Some (global_domains a)) (SubProtocols jsonData)
    else jsonData in
  let listSubProtocols := subprotocols a in
  if (0 <? length listSubProtocols)%nat then
    match subProtocolsLoop (protocol a) listSubProtocols with
    | (_, Some e) => (jsonData, Some e)
    | (subProtocols, None) =>
        (mkJsonDeviceService (Port jsonData) (ID jsonData) (ConnectionPolicy jsonData)
           (Protocol jsonData) (ServiceName jsonData) (GlobalDomains jsonData) (Some subProtocols),
         None)
    end
  else (jsonData, None).

Definition addDeviceService (d : ResourceData DeviceServiceAttrs) (m : Client) : M error :=
  let '(json, err) := prepareDeviceServiceJSON d true in
  match err with
  | Some _ => ret err
  | None =>
      '(body, code, err) <- newRequest m
          ("/devices/" ++ device_id (attrs d) ++ "/services/") MethodPost (DeviceServicePayload json) ;;
      match err with
      | Some _ => ret err
      | None =>
          if negb (code =? StatusOK)%Z && negb (code =? StatusNoContent)%Z then
            ret (Some ("api doesn't return OK or NoContent: " ++ itoa code ++ " with body:" ++ nl ++ body))
          else ret None
      end
  end.

Definition updateDeviceService (d : ResourceData DeviceServiceAttrs) (m : Client) : M error :=
  let '(json, err) := prepareDeviceServiceJSON d false in
  match err with
  | Some _ => ret err
  | None =>
      '(body, code, err) <- newRequest m
          ("/devices/" ++ device_id (attrs d) ++ "/services/" ++ Id d ++ "?force=true")
          MethodPut (DeviceServicePayload json) ;;
      match err with
      | Some _ => ret err
      | None =>
          if negb (code =? StatusOK)%Z && negb (code =? StatusNoContent)%Z then
            ret (Some ("api doesn't return OK or NoContent: " ++ itoa code ++ " with body:" ++ nl ++ body))
          else ret None
      end
  end.

Definition deleteDeviceService (d : ResourceData DeviceServiceAttrs) (m : Client) : M error :=
  '(body, code, err) <- newRequest m
      ("/devices/" ++ device_id (attrs d) ++ "/services/" ++ Id d) MethodDelete NoPayload ;;
  match err with
  | Some _ => ret err
  | None =>
      if negb (code =? StatusOK)%Z && negb (code =? StatusNoContent)%Z then
        ret (Some ("api doesn't return OK or NoContent: " ++ itoa code ++ " with body:" ++ nl ++ body))
      else ret None
  end.

Definition readDeviceServiceOptions (deviceID serviceID : string) (m : Client)
  : M (jsonDeviceService * error) :=
  let result := zeroDeviceService in
  '(body, code, err) <- newRequest m
      ("/devices/" ++ deviceID ++ "/services/" ++ serviceID) MethodGet NoPayload ;;
  match err with
  | Some _ => ret (result, err)
  | None =>
      if (code =? StatusNotFound)%Z then ret (result, None)
      else if negb (code =? StatusOK)%Z then
        ret (result, Some ("api doesn't return OK: " ++ itoa code ++ " with body:" ++ nl ++ body))
      else
        let '(result, uerr) := unmarshalDeviceService body in
        match uerr with
        | Some e => ret (result, Some ("unmarshaling json: " ++ e))
        | None => ret (result, None)
        end
  end.

(** [d.Set(key, value)] on a device service. When the SDK returns an error
    nothing is written. Otherwise the attribute [key] holds the value: a
    string or an int as given, a slice as the set stored from it, and a nil
    slice as the empty set. *)
Definition d_Set (d : ResourceData DeviceServiceAttrs) (key : string) (value : SetValue)
  : ResourceData DeviceServiceAttrs * error :=
  match Set_error key value with
  | Some e => (d, Some e)
  | None =>
      let a := attrs d in
      (SetAttrs d
         match value with
         | StringValue s =>
             if String.eqb key "device_id" then
               mkDeviceServiceAttrs s (service_name a) (connection_policy a) (port a) (protocol a)
                 (global_domains a) (subprotocols a)
             else if String.eqb key "service_name" then
               mkDeviceServiceAttrs (device_id a) s (connection_policy a) (port a) (protocol a)
                 (global_domains a) (subprotocols a)
             else if String.eqb key "connection_policy" then
               mkDeviceServiceAttrs (device_id a) (service_name a) s (port a) (protocol a)
                 (global_domains a) (subprotocols a)
             else if String.eqb key "protocol" then
               mkDeviceServiceAttrs (device_id a) (service_name a) (connection_policy a) (port a) s
                 (global_domains a) (subprotocols a)
             else a
         | IntValue n =>
             if String.eqb key "port" then
               mkDeviceServiceAttrs (device_id a) (service_name a) (connection_policy a) n (protocol a)
                 (global_domains a) (subprotocols a)
             else a
         | StringsValue p =>
             let stored := match p with Some l => Set_List l | None => [] end in
             if String.eqb key "global_domains" then
               mkDeviceServiceAttrs (device_id a) (service_name a) (connection_policy a) (port a)
                 (protocol a) stored (subprotocols a)
             else if String.eqb key "subprotocols" then
               mkDeviceServiceAttrs (device_id a) (service_name a) (connection_policy a) (port a)
                 (protocol a) (global_domains a) stored
             else a
         end,
       None)
  end.

(** [if tfErr := d.Set(key, value); tfErr != nil { panic(tfErr) }] *)
Definition setOrPanic (d : ResourceData DeviceServiceAttrs) (key : string) (value : SetValue)
  : M (ResourceData DeviceServiceAttrs) :=
  let '(d, tfErr) := d_Set d key value in
  match tfErr with
  | Some e => panic e
  | None => ret d
  end.

(** The resource is passed on from one [d.Set] to the next; [device_id] is
    not touched. *)
Definition fillDeviceService (d : ResourceData DeviceServiceAttrs) (jsonData : jsonDeviceService)
  : M (ResourceData DeviceServiceAttrs) :=
  d <- setOrPanic d "service_name" (StringValue (ServiceName jsonData)) ;;
  d <- setOrPanic d "connection_policy" (StringValue (ConnectionPolicy jsonData)) ;;
  d <- setOrPanic d "port" (IntValue (Port jsonData)) ;;
  d <- setOrPanic d "protocol" (StringValue (Protocol jsonData)) ;;
  d <- setOrPanic d "global_domains" (StringsValue (GlobalDomains jsonData)) ;;
  d <- setOrPanic d "subprotocols" (StringsValue (SubProtocols jsonData)) ;;
  ret d.

Definition resourceDeviceServiceRead (d : ResourceData DeviceServiceAttrs) (m : Client)
  : M (ResourceData DeviceServiceAttrs * Diagnostics) :=
  match resourceDeviceServiceVersionCheck (bastionAPIVersion m) with
  | Some e => ret (d, diag_FromErr (Some e))
  | None =>
      '(cfg, err) <- readDeviceServiceOptions (device_id (attrs d)) (Id d) m ;;
      match err with
      | Some _ => ret (d, diag_FromErr err)
      | None =>
          if String.eqb (ID cfg) "" then ret (SetId d "", [])
          else
            d <- fillDeviceService d cfg ;;
            ret (d, [])
      end
  end.

Definition resourceDeviceServiceCreate (d : ResourceData DeviceServiceAttrs) (m : Client)
  : M (ResourceData DeviceServiceAttrs * Diagnostics) :=
  match resourceDeviceServiceVersionCheck (bastionAPIVersion m) with
  | Some e => ret (d, diag_FromErr (Some e))
  | None =>
      '(cfg, err) <- readDeviceOptions (device_id (attrs d)) m ;;
      match err with
      | Some _ => ret (d, diag_FromErr err)
      | None =>
          if String.eqb (jsonDevice_ID cfg) "" then
            ret (d, diag_FromErr (Some ("device with ID " ++ device_id (attrs d) ++ " doesn't exists")))
          else
            '(_, ex, err) <- searchResourceDeviceService (device_id (attrs d)) (service_name (attrs d)) m ;;
            match err with
            | Some _ => ret (d, diag_FromErr err)
            | None =>
                if ex : bool then
                  ret (d, diag_FromErr (Some ("service_name " ++ service_name (attrs d)
                                              ++ " on device_id " ++ device_id (attrs d) ++ " already exists")))
                else
                  err <- addDeviceService d m ;;
                  match err with
                  | Some _ => ret (d, diag_FromErr err)
                  | None =>
                      '(id, ex, err) <- searchResourceDeviceService
                          (device_id (attrs d)) (service_name (attrs d)) m ;;
                      match err with
                      | Some _ => ret (d, diag_FromErr err)
                      | None =>
                          if negb ex then
                            ret (d, diag_FromErr (Some ("service_name " ++ service_name (attrs d)
                                                        ++ " on device_id " ++ device_id (attrs d)
                                                        ++ " not found after POST")))
                          else resourceDeviceServiceRead (SetId d id) m
                      end
                  end
            end
      end
  end.

Definition resourceDeviceServiceUpdate (d : ResourceData DeviceServiceAttrs) (m : Client)
  : M (ResourceData DeviceServiceAttrs * Diagnostics) :=
  let d := Partial d true in
  match resourceDeviceVersionCheck (bastionAPIVersion m) with
  | Some e => ret (d, diag_FromErr (Some e))
  | None =>
      err <- updateDeviceService d m ;;
      match err with
      | Some _ => ret (d, diag_FromErr err)
      | None =>
          let d := Partial d false in
          resourceDeviceServiceRead d m
      end
  end.

Definition resourceDeviceServiceDelete (d : ResourceData DeviceServiceAttrs) (m : Client)
  : M (ResourceData DeviceServiceAttrs * Diagnostics) :=
  match resourceDeviceServiceVersionCheck (bastionAPIVersion m) with
  | Some e => ret (d, diag_FromErr (Some e))
  | None =>
      err <- deleteDeviceService d m ;;
      match err with
      | Some _ => ret (d, diag_FromErr err)
      | None => ret (d, [])
      end
  end.

(** The importer returns [(nil, err)] or the one-element slice [[d]]. *)
Definition resourceDeviceServiceImport (d : ResourceData DeviceServiceAttrs) (m : Client)
  : M (list (ResourceData DeviceServiceAttrs) * error) :=
  match resourceDeviceServiceVersionCheck (bastionAPIVersion m) with
  | Some e => ret ([], Some e)
  | None =>
      let idSplit := strings_Split (Id d) "/" in
      if negb (Nat.eqb (length idSplit) 2) then
        ret ([], Some "id must be <device_id>/<service_name>")
      else
        '(id, ex, err) <- searchResourceDeviceService (nth 0 idSplit "") (nth 1 idSplit "") m ;;
        match err with
        | Some _ => ret ([], err)
        | None =>
            if negb ex then
              ret ([], Some ("don't find service_name with id " ++ Id d
                             ++ " (id must be <device_id>/<service_name>)"))
            else
              '(cfg, err) <- readDeviceServiceOptions (nth 0 idSplit "") id m ;;
              match err with
              | Some _ => ret ([], err)
              | None =>
                  d <- fillDeviceService d cfg ;;
                  let d := SetId d id in
                  d <- setOrPanic d "device_id" (StringValue (nth 0 idSplit "")) ;;
                  ret ([d], None)
              end
        end
  end.

End DeviceService.

(** ** The x509 configuration *)

Section ConfigX509.
Context {P : Platform}.

(** What the Go runtime reports when a nil pointer is dereferenced. *)
Definition nilDereference : string :=
  "runtime error: invalid memory address or nil pointer dereference".

Definition prepareConfigX509JSON (d : ResourceData ConfigX509Attrs) : jsonConfigX509 :=
  let a := attrs d in
  mkJsonConfigX509 (ca_certificate a) (server_public_key a) (server_private_key a) (enable a) false.

(** [d.Set("enable", ...)] of a boolean does not fail. *)
Definition fillConfigX509 (d : ResourceData ConfigX509Attrs) (jsonData : jsonConfigX509)
  : ResourceData ConfigX509Attrs * error :=
  let a := attrs d in
  (SetAttrs d (mkConfigX509Attrs (ca_certificate a) (server_public_key a) (server_private_key a)
                 (Enable jsonData)),
   None).

Definition addConfigX509 (d : ResourceData ConfigX509Attrs) (m : Client) : M error :=
  let jsonData := prepareConfigX509JSON d in
  '(body, code, err) <- newRequest m "/config/x509" MethodPost (ConfigX509Payload jsonData) ;;
  match err with
  | Some _ => ret err
  | None =>
      if negb (code =? StatusOK)%Z && negb (code =? StatusNoContent)%Z then
        ret (Some ("API returned error: " ++ itoa code ++ " with body:" ++ nl ++ body))
      else ret None
  end.

Definition readConfigX509Options (m : Client) : M (jsonConfigX509 * error) :=
  let result := zeroConfigX509 in
  '(body, code, err) <- newRequest m "/config/x509" MethodGet NoPayload ;;
  match err with
  | Some _ => ret (result, err)
  | None =>
      if (code =? StatusNotFound)%Z then ret (result, None)
      else if negb (code =? StatusOK)%Z then
        ret (result, Some ("API returned error: " ++ itoa code ++ " with body:" ++ nl ++ body))
      else
        let '(result, uerr) := unmarshalConfigX509 body in
        match uerr with
        | Some e => ret (result, Some ("error unmarshaling JSON: " ++ e))
        | None => ret (result, None)
        end
  end.

Definition updateConfigX509 (d : ResourceData ConfigX509Attrs) (m : Client) : M error :=
  let jsonData := prepareConfigX509JSON d in
  '(body, code, err) <- newRequest m "/config/x509" MethodPut (ConfigX509Payload jsonData) ;;
  match err with
  | Some _ => ret err
  | None =>
      if negb (code =? StatusOK)%Z && negb (code =? StatusNoContent)%Z then
        ret (Some ("API returned error: " ++ itoa code ++ " with body:" ++ nl ++ body))
      else ret None
  end.

Definition deleteConfigX509 (m : Client) : M error :=
  '(body, code, err) <- newRequest m "/config/x509" MethodDelete NoPayload ;;
  match err with
  | Some _ => ret err
  | None =>
      if negb (code =? StatusOK)%Z && negb (code =? StatusNoContent)%Z then
        ret (Some ("API returned error: " ++ itoa code ++ " with body:" ++ nl ++ body))
      else ret None
  end.

Definition resourceConfigX509Read (d : ResourceData ConfigX509Attrs) (m : Client)
  : M (ResourceData ConfigX509Attrs * Diagnostics) :=
  '(cfg, err) <- readConfigX509Options m ;;
  match err with
  | Some _ => ret (d, diag_FromErr err)
  | None =>
      if Default cfg then ret (SetId d "", [])
      else
        (* the statements after the two certificate checks *)
        let fill : M (ResourceData ConfigX509Attrs * Diagnostics) :=
          let '(d', err) := fillConfigX509 d cfg in
          match err with
          | Some _ => ret (d', diag_FromErr err)
          | None => ret (d', [])
          end in
        (* the check of server_public_key and what follows it *)
        let serverPublicKeyCheck : M (ResourceData ConfigX509Attrs * Diagnostics) :=
          if negb (String.eqb (server_public_key (attrs d)) "") then
            match pem_Decode (server_public_key (attrs d)) with
            | None => panic nilDereference
            | Some serverPublicKeyPEM =>
                match x509_ParseCertificate (Bytes serverPublicKeyPEM) with
                | inr e => ret (d, diag_FromErr (Some e))
                | inl serverPublicKey =>
                    if negb (strings_Contains (ServerPublicKey cfg)
                               ("/CN=" ++ Subject_CommonName serverPublicKey))
                    then ret (SetId d "", [])
                    else fill
                end
            end
          else fill in
        if negb (String.eqb (ca_certificate (attrs d)) "") then
          match pem_Decode (ca_certificate (attrs d)) with
          | None => panic nilDereference
          | Some caCertificatePEM =>
              match x509_ParseCertificate (Bytes caCertificatePEM) with
              | inr e => ret (d, diag_FromErr (Some e))
              | inl caCertificate =>
                  if negb (strings_Contains (CaCertificate cfg)
                             ("/CN=" ++ Subject_CommonName caCertificate))
                  then ret (SetId d "", [])
                  else serverPublicKeyCheck
              end
          end
        else serverPublicKeyCheck
  end.

Definition resourceConfigX509Create (d : ResourceData ConfigX509Attrs) (m : Client)
  : M (ResourceData ConfigX509Attrs * Diagnostics) :=
  err <- addConfigX509 d m ;;
  match err with
  | Some _ => ret (d, diag_FromErr err)
  | None => resourceConfigX509Read (SetId d "x509Config") m
  end.

Definition resourceConfigX509Update (d : ResourceData ConfigX509Attrs) (m : Client)
  : M (ResourceData ConfigX509Attrs * Diagnostics) :=
  err <- updateConfigX509 d m ;;
  match err with
  | Some _ => ret (d, diag_FromErr err)
  | None => resourceConfigX509Read d m
  end.

Definition resourceConfigX509Delete (d : ResourceData ConfigX509Attrs) (m : Client)
  : M (ResourceData ConfigX509Attrs * Diagnostics) :=
  err <- deleteConfigX509 m ;;
  match err with
  | Some _ => ret (d, diag_FromErr err)
  | None => ret (SetId d "", [])
  end.

(** The client argument is the blank identifier in the source. *)
Definition resourceConfigX509Import (d : ResourceData ConfigX509Attrs) (_ : Client)
  : M (list (ResourceData ConfigX509Attrs) * error) :=
  let d := SetId d "x509Config" in
  ret ([d], None).

End ConfigX509.

(** ** Concrete platforms, remotes and resources

    The properties below hold for every [Platform] and every remote. To run
    the handlers, this module fixes one platform (the JSON decoders above,
    the version list with the version of the specification's example, and
    stand-ins for the code that is not at hand) and a few remotes. *)

Module Sample.

(** Stand-in for certificates: the PEM body carries the subject in clear,
    as [CN=<name>] on the line after the BEGIN line. *)
Definition pemHeader : string := "-----BEGIN CERTIFICATE-----" ++ nl.

Fixpoint upToNewline (s : string) : string :=
  match s with
  | EmptyString => EmptyString
  | String c s' => if Ascii.eqb c "010" then EmptyString else String c (upToNewline s')
  end.

Definition pemDecode (s : string) : option pem_Block :=
  if strings_HasPrefix s pemHeader
  then Some (mkPemBlock (upToNewline
          (String.substring (String.length pemHeader) (String.length s - String.length pemHeader) s)))
  else None.

Definition parseCertificate (der : string) : x509_Certificate + string :=
  if strings_HasPrefix der "CN="
  then inl (mkCertificate (String.substring 3 (String.length der - 3) der))
  else inr "x509: malformed certificate".

Definition certificate (cn : string) : string :=
  pemHeader ++ "CN=" ++ cn ++ nl ++ "-----END CERTIFICATE-----" ++ nl.

(** Stand-in for the storage of a [schema.Set] of strings: duplicates are
    dropped and the elements are listed in the order of [String.compare],
    where the SDK lists them in the order of their hash codes. *)
Fixpoint setInsert (v : string) (l : list string) : list string :=
  match l with
  | [] => [v]
  | w :: l' =>
      match String.compare v w with
      | Lt => v :: l
      | Eq => l
      | Gt => w :: setInsert v l'
      end
  end.

Definition setList (l : list string) : list string := fold_right setInsert [] l.

(** The gate of the device resource, taken of the same shape as the gate
    of the device service. *)
Definition deviceVersionCheck (versions : list string) (version : string) : error :=
  if slices_Contains versions version then None
  else Some ("resource wallix-bastion_device not available with api version " ++ version).

(** Stand-in for [readDeviceOptions], of the same shape as
    [readDeviceServiceOptions]: one GET of the device, a 404 gives the
    zero value. *)
Definition readDevice (deviceID : string) (m : Client) : M (jsonDeviceService * error) :=
  bind (newRequest m ("/devices/" ++ deviceID) MethodGet NoPayload)
    (fun x => let '(body, code, err) := x in
       match err with
       | Some _ => ret (zeroDeviceService, err)
       | None =>
           if (code =? StatusNotFound)%Z then ret (zeroDeviceService, None)
           else if negb (code =? StatusOK)%Z then
             ret (zeroDeviceService, Some ("api doesn't return OK: " ++ itoa code))
           else ret (Decode.deviceService body)
       end).

Definition platform : Platform := {|
  defaultVersionsValid := ["3.12"];
  resourceDeviceVersionCheck := deviceVersionCheck ["3.12"];
  jsonDevice := jsonDeviceService;
  jsonDevice_ID := ID;
  readDeviceOptions := readDevice;
  unmarshalDeviceService := Decode.deviceService;
  unmarshalDeviceServices := Decode.deviceServices;
  unmarshalConfigX509 := Decode.configX509;
  pem_Decode := pemDecode;
  x509_ParseCertificate := parseCertificate;
  Set_error := fun _ _ => None;
  Set_List := setList
|}.

(** The same platform with a [d.Set] that returns an error for the port,
    to run the handlers where the SDK refuses a value. *)
Definition refusingPlatform : Platform := {|
  defaultVersionsValid := ["3.12"];
  resourceDeviceVersionCheck := deviceVersionCheck ["3.12"];
  jsonDevice := jsonDeviceService;
  jsonDevice_ID := ID;
  readDeviceOptions := readDevice;
  unmarshalDeviceService := Decode.deviceService;
  unmarshalDeviceServices := Decode.deviceServices;
  unmarshalConfigX509 := Decode.configX509;
  pem_Decode := pemDecode;
  x509_ParseCertificate := parseCertificate;
  Set_error := fun key _ => if String.eqb key "port" then Some "port: value refused" else None;
  Set_List := setList
|}.

(** The same platform with a device gate that lets every version pass. *)
Definition lenientPlatform : Platform := {|
  defaultVersionsValid := ["3.12"];
  resourceDeviceVersionCheck := fun _ => None;
  jsonDevice := jsonDeviceService;
  jsonDevice_ID := ID;
  readDeviceOptions := readDevice;
  unmarshalDeviceService := Decode.deviceService;
  unmarshalDeviceServices := Decode.deviceServices;
  unmarshalConfigX509 := Decode.configX509;
  pem_Decode := pemDecode;
  x509_ParseCertificate := parseCertificate;
  Set_error := fun _ _ => None;
  Set_List := setList
|}.

Definition isMethod (a b : Method) : bool :=
  match a, b with
  | MethodGet, MethodGet | MethodPost, MethodPost
  | MethodPut, MethodPut | MethodDelete, MethodDelete => true
  | _, _ => false
  end.

(** Has a request with method [me] been seen? *)
Definition seen (me : Method) (log : Log) : bool :=
  existsb (fun r => isMethod (reqMethod r) me) log.

(** The bodies the remotes answer, printed from their JSON values. *)
Definition serviceValue : Json.value :=
  Json.JObj [("id", Json.JStr "svc-1"); ("service_name", Json.JStr "svcA");
             ("protocol", Json.JStr "SSH"); ("port", Json.JNum 22);
             ("connection_policy", Json.JStr "SSH")].

Definition serviceBody : string := Json.print serviceValue.

Definition deviceBody : string := Json.print (Json.JObj [("id", Json.JStr "dev123")]).

Definition twinsBody : string :=
  Json.print (Json.JArr [Json.JObj [("id", Json.JStr "svc-1"); ("service_name", Json.JStr "svcA")];
                         Json.JObj [("id", Json.JStr "svc-2"); ("service_name", Json.JStr "svcA")]]).

(** An x509 configuration whose two observed values hold [cn]. *)
Definition x509Body (cn : string) : string :=
  Json.print (Json.JObj [("ca_certificate", Json.JStr ("/C=FR/O=Example/CN=" ++ cn));
                         ("server_public_key", Json.JStr ("/C=FR/CN=" ++ cn));
                         ("enable", Json.JBool true)]).

(** A remote that knows nothing: every answer is a 404. *)
Definition emptyRemote : Log -> Request -> Response :=
  fun _ _ => mkResponse "not found" StatusNotFound None.

(** A remote holding device [dev123]; its service [svcA] exists once a
    POST has been received, under the identifier [svc-1]. *)
Definition applianceRemote : Log -> Request -> Response :=
  fun log req =>
    match reqMethod req with
    | MethodGet =>
        if String.eqb (reqPath req) "/devices/dev123" then
          mkResponse deviceBody StatusOK None
        else if String.eqb (reqPath req) "/devices/dev123/services/?q=service_name=svcA" then
          mkResponse (if seen MethodPost log then "[" ++ serviceBody ++ "]" else "[]") StatusOK None
        else if String.eqb (reqPath req) "/devices/dev123/services/svc-1" then
          if seen MethodPost log then mkResponse serviceBody StatusOK None
          else mkResponse "not found" StatusNotFound None
        else mkResponse "not found" StatusNotFound None
    | _ => mkResponse "" StatusNoContent None
    end.

(** The same device with the service already there. *)
Definition populatedRemote : Log -> Request -> Response :=
  fun log req => applianceRemote (mkRequest "/devices/dev123/services/" MethodPost NoPayload :: log) req.

(** A remote that accepts the POST and stores nothing. *)
Definition forgetfulRemote : Log -> Request -> Response :=
  fun _ req => applianceRemote [] req.

(** A remote whose listing answers two services for the one name. *)
Definition duplicateRemote : Log -> Request -> Response :=
  fun log req =>
    if String.eqb (reqPath req) "/devices/dev123/services/?q=service_name=svcA" then
      mkResponse twinsBody StatusOK None
    else applianceRemote log req.

(** The same configuration flagged as the default one of the remote. *)
Definition x509DefaultBody (cn : string) : string :=
  Json.print (Json.JObj [("ca_certificate", Json.JStr ("/C=FR/O=Example/CN=" ++ cn));
                         ("server_public_key", Json.JStr ("/C=FR/CN=" ++ cn));
                         ("default", Json.JBool true)]).

(** A remote for the x509 configuration, answering [body] to the GET. *)
Definition x509Remote (body : string) : Log -> Request -> Response :=
  fun _ req =>
    match reqMethod req with
    | MethodGet => mkResponse body StatusOK None
    | _ => mkResponse "" StatusNoContent None
    end.

Definition client (version : string) (r : Log -> Request -> Response) : Client :=
  mkClient version r.

Definition sshService (subs : list string) : DeviceServiceAttrs :=
  mkDeviceServiceAttrs "dev123" "svcA" "SSH" 22 "SSH" [] subs.

(** A service declared for the first time: the prior state is empty. *)
Definition declared (a : DeviceServiceAttrs) : ResourceData DeviceServiceAttrs :=
  mkResourceData "" (mkDeviceServiceAttrs "" "" "" 0 "" [] []) a false.

(** A service tracked under [id] whose declaration did not change. *)
Definition tracked (id : string) (a : DeviceServiceAttrs) : ResourceData DeviceServiceAttrs :=
  mkResourceData id a a false.

(** A resource as the importer receives it: only the identifier is set. *)
Definition imported (id : string) : ResourceData DeviceServiceAttrs :=
  mkResourceData id (mkDeviceServiceAttrs "" "" "" 0 "" [] []) (mkDeviceServiceAttrs "" "" "" 0 "" [] []) false.

Definition x509 (id ca pub : string) : ResourceData ConfigX509Attrs :=
  let a := mkConfigX509Attrs ca pub "key" true in
  mkResourceData id a a false.

(** The clients: a supported version in front of each remote, and an
    unsupported one in front of the appliance. *)
Definition nowhere : Client := client "3.12" emptyRemote.
Definition appliance : Client := client "3.12" applianceRemote.
Definition populated : Client := client "3.12" populatedRemote.
Definition forgetful : Client := client "3.12" forgetfulRemote.
Definition duplicated : Client := client "3.12" duplicateRemote.
Definition outdated : Client := client "3.10" populatedRemote.

(** Service [svcA] of device [dev123], tracked as [svc-1] and unchanged. *)
Definition svcA : ResourceData DeviceServiceAttrs := tracked "svc-1" (sshService []).

(** [svcA] declared with an SSH and an RDP sub-protocol, not yet created. *)
Definition mixed : ResourceData DeviceServiceAttrs :=
  declared (sshService ["SSH_SHELL_SESSION"; "RDP_PRINTER"]).

(** A VNC service declared with a sub-protocol. *)
Definition vnc : ResourceData DeviceServiceAttrs :=
  declared (mkDeviceServiceAttrs "dev123" "svcA" "VNC" 5900 "VNC" [] ["RDP_PRINTER"]).

(** [svcA] tracked with one sub-protocol; the operator changed the port
    from 22 to 2222 and nothing else. *)
Definition moved : ResourceData DeviceServiceAttrs :=
  mkResourceData "svc-1" (sshService ["SSH_SHELL_SESSION"])
    (mkDeviceServiceAttrs "dev123" "svcA" "SSH" 2222 "SSH" [] ["SSH_SHELL_SESSION"]) false.

Definition movedPayload : jsonDeviceService :=
  mkJsonDeviceService 2222 "" "SSH" "" "" None (Some ["SSH_SHELL_SESSION"]).

Definition deviceRequest : Request := mkRequest "/devices/dev123" MethodGet NoPayload.

(** [svcA] declared for the first time, and what the remote holds for it. *)
Definition fresh : ResourceData DeviceServiceAttrs := declared (sshService []).

Definition deviceRecord : jsonDeviceService := mkJsonDeviceService 0 "dev123" "" "" "" None None.

Definition serviceRecord : jsonDeviceService :=
  mkJsonDeviceService 22 "svc-1" "SSH" "SSH" "svcA" None None.

Definition freshPayload : jsonDeviceService :=
  mkJsonDeviceService 22 "" "SSH" "SSH" "svcA" None None.

(** The x509 configuration of [example.com] behind a client, as decoded,
    and declarations to read against it. *)
Definition x509Appliance : Client := client "3.12" (x509Remote (x509Body "example.com")).

Definition x509Observed : jsonConfigX509 :=
  mkJsonConfigX509 "/C=FR/O=Example/CN=example.com" "/C=FR/CN=example.com" "" true false.

Definition certExample : ResourceData ConfigX509Attrs :=
  x509 "x509Config" (certificate "example.com") (certificate "example.com").

Definition certOther : ResourceData ConfigX509Attrs :=
  x509 "x509Config" (certificate "other.com") (certificate "example.com").

Definition certNone : ResourceData ConfigX509Attrs := x509 "x509Config" "" "".

(** The same remote with its configuration flagged default. *)
Definition x509Defaulted : Client := client "3.12" (x509Remote (x509DefaultBody "example.com")).

Definition x509DefaultObserved : jsonConfigX509 :=
  mkJsonConfigX509 "/C=FR/O=Example/CN=example.com" "/C=FR/CN=example.com" "" false true.

(** The CA certificate of [example.com] with a server key of [other.com]. *)
Definition certSplit : ResourceData ConfigX509Attrs :=
  x509 "x509Config" (certificate "example.com") (certificate "other.com").

(** The CA certificate of [other.com] with a server key that is no PEM. *)
Definition garbageBehind : ResourceData ConfigX509Attrs :=
  x509 "x509Config" (certificate "other.com") "garbage".

Definition garbageCa : ResourceData ConfigX509Attrs :=
  x509 "x509Config" "garbage" (certificate "example.com").

Definition garbagePub : ResourceData ConfigX509Attrs := x509 "x509Config" "" "garbage".

(** The two records of [duplicateRemote]. *)
Definition twins : list jsonDeviceService :=
  [mkJsonDeviceService 0 "svc-1" "" "" "svcA" None None;
   mkJsonDeviceService 0 "svc-2" "" "" "svcA" None None].

(** A remote that answers [answer] to the requests [failing] picks and is
    [base] for the others. *)
Definition faultyRemote (failing : Request -> bool) (answer : Response)
    (base : Log -> Request -> Response) : Log -> Request -> Response :=
  fun log req => if failing req then answer else base log req.

Definition isPath (path : string) (req : Request) : bool := String.eqb (reqPath req) path.

Definition isWrite (req : Request) : bool :=
  match reqMethod req with
  | MethodGet => false
  | _ => true
  end.

Definition refusedConnection : Response := mkResponse "" 0 (Some "dial tcp: connection refused").

(** No request reaches the remote. *)
Definition unreachable : Client := client "3.12" (fun _ _ => refusedConnection).

(** The appliance with its listing out of order. *)
Definition listingDown : Client :=
  client "3.12" (faultyRemote (isPath "/devices/dev123/services/?q=service_name=svcA")
                   (mkResponse "boom" 500 None) applianceRemote).

(** The appliance refusing every write, and losing every write. *)
Definition readOnly : Client :=
  client "3.12" (faultyRemote isWrite (mkResponse "forbidden" 403 None) populatedRemote).

Definition writeLost : Client :=
  client "3.12" (faultyRemote isWrite refusedConnection populatedRemote).

(** The service is listed, and gone when it is read. *)
Definition vanishing : Client :=
  client "3.12" (faultyRemote (isPath "/devices/dev123/services/svc-1")
                   (mkResponse "not found" StatusNotFound None) populatedRemote).

(** The appliance before the service exists, refusing or losing the POST. *)
Definition postRefused : Client :=
  client "3.12" (faultyRemote isWrite (mkResponse "forbidden" 403 None) applianceRemote).

Definition postLost : Client :=
  client "3.12" (faultyRemote isWrite refusedConnection applianceRemote).

(** [svcA] declared for the first time with a global domain and a
    sub-protocol, and the payload of its create. *)
Definition full : ResourceData DeviceServiceAttrs :=
  declared (mkDeviceServiceAttrs "dev123" "svcA" "SSH" 22 "SSH" ["local"] ["SSH_SHELL_SESSION"]).

Definition fullPayload : jsonDeviceService :=
  mkJsonDeviceService 22 "" "SSH" "SSH" "svcA" (Some ["local"]) (Some ["SSH_SHELL_SESSION"]).

(** The service is created and listed, and gone when it is read. *)
Definition listedOnly : Client :=
  client "3.12" (faultyRemote (isPath "/devices/dev123/services/svc-1")
                   (mkResponse "not found" StatusNotFound None) applianceRemote).

(** The service read with a sub-protocol that comes twice in the list. *)
Definition repeatedValue : Json.value :=
  Json.JObj [("id", Json.JStr "svc-1"); ("service_name", Json.JStr "svcA");
             ("protocol", Json.JStr "SSH"); ("port", Json.JNum 22);
             ("connection_policy", Json.JStr "SSH");
             ("subprotocols", Json.JArr [Json.JStr "SSH_X11"; Json.JStr "SSH_SHELL_SESSION";
                                         Json.JStr "SSH_X11"])].

Definition repeatedRecord : jsonDeviceService :=
  mkJsonDeviceService 22 "svc-1" "SSH" "SSH" "svcA" None
    (Some ["SSH_X11"; "SSH_SHELL_SESSION"; "SSH_X11"]).

Definition repeating : Client :=
  client "3.12" (faultyRemote (isPath "/devices/dev123/services/svc-1")
                   (mkResponse (Json.print repeatedValue) StatusOK None) populatedRemote).

(** A PEM block that is no certificate. *)
Definition notACertificate : string := pemHeader ++ "garbage" ++ nl.

Definition brokenCa : ResourceData ConfigX509Attrs :=
  x509 "x509Config" notACertificate (certificate "example.com").

Definition brokenPub : ResourceData ConfigX509Attrs := x509 "x509Config" "" notACertificate.

Definition certPubOnly : ResourceData ConfigX509Attrs :=
  x509 "x509Config" "" (certificate "example.com").

End Sample.

(** ** The requests the handlers issue *)

Definition searchRequest (deviceID serviceName : string) : Request :=
  mkRequest ("/devices/" ++ deviceID ++ "/services/?q=service_name=" ++ serviceName) MethodGet NoPayload.

Definition readRequest (deviceID serviceID : string) : Request :=
  mkRequest ("/devices/" ++ deviceID ++ "/services/" ++ serviceID) MethodGet NoPayload.


Definition createRequest (d : ResourceData DeviceServiceAttrs) (j : jsonDeviceService) : Request :=
  mkRequest ("/devices/" ++ device_id (attrs d) ++ "/services/") MethodPost (DeviceServicePayload j).

Definition updateRequest (d : ResourceData DeviceServiceAttrs) (j : jsonDeviceService) : Request :=
  mkRequest ("/devices/" ++ device_id (attrs d) ++ "/services/" ++ Id d ++ "?force=true")
    MethodPut (DeviceServicePayload j).

Definition x509ReadRequest : Request := mkRequest "/config/x509" MethodGet NoPayload.

(** The message of [deleteDeviceService], [addDeviceService] and
    [updateDeviceService] for a status that is neither 200 nor 204. *)
Definition notOKOrNoContent (code : Z) (body : string) : string :=
  "api doesn't return OK or NoContent: " ++ itoa code ++ " with body:" ++ nl ++ body.

(** The listing of [serviceName] under [deviceID], asked after [log], is
    answered 200 with a body that decodes to [results]. *)
Definition listed {P : Platform} (m : Client) (log : Log) (deviceID serviceName : string)
    (results : list jsonDeviceService) : Prop :=
  respErr (remote m log (searchRequest deviceID serviceName)) = None
  /\ respCode (remote m log (searchRequest deviceID serviceName)) = StatusOK
  /\ unmarshalDeviceServices (respBody (remote m log (searchRequest deviceID serviceName)))
     = (results, None).

(** The error on which [fillDeviceService] panics on a record: the first
    that one of its six [d.Set] returns, in their order. *)
Definition fillError {P : Platform} (j : jsonDeviceService) : error :=
  Decode.firstError
    [ Set_error "service_name" (StringValue (ServiceName j));
      Set_error "connection_policy" (StringValue (ConnectionPolicy j));
      Set_error "port" (IntValue (Port j));
      Set_error "protocol" (StringValue (Protocol j));
      Set_error "global_domains" (StringsValue (GlobalDomains j));
      Set_error "subprotocols" (StringsValue (SubProtocols j)) ].

(** The resource [d] once the six [d.Set] of [fillDeviceService] stored the
    record [j]: the two lists as the sets stored from them, an absent list
    as the empty set; the identity, the device and the prior state as they
    were. *)
Definition filled {P : Platform} (d : ResourceData DeviceServiceAttrs) (j : jsonDeviceService)
  : ResourceData DeviceServiceAttrs :=
  mkResourceData (Id d) (prior d)
    (mkDeviceServiceAttrs (device_id (attrs d)) (ServiceName j) (ConnectionPolicy j)
       (Port j) (Protocol j)
       (match GlobalDomains j with Some l => Set_List l | None => [] end)
       (match SubProtocols j with Some l => Set_List l | None => [] end))
    (partial d).

(** The allow-list of a protocol; a protocol other than SSH and RDP allows
    no sub-protocol. *)
Definition allowList (proto : string) : list string :=
  if String.eqb proto "SSH" then sshSubProtocolsValid
  else if String.eqb proto "RDP" then rdpSubProtocolsValid
  else [].

(** [refused proto subs e]: the sub-protocol set [subs] declared under
    protocol [proto] holds a token outside the allow-list of [proto], and
    [e] is the message for it. Under SSH and RDP the message names the first
    such token of the set; a protocol with no allow-list refuses any
    non-empty set and the message names the protocol only. *)
Inductive refused : string -> list string -> string -> Prop :=
| refused_ssh pre v post :
    Forall (fun w => slices_Contains sshSubProtocolsValid w = true) pre ->
    slices_Contains sshSubProtocolsValid v = false ->
    refused "SSH" (pre ++ v :: post) ("subprotocols " ++ v ++ " not valid for SSH service")
| refused_rdp pre v post :
    Forall (fun w => slices_Contains rdpSubProtocolsValid w = true) pre ->
    slices_Contains rdpSubProtocolsValid v = false ->
    refused "RDP" (pre ++ v :: post) ("subprotocols " ++ v ++ " not valid for RDP service")
| refused_other proto v l :
    proto <> "SSH" -> proto <> "RDP" ->
    refused proto (v :: l) ("subprotocols need to not set for " ++ proto ++ " service").

(** The subject common name of a declared certificate, when the text
    decodes as PEM and the block parses as a certificate. *)
Definition commonName {P : Platform} (declared : string) : option string :=
  match pem_Decode declared with
  | Some block =>
      match x509_ParseCertificate (Bytes block) with
      | inl certificate => Some (Subject_CommonName certificate)
      | inr _ => None
      end
  | None => None
  end.

(** The check of one certificate field passes: nothing is declared, or the
    observed value holds [/CN=] followed by the declared common name. *)
Definition fieldMatches {P : Platform} (observed declared : string) : Prop :=
  declared = ""
  \/ exists cn, commonName declared = Some cn /\ strings_Contains observed ("/CN=" ++ cn) = true.

(** The check of one certificate field finds drift. *)
Definition fieldDrifted {P : Platform} (observed declared : string) : Prop :=
  declared <> ""
  /\ exists cn, commonName declared = Some cn /\ strings_Contains observed ("/CN=" ++ cn) = false.

(** The shape of each of the two certificate checks written out in
    [resourceConfigX509Read], with [rest] the statements after the check. *)
Definition certificateCheck {P : Platform} (d : ResourceData ConfigX509Attrs)
    (observed declared : string) (rest : M (ResourceData ConfigX509Attrs * Diagnostics))
  : M (ResourceData ConfigX509Attrs * Diagnostics) :=
  if negb (String.eqb declared "") then
    match pem_Decode declared with
    | None => panic nilDereference
    | Some block =>
        match x509_ParseCertificate (Bytes block) with
        | inr e => ret (d, diag_FromErr (Some e))
        | inl certificate =>
            if negb (strings_Contains observed ("/CN=" ++ Subject_CommonName certificate))
            then ret (SetId d "", [])
            else rest
        end
    end
  else rest.

(** The requests of the x509 handlers that write, and the message of
    [addConfigX509], [updateConfigX509], [deleteConfigX509] and
    [readConfigX509Options] for a status they do not accept. *)
Definition x509WriteRequest (method : Method) (x : ResourceData ConfigX509Attrs) : Request :=
  mkRequest "/config/x509" method (ConfigX509Payload (prepareConfigX509JSON x)).

Definition x509DeleteRequest : Request := mkRequest "/config/x509" MethodDelete NoPayload.

Definition apiReturnedError (code : Z) (body : string) : string :=
  "API returned error: " ++ itoa code ++ " with body:" ++ nl ++ body.

(** What every outcome of [resourceConfigX509Read] keeps of the resource
    [x] it was given. *)
Definition x509Kept (x x' : ResourceData ConfigX509Attrs) (diags : Diagnostics) : Prop :=
  (diags <> [] -> x' = x)
  /\ (Id x' = Id x \/ x' = SetId x "")
  /\ ca_certificate (attrs x') = ca_certificate (attrs x)
  /\ server_public_key (attrs x') = server_public_key (attrs x)
  /\ server_private_key (attrs x') = server_private_key (attrs x)
  /\ prior x' = prior x.

(** A leaf of the read: the outcome is given, what it keeps is checked. *)
Ltac x509_leaf :=
  intros ? ? Hout; cbn in Hout;
  first [discriminate Hout
        | injection Hout as <- <-; unfold x509Kept;
          split; [first [congruence | intros _; reflexivity]|];
          split; [first [left; reflexivity | right; reflexivity]|];
          repeat split ].

(** A request that reads: a GET with no payload. *)
Definition readsOnly (q : Request) : Prop :=
  reqMethod q = MethodGet /\ reqPayload q = NoPayload.

(** The two ways a request that carries a payload or deletes ends: on a
    transport error, or on the test of the status. *)
Ltac by_status :=
  destruct (respErr _); [reflexivity|];
  destruct (negb _ && negb _); reflexivity.

(** A goal [listed m log deviceID serviceName results] on concrete values. *)
Ltac by_listing := split; [reflexivity|]; split; reflexivity.

Unset Implicit Arguments.

(** ** The definitions on concrete values *)

Example itoa_404 : itoa 404 = "404".
Proof. reflexivity. Qed.

Example split_two : strings_Split "dev123/svcA" "/" = ["dev123"; "svcA"].
Proof. reflexivity. Qed.

Example split_empty : strings_Split "" "/" = [""].
Proof. reflexivity. Qed.

Example contains_cn : strings_Contains "/C=FR/CN=example.com/O=x" "/CN=example.com" = true.
Proof. reflexivity. Qed.

Example sample_certificate :
  option_map Bytes (Sample.pemDecode (Sample.certificate "example.com")) = Some "CN=example.com".
Proof. reflexivity. Qed.

Example sample_create :
  resourceDeviceServiceCreate (P := Sample.platform) (Sample.declared (Sample.sshService []))
    (Sample.client "3.12" Sample.applianceRemote) []
  = (Done (mkResourceData "svc-1" (mkDeviceServiceAttrs "" "" "" 0 "" [] [])
             (Sample.sshService []) false, []),
     [ mkRequest "/devices/dev123" MethodGet NoPayload;
       mkRequest "/devices/dev123/services/?q=service_name=svcA" MethodGet NoPayload;
       mkRequest "/devices/dev123/services/" MethodPost
         (DeviceServicePayload (mkJsonDeviceService 22 "" "SSH" "SSH" "svcA" None None));
       mkRequest "/devices/dev123/services/?q=service_name=svcA" MethodGet NoPayload;
       mkRequest "/devices/dev123/services/svc-1" MethodGet NoPayload ]).
Proof. vm_compute. reflexivity. Qed.

Example x509_delete_404 :
  resourceConfigX509Delete Sample.certExample Sample.nowhere []
  = (Done (Sample.certExample, ["API returned error: 404 with body:" ++ nl ++ "not found"]),
     [mkRequest "/config/x509" MethodDelete NoPayload]).
Proof. reflexivity. Qed.

Example print_parse_service : Json.parse (Json.print Sample.serviceValue) = Some Sample.serviceValue.
Proof. reflexivity. Qed.

Example decode_two_services : Decode.deviceServices Sample.twinsBody = (Sample.twins, None).
Proof. reflexivity. Qed.

(** ** Properties *)

Section Properties.
Context {P : Platform}.

Implicit Types (d : ResourceData DeviceServiceAttrs) (m : Client) (log : Log).

(** *** Running the resolver and the single reads *)

Lemma search_run deviceID serviceName m log :
  let r := remote m log (searchRequest deviceID serviceName) in
  searchResourceDeviceService deviceID serviceName m log =
  (Done
     (match respErr r with
      | Some _ => ("", false, respErr r)
      | None =>
          if negb (respCode r =? StatusOK)%Z then
            ("", false, Some ("api doesn't return OK: " ++ itoa (respCode r) ++ " with body:" ++ nl ++ respBody r))
          else
            match unmarshalDeviceServices (respBody r) with
            | (_, Some e) => ("", false, Some ("unmarshaling json: " ++ e))
            | (results, None) =>
                if Nat.eqb (length results) 1 then (ID (nth 0 results zeroDeviceService), true, None)
                else ("", false, None)
            end
      end),
   (log ++ [searchRequest deviceID serviceName])%list).
Proof.
  unfold searchResourceDeviceService, bind, newRequest, searchRequest, ret; cbn.
  destruct (respErr _); [reflexivity|].
  destruct (negb _); [reflexivity|].
  destruct (unmarshalDeviceServices _) as [results [e|]]; [reflexivity|].
  destruct (Nat.eqb _ _); reflexivity.
Qed.

Lemma readOptions_run deviceID serviceID m log :
  let r := remote m log (readRequest deviceID serviceID) in
  readDeviceServiceOptions deviceID serviceID m log =
  (Done
     (match respErr r with
      | Some _ => (zeroDeviceService, respErr r)
      | None =>
          if (respCode r =? StatusNotFound)%Z then (zeroDeviceService, None)
          else if negb (respCode r =? StatusOK)%Z then
            (zeroDeviceService,
             Some ("api doesn't return OK: " ++ itoa (respCode r) ++ " with body:" ++ nl ++ respBody r))
          else
            match unmarshalDeviceService (respBody r) with
            | (result, Some e) => (result, Some ("unmarshaling json: " ++ e))
            | (result, None) => (result, None)
            end
      end),
   (log ++ [readRequest deviceID serviceID])%list).
Proof.
  unfold readDeviceServiceOptions, bind, newRequest, readRequest, ret; cbn.
  destruct (respErr _); [reflexivity|].
  destruct (_ =? StatusNotFound)%Z; [reflexivity|].
  destruct (negb _); [reflexivity|].
  destruct (unmarshalDeviceService _) as [result [e|]]; reflexivity.
Qed.


(** The fill stores the record, or panics on the first error of [d.Set];
    it issues no request. *)
Lemma fill_run d j log :
  fillDeviceService d j log
  = (match fillError j with
     | Some e => Panicked e
     | None => Done (filled d j)
     end, log).
Proof.
  destruct d as [id before [dev name policy number proto domains subs] mode].
  unfold fillDeviceService, fillError, filled. cbn [Decode.firstError Id prior attrs partial device_id].
  repeat (unfold bind at 1, setOrPanic at 1, d_Set at 1;
          destruct (Set_error _ _); [reflexivity|]; cbn).
  reflexivity.
Qed.

(** The [d.Set] of the importer, after the fill. *)
Lemma set_device_run d parent log :
  setOrPanic d "device_id" (StringValue parent) log
  = (match Set_error "device_id" (StringValue parent) with
     | Some e => Panicked e
     | None =>
         Done (mkResourceData (Id d) (prior d)
                 (mkDeviceServiceAttrs parent (service_name (attrs d)) (connection_policy (attrs d))
                    (port (attrs d)) (protocol (attrs d)) (global_domains (attrs d))
                    (subprotocols (attrs d)))
                 (partial d))
     end, log).
Proof.
  unfold setOrPanic, d_Set, panic, ret, SetAttrs.
  destruct (Set_error "device_id" _); reflexivity.
Qed.

(** The end of the importer: the fill, the identity, the device. *)
Lemma import_tail d cfg id parent log :
  bind (fillDeviceService d cfg)
    (fun d0 => bind (setOrPanic (SetId d0 id) "device_id" (StringValue parent))
                 (fun d1 => ret ([d1], @None string))) log
  = (match fillError cfg with
     | Some e => Panicked e
     | None =>
         match Set_error "device_id" (StringValue parent) with
         | Some e => Panicked e
         | None =>
             Done ([mkResourceData id (prior d)
                      (mkDeviceServiceAttrs parent (ServiceName cfg) (ConnectionPolicy cfg)
                         (Port cfg) (Protocol cfg)
                         (match GlobalDomains cfg with Some l => Set_List l | None => [] end)
                         (match SubProtocols cfg with Some l => Set_List l | None => [] end))
                      (partial d)], None)
         end
     end, log).
Proof.
  unfold bind at 1. rewrite fill_run. destruct (fillError cfg); [reflexivity|].
  unfold bind. rewrite set_device_run. destruct (Set_error "device_id" _); reflexivity.
Qed.

(** An error of the fill is an error of one [d.Set]. *)
Lemma fill_error_is_set_error j e :
  fillError j = Some e -> exists key v, Set_error key v = Some e.
Proof.
  unfold fillError. cbn [Decode.firstError].
  repeat (match goal with
          | |- match ?x with _ => _ end = _ -> _ =>
              let H := fresh "H" in destruct x eqn:H; [intros [= <-]; eauto|]
          end).
  discriminate.
Qed.

(** The read handler once the gate is passed. *)
Lemma read_run d m log :
  resourceDeviceServiceVersionCheck (bastionAPIVersion m) = None ->
  resourceDeviceServiceRead d m log =
  match readDeviceServiceOptions (device_id (attrs d)) (Id d) m log with
  | (Done (_, Some e), log') => (Done (d, [e]), log')
  | (Done (cfg, None), log') =>
      if String.eqb (ID cfg) "" then (Done (SetId d "", []), log')
      else match fillError cfg with
           | Some e => (Panicked e, log')
           | None => (Done (filled d cfg, []), log')
           end
  | (Panicked msg, log') => (Panicked msg, log')
  end.
Proof.
  intros Hgate. unfold resourceDeviceServiceRead. rewrite Hgate.
  unfold bind at 1.
  destruct (readDeviceServiceOptions _ _ _ _) as [[[cfg [e|]]|msg] log']; cbn [diag_FromErr ret];
    try reflexivity.
  destruct (String.eqb _ _); [reflexivity|].
  unfold bind. rewrite fill_run. destruct (fillError cfg); reflexivity.
Qed.


(** C2, as amended. When the listing answers 200 with a well-formed body,
    the resolver returns an identifier for exactly one match only; more
    than one match is reported as not found, with no identifier and no
    error, the same answer as for no match. *)
Theorem several_matches_read_as_not_found deviceID serviceName m log results :
  respErr (remote m log (searchRequest deviceID serviceName)) = None ->
  respCode (remote m log (searchRequest deviceID serviceName)) = StatusOK ->
  unmarshalDeviceServices (respBody (remote m log (searchRequest deviceID serviceName)))
  = (results, None) ->
  ((1 < length results)%nat ->
   searchResourceDeviceService deviceID serviceName m log
   = (Done ("", false, None), (log ++ [searchRequest deviceID serviceName])%list))
  /\ (results = [] ->
      searchResourceDeviceService deviceID serviceName m log
      = (Done ("", false, None), (log ++ [searchRequest deviceID serviceName])%list))
  /\ (forall r, results = [r] ->
      searchResourceDeviceService deviceID serviceName m log
      = (Done (ID r, true, None), (log ++ [searchRequest deviceID serviceName])%list)).
Proof.
  intros Herr Hcode Hbody.
  rewrite search_run; cbn zeta. rewrite Herr, Hcode, Hbody. cbn.
  split; [|split].
  - intros Hlen. destruct results as [|r1 [|r2 rest]]; cbn in *; try lia. reflexivity.
  - intros ->. reflexivity.
  - intros r ->. reflexivity.
Qed.

(** *** The version gate *)

Lemma service_gate_message version e :
  resourceDeviceServiceVersionCheck version = Some e ->
  slices_Contains defaultVersionsValid version = false
  /\ e = "resource wallix-bastion_device_service not available with api version " ++ version.
Proof.
  unfold resourceDeviceServiceVersionCheck.
  destruct (slices_Contains _ _); [discriminate|].
  intros [= <-]. split; reflexivity.
Qed.

Lemma service_gate_rejects version :
  slices_Contains defaultVersionsValid version = false ->
  resourceDeviceServiceVersionCheck version
  = Some ("resource wallix-bastion_device_service not available with api version " ++ version).
Proof. unfold resourceDeviceServiceVersionCheck. intros ->. reflexivity. Qed.

(** X1. Create, read, delete and import consult
    [resourceDeviceServiceVersionCheck] first: on a version outside
    [defaultVersionsValid] each one returns the error naming the resource
    kind and the version, and the log is the one it started from. *)
Theorem service_gate_fails_fast d m log :
  slices_Contains defaultVersionsValid (bastionAPIVersion m) = false ->
  let e := "resource wallix-bastion_device_service not available with api version "
           ++ bastionAPIVersion m in
  resourceDeviceServiceCreate d m log = (Done (d, [e]), log)
  /\ resourceDeviceServiceRead d m log = (Done (d, [e]), log)
  /\ resourceDeviceServiceDelete d m log = (Done (d, [e]), log)
  /\ resourceDeviceServiceImport d m log = (Done ([], Some e), log).
Proof.
  intros Hv e.
  unfold resourceDeviceServiceCreate, resourceDeviceServiceRead,
    resourceDeviceServiceDelete, resourceDeviceServiceImport.
  rewrite (service_gate_rejects _ Hv). repeat split; reflexivity.
Qed.

Lemma update_run d m log j :
  prepareDeviceServiceJSON d false = (j, None) ->
  let r := remote m log (updateRequest d j) in
  updateDeviceService d m log =
  (Done
     (match respErr r with
      | Some _ => respErr r
      | None =>
          if negb (respCode r =? StatusOK)%Z && negb (respCode r =? StatusNoContent)%Z
          then Some (notOKOrNoContent (respCode r) (respBody r))
          else None
      end),
   (log ++ [updateRequest d j])%list).
Proof.
  intros Hj. unfold updateDeviceService. rewrite Hj.
  unfold bind, newRequest, updateRequest, ret, notOKOrNoContent; cbn.
  by_status.
Qed.

(** The read handler only adds to the log. *)
Lemma read_extends_log d m log :
  exists rest, snd (resourceDeviceServiceRead d m log) = (log ++ rest)%list.
Proof.
  unfold resourceDeviceServiceRead.
  destruct (resourceDeviceServiceVersionCheck _).
  - exists []. cbn. now rewrite app_nil_r.
  - unfold bind. rewrite readOptions_run; cbn zeta.
    eexists [_].
    destruct (respErr _); [reflexivity|].
    destruct (_ =? StatusNotFound)%Z; [reflexivity|].
    destruct (negb _); [reflexivity|].
    destruct (unmarshalDeviceService _) as [result [e|]]; [reflexivity|].
    destruct (String.eqb _ _); [reflexivity|].
    cbn -[fillDeviceService]. rewrite fill_run. destruct (fillError result); reflexivity.
Qed.

(** C8, the update handler. The gate consulted by the update is
    [resourceDeviceVersionCheck], the gate of the device resource, and not
    [resourceDeviceServiceVersionCheck]: when that gate refuses, the
    diagnostic is its message; when it accepts, the PUT is issued whatever
    [defaultVersionsValid] holds for the device service. *)
Theorem update_consults_the_device_gate d m log :
  (forall e, resourceDeviceVersionCheck (bastionAPIVersion m) = Some e ->
             resourceDeviceServiceUpdate d m log = (Done (Partial d true, [e]), log))
  /\ (forall j, resourceDeviceVersionCheck (bastionAPIVersion m) = None ->
                prepareDeviceServiceJSON (Partial d true) false = (j, None) ->
                exists rest, snd (resourceDeviceServiceUpdate d m log)
                             = (log ++ updateRequest d j :: rest)%list).
Proof.
  split.
  - intros e He. unfold resourceDeviceServiceUpdate. rewrite He. reflexivity.
  - intros j Hgate Hj. unfold resourceDeviceServiceUpdate. rewrite Hgate.
    unfold bind. rewrite (update_run _ _ _ _ Hj); cbn zeta.
    change (updateRequest (Partial d true) j) with (updateRequest d j).
    set (log1 := (log ++ [updateRequest d j])%list).
    assert (Hlog1 : forall rest, (log1 ++ rest)%list = (log ++ updateRequest d j :: rest)%list).
    { intros rest. unfold log1. now rewrite <- app_assoc. }
    destruct (respErr _).
    + exists []. cbn. now rewrite <- Hlog1, app_nil_r.
    + destruct (negb _ && negb _).
      * exists []. cbn. now rewrite <- Hlog1, app_nil_r.
      * destruct (read_extends_log (Partial (Partial d true) false) m log1) as [rest Hrest].
        exists rest. cbn. now rewrite Hrest, Hlog1.
Qed.

(** *** The x509 import *)

(** C10. The x509 import returns the one resource with the identity
    [x509Config] and no error, for every resource, client and log; the
    log is unchanged, and the identifier it was given plays no part. *)
Theorem x509_import_is_unconditional (d : ResourceData ConfigX509Attrs) m log :
  resourceConfigX509Import d m log
  = (Done ([mkResourceData "x509Config" (prior d) (attrs d) (partial d)], None), log)
  /\ (forall supplied, resourceConfigX509Import (SetId d supplied) m log
                       = resourceConfigX509Import d m log).
Proof. split; [|intros supplied]; reflexivity. Qed.

(** *** The composite key of the import *)

Lemma split_length s sep : length (strings_Split s sep) = S (count_char sep s).
Proof.
  induction s as [|c s IH]; cbn; [reflexivity|].
  destruct (Ascii.eqb c sep); cbn; [now rewrite IH|].
  destruct (strings_Split s sep); cbn in *; [discriminate|assumption].
Qed.

Lemma split_without_separator s sep :
  count_char sep s = 0%nat -> strings_Split s sep = [s].
Proof.
  induction s as [|c s IH]; cbn; [reflexivity|].
  destruct (Ascii.eqb c sep); cbn; [discriminate|].
  intros H. now rewrite (IH H).
Qed.

Lemma split_at_separator p s sep :
  count_char sep p = 0%nat ->
  strings_Split (p ++ String sep s) sep = p :: strings_Split s sep.
Proof.
  induction p as [|c p IH]; cbn.
  - intros _. now rewrite Ascii.eqb_refl.
  - destruct (Ascii.eqb c sep); cbn; [discriminate|].
    intros H. now rewrite (IH H).
Qed.

Lemma two_components_iff_one_separator s :
  length (strings_Split s "/") = 2%nat <-> count_char "/" s = 1%nat.
Proof. rewrite split_length. lia. Qed.

Lemma split_parent_name parent name :
  count_char "/" parent = 0%nat -> count_char "/" name = 0%nat ->
  strings_Split (parent ++ "/" ++ name) "/" = [parent; name].
Proof.
  intros Hp Hn. change ("/" ++ name) with (String "/" name).
  now rewrite (split_at_separator _ _ _ Hp), (split_without_separator _ _ Hn).
Qed.

(** C7. Once the version gate is passed, an identifier that does not split
    on [/] into exactly two components is refused with the message naming
    the expected format and no request is issued; an identifier [parent/name] is
    split into [parent] and [name], the resolver is run on them, and the
    import fails with the resolver's error, or with the message naming
    the expected format when nothing is found, and otherwise tracks the
    identifier found under device [parent]; the one other end is the panic
    of the handler on an error of [d.Set], of the fill or of the device. *)
Theorem import_requires_parent_and_name m log :
  resourceDeviceServiceVersionCheck (bastionAPIVersion m) = None ->
  (forall d, length (strings_Split (Id d) "/") <> 2%nat ->
     resourceDeviceServiceImport d m log
     = (Done ([], Some "id must be <device_id>/<service_name>"), log))
  /\ (forall d parent name,
        Id d = parent ++ "/" ++ name ->
        count_char "/" parent = 0%nat -> count_char "/" name = 0%nat ->
        strings_Split (Id d) "/" = [parent; name]
        /\ match searchResourceDeviceService parent name m log with
           | (Panicked msg, log1) => resourceDeviceServiceImport d m log = (Panicked msg, log1)
           | (Done (_, _, Some e), log1) =>
               resourceDeviceServiceImport d m log = (Done ([], Some e), log1)
           | (Done (_, false, None), log1) =>
               resourceDeviceServiceImport d m log
               = (Done ([], Some ("don't find service_name with id " ++ Id d
                                  ++ " (id must be <device_id>/<service_name>)")), log1)
           | (Done (id, true, None), log1) =>
               match readDeviceServiceOptions parent id m log1 with
               | (Panicked msg, log2) => resourceDeviceServiceImport d m log = (Panicked msg, log2)
               | (Done (_, Some e), log2) =>
                   resourceDeviceServiceImport d m log = (Done ([], Some e), log2)
               | (Done (cfg, None), log2) =>
                   match fillError cfg, Set_error "device_id" (StringValue parent) with
                   | None, None =>
                       exists d', resourceDeviceServiceImport d m log = (Done ([d'], None), log2)
                                  /\ Id d' = id /\ device_id (attrs d') = parent
                   | Some e, _ | None, Some e =>
                       resourceDeviceServiceImport d m log = (Panicked e, log2)
                   end
               end
           end).
Proof.
  intros Hgate. split.
  - intros d Hcount. unfold resourceDeviceServiceImport. rewrite Hgate.
    destruct (Nat.eqb_spec (length (strings_Split (Id d) "/")) 2) as [Heq|Hne];
      [contradiction|reflexivity].
  - intros d parent name Hid Hp Hn.
    assert (Hsplit : strings_Split (Id d) "/" = [parent; name])
      by (rewrite Hid; now apply split_parent_name).
    split; [exact Hsplit|].
    unfold resourceDeviceServiceImport. rewrite Hgate, Hsplit. cbn [length Nat.eqb negb nth].
    unfold bind.
    destruct (searchResourceDeviceService parent name m log) as [[[[id [|]] [e|]]|msg] log1];
      cbn -[readDeviceServiceOptions fillError]; try reflexivity.
    destruct (readDeviceServiceOptions parent id m log1) as [[[cfg [e|]]|msg] log2];
      cbn -[fillDeviceService setOrPanic fillError]; try reflexivity.
    rewrite fill_run. destruct (fillError cfg); cbv beta iota; [reflexivity|].
    rewrite set_device_run. destruct (Set_error "device_id" _); cbv beta iota; [reflexivity|].
    eexists. split; [reflexivity|]. split; reflexivity.
Qed.

(** *** The sub-protocols and the payload *)

Lemma loop_accepts proto allow l :
  (proto = "SSH" /\ allow = sshSubProtocolsValid) \/ (proto = "RDP" /\ allow = rdpSubProtocolsValid) ->
  Forall (fun v => slices_Contains allow v = true) l ->
  subProtocolsLoop proto l = (l, None).
Proof.
  intros Hproto Hall. induction Hall as [|v l Hv _ IH]; [reflexivity|].
  destruct Hproto as [[-> ->]|[-> ->]]; cbn [subProtocolsLoop String.eqb Ascii.eqb Bool.eqb];
    cbn [String.eqb]; rewrite Hv; cbn [negb]; rewrite IH; reflexivity.
Qed.

Lemma loop_refuses_ssh pre v post :
  Forall (fun w => slices_Contains sshSubProtocolsValid w = true) pre ->
  slices_Contains sshSubProtocolsValid v = false ->
  snd (subProtocolsLoop "SSH" (pre ++ v :: post))
  = Some ("subprotocols " ++ v ++ " not valid for SSH service").
Proof.
  intros Hpre Hv. induction Hpre as [|w pre Hw _ IH].
  - cbn [app subProtocolsLoop String.eqb Ascii.eqb Bool.eqb]. rewrite Hv. reflexivity.
  - cbn [app subProtocolsLoop String.eqb Ascii.eqb Bool.eqb]. rewrite Hw. cbn [negb].
    destruct (subProtocolsLoop "SSH" (pre ++ v :: post)) as [r e]. exact IH.
Qed.

Lemma loop_refuses_rdp pre v post :
  Forall (fun w => slices_Contains rdpSubProtocolsValid w = true) pre ->
  slices_Contains rdpSubProtocolsValid v = false ->
  snd (subProtocolsLoop "RDP" (pre ++ v :: post))
  = Some ("subprotocols " ++ v ++ " not valid for RDP service").
Proof.
  intros Hpre Hv. induction Hpre as [|w pre Hw _ IH].
  - cbn [app subProtocolsLoop String.eqb Ascii.eqb Bool.eqb]. rewrite Hv. reflexivity.
  - cbn [app subProtocolsLoop String.eqb Ascii.eqb Bool.eqb]. rewrite Hw. cbn [negb].
    destruct (subProtocolsLoop "RDP" (pre ++ v :: post)) as [r e]. exact IH.
Qed.

Lemma loop_refuses_other proto v l :
  proto <> "SSH" -> proto <> "RDP" ->
  subProtocolsLoop proto (v :: l)
  = ([], Some ("subprotocols need to not set for " ++ proto ++ " service")).
Proof.
  intros Hssh Hrdp. cbn [subProtocolsLoop].
  destruct (String.eqb_spec proto "SSH"); [contradiction|].
  destruct (String.eqb_spec proto "RDP"); [contradiction|reflexivity].
Qed.

(** No token belongs to both allow-lists: an RDP token is refused under
    SSH and an SSH token under RDP. *)
Lemma rdp_token_is_not_ssh v :
  In v rdpSubProtocolsValid -> slices_Contains sshSubProtocolsValid v = false.
Proof.
  unfold rdpSubProtocolsValid. cbn [In].
  intros H; repeat (destruct H as [<- | H]; [reflexivity|]); contradiction.
Qed.

Lemma ssh_token_is_not_rdp v :
  In v sshSubProtocolsValid -> slices_Contains rdpSubProtocolsValid v = false.
Proof.
  unfold sshSubProtocolsValid. cbn [In].
  intros H; repeat (destruct H as [<- | H]; [reflexivity|]); contradiction.
Qed.

(** The error of [prepareDeviceServiceJSON] is the error of the loop. *)
Lemma prepare_error d newResource :
  snd (prepareDeviceServiceJSON d newResource)
  = match subprotocols (attrs d) with
    | [] => None
    | _ :: _ => snd (subProtocolsLoop (protocol (attrs d)) (subprotocols (attrs d)))
    end.
Proof.
  unfold prepareDeviceServiceJSON.
  destruct (subprotocols (attrs d)) as [|v l] eqn:Hsubs; [reflexivity|].
  cbn [length Nat.ltb Nat.leb].
  destruct (subProtocolsLoop _ _) as [r [e|]]; reflexivity.
Qed.

Lemma refused_is_prepare_error d newResource e :
  refused (protocol (attrs d)) (subprotocols (attrs d)) e ->
  snd (prepareDeviceServiceJSON d newResource) = Some e.
Proof.
  intros Href. rewrite prepare_error.
  destruct Href as [pre v post Hpre Hv|pre v post Hpre Hv|proto v l Hssh Hrdp].
  - rewrite (loop_refuses_ssh _ _ _ Hpre Hv). destruct pre; reflexivity.
  - rewrite (loop_refuses_rdp _ _ _ Hpre Hv). destruct pre; reflexivity.
  - now rewrite (loop_refuses_other _ _ _ Hssh Hrdp).
Qed.

Lemma add_refused d m log e :
  snd (prepareDeviceServiceJSON d true) = Some e ->
  addDeviceService d m log = (Done (Some e), log).
Proof.
  intros He. unfold addDeviceService.
  destruct (prepareDeviceServiceJSON d true) as [j err]. cbn in He. subst err. reflexivity.
Qed.

Lemma add_run d m log j :
  prepareDeviceServiceJSON d true = (j, None) ->
  let r := remote m log (createRequest d j) in
  addDeviceService d m log =
  (Done
     (match respErr r with
      | Some _ => respErr r
      | None =>
          if negb (respCode r =? StatusOK)%Z && negb (respCode r =? StatusNoContent)%Z
          then Some (notOKOrNoContent (respCode r) (respBody r))
          else None
      end),
   (log ++ [createRequest d j])%list).
Proof.
  intros Hj. unfold addDeviceService. rewrite Hj.
  unfold bind, newRequest, createRequest, ret, notOKOrNoContent; cbn.
  by_status.
Qed.

Lemma search_listed m log deviceID serviceName results :
  listed m log deviceID serviceName results ->
  searchResourceDeviceService deviceID serviceName m log
  = (Done (if Nat.eqb (length results) 1
           then (ID (nth 0 results zeroDeviceService), true, None)
           else ("", false, None)),
     (log ++ [searchRequest deviceID serviceName])%list).
Proof.
  intros (Herr & Hcode & Hbody). rewrite search_run; cbn zeta.
  rewrite Herr, Hcode, Hbody. cbn. destruct (Nat.eqb _ _); reflexivity.
Qed.

(** The resolver never fails to return: it ends with one more request in
    the log. *)
Lemma search_returns deviceID serviceName m log :
  exists r, searchResourceDeviceService deviceID serviceName m log
            = (Done r, (log ++ [searchRequest deviceID serviceName])%list).
Proof. rewrite search_run. eexists. reflexivity. Qed.

(** A list that holds a token outside [allow] has a first such token. *)
Lemma first_outside allow l v :
  In v l -> slices_Contains allow v = false ->
  exists pre w post,
    l = (pre ++ w :: post)%list
    /\ Forall (fun u => slices_Contains allow u = true) pre
    /\ slices_Contains allow w = false.
Proof.
  induction l as [|u l IH]; intros Hin Hv; [contradiction|].
  destruct (slices_Contains allow u) eqn:Hu.
  - destruct Hin as [-> | Hin]; [congruence|].
    destruct (IH Hin Hv) as (pre & w & post & -> & Hpre & Hw).
    exists (u :: pre), w, post. split; [reflexivity|]. split; [now constructor|exact Hw].
  - exists [], u, l. split; [reflexivity|]. split; [constructor|exact Hu].
Qed.

(** A set that holds a token outside the allow-list of its protocol is
    refused, with one of the three messages. *)
Lemma outside_allow_list_is_refused proto l v :
  In v l -> slices_Contains (allowList proto) v = false -> exists e, refused proto l e.
Proof.
  unfold allowList. intros Hin Hv.
  destruct (String.eqb_spec proto "SSH") as [-> | Hssh].
  - destruct (first_outside _ _ _ Hin Hv) as (pre & w & post & -> & Hpre & Hw).
    eexists. now apply refused_ssh.
  - destruct (String.eqb_spec proto "RDP") as [-> | Hrdp].
    + destruct (first_outside _ _ _ Hin Hv) as (pre & w & post & -> & Hpre & Hw).
      eexists. now apply refused_rdp.
    + destruct l as [|u l]; [contradiction|].
      eexists. now apply refused_other.
Qed.

(** C3, as amended. A device service whose sub-protocol set holds a token
    outside the allow-list of its protocol is never created:
    [prepareDeviceServiceJSON] returns a refusal (naming the first offending
    token and the protocol under SSH and RDP, the protocol only otherwise),
    the create handler never succeeds and issues no request beyond the
    device lookup and the one listing of the pre-check; when these two
    pass, the diagnostic is the refusal. *)
Theorem refused_subprotocol_is_never_posted d m log v :
  In v (subprotocols (attrs d)) ->
  slices_Contains (allowList (protocol (attrs d))) v = false ->
  exists e,
    refused (protocol (attrs d)) (subprotocols (attrs d)) e
    /\ snd (prepareDeviceServiceJSON d true) = Some e
    /\ (forall d', fst (resourceDeviceServiceCreate d m log) <> Done (d', []))
    /\ (let log1 := snd (readDeviceOptions (device_id (attrs d)) m log) in
        snd (resourceDeviceServiceCreate d m log) = log
        \/ snd (resourceDeviceServiceCreate d m log) = log1
        \/ snd (resourceDeviceServiceCreate d m log)
           = (log1 ++ [searchRequest (device_id (attrs d)) (service_name (attrs d))])%list)
    /\ (forall cfg log1 results,
          resourceDeviceServiceVersionCheck (bastionAPIVersion m) = None ->
          readDeviceOptions (device_id (attrs d)) m log = (Done (cfg, None), log1) ->
          jsonDevice_ID cfg <> "" ->
          listed m log1 (device_id (attrs d)) (service_name (attrs d)) results ->
          length results <> 1%nat ->
          resourceDeviceServiceCreate d m log
          = (Done (d, [e]),
             (log1 ++ [searchRequest (device_id (attrs d)) (service_name (attrs d))])%list)).
Proof.
  intros Hin Hout.
  destruct (outside_allow_list_is_refused _ _ _ Hin Hout) as [e Href].
  exists e. split; [exact Href|].
  pose proof (refused_is_prepare_error d true e Href) as He.
  split; [exact He|].
  assert (Hshape :
    forall o l, resourceDeviceServiceCreate d m log = (o, l) ->
      (forall d', o <> Done (d', []))
      /\ (l = log \/ l = snd (readDeviceOptions (device_id (attrs d)) m log)
          \/ l = (snd (readDeviceOptions (device_id (attrs d)) m log)
                  ++ [searchRequest (device_id (attrs d)) (service_name (attrs d))])%list)).
  { intros o l. unfold resourceDeviceServiceCreate.
    destruct (resourceDeviceServiceVersionCheck _).
    { intros [= <- <-]. split; [discriminate|now left]. }
    unfold bind at 1.
    destruct (readDeviceOptions _ _ _) as [[[cfg [e1|]]|msg] log1]; cbn [snd].
    - intros [= <- <-]. split; [discriminate|now right; left].
    - destruct (String.eqb _ _).
      { intros [= <- <-]. split; [discriminate|now right; left]. }
      unfold bind at 1.
      destruct (search_returns (device_id (attrs d)) (service_name (attrs d)) m log1)
        as [[[id ex] err] ->].
      destruct err as [e2|].
      { intros [= <- <-]. split; [discriminate|now right; right]. }
      destruct ex.
      { intros [= <- <-]. split; [discriminate|now right; right]. }
      unfold bind at 1. rewrite (add_refused _ _ _ _ He).
      intros [= <- <-]. split; [discriminate|now right; right].
    - intros [= <- <-]. split; [discriminate|now right; left]. }
  split; [|split].
  - intros d'. destruct (resourceDeviceServiceCreate d m log) as [o l] eqn:Hrun.
    exact (proj1 (Hshape o l eq_refl) d').
  - cbn zeta. destruct (resourceDeviceServiceCreate d m log) as [o l] eqn:Hrun.
    exact (proj2 (Hshape o l eq_refl)).
  - intros cfg log1 results Hgate Hdev Hid Hlisted Hlen.
    unfold resourceDeviceServiceCreate. rewrite Hgate.
    unfold bind at 1. rewrite Hdev.
    destruct (String.eqb_spec (jsonDevice_ID cfg) ""); [contradiction|].
    unfold bind at 1. rewrite (search_listed _ _ _ _ _ Hlisted).
    destruct (Nat.eqb_spec (length results) 1); [contradiction|].
    unfold bind at 1. rewrite (add_refused _ _ _ _ He). reflexivity.
Qed.

Lemma loop_returns_the_set proto l r :
  subProtocolsLoop proto l = (r, None) -> r = l.
Proof.
  revert r. induction l as [|v l IH]; intros r; cbn [subProtocolsLoop].
  - now intros [= <-].
  - destruct (String.eqb proto "SSH").
    + destruct (negb _); [discriminate|].
      destruct (subProtocolsLoop proto l) as [r' e']. intros [= <- ->]. now rewrite (IH r' eq_refl).
    + destruct (String.eqb proto "RDP"); [|discriminate].
      destruct (negb _); [discriminate|].
      destruct (subProtocolsLoop proto l) as [r' e']. intros [= <- ->]. now rewrite (IH r' eq_refl).
Qed.

(** C4, as amended. The payload of an update never carries [protocol],
    [service_name] or [id]; it always carries [port] and
    [connection_policy], changed or not; it carries [global_domains]
    exactly when that field changed, and [subprotocols] exactly when the
    declared set is not empty, changed or not. This record is the payload
    of the PUT. *)
Theorem update_payload_fields d j :
  prepareDeviceServiceJSON d false = (j, None) ->
  j = mkJsonDeviceService (port (attrs d)) "" (connection_policy (attrs d)) "" ""
        (if HasChange d "global_domains" then Some (global_domains (attrs d)) else None)
        (match subprotocols (attrs d) with [] => None | _ :: _ => Some (subprotocols (attrs d)) end)
  /\ Encode.keys (Encode.deviceService j)
     = (["port"; "connection_policy"]
        ++ (if HasChange d "global_domains" then ["global_domains"] else [])
        ++ (match subprotocols (attrs d) with [] => [] | _ :: _ => ["subprotocols"] end))%list
  /\ (forall m log, snd (updateDeviceService d m log) = (log ++ [updateRequest d j])%list).
Proof.
  intros Hj.
  assert (Hrec : j = mkJsonDeviceService (port (attrs d)) "" (connection_policy (attrs d)) "" ""
        (if HasChange d "global_domains" then Some (global_domains (attrs d)) else None)
        (match subprotocols (attrs d) with [] => None | _ :: _ => Some (subprotocols (attrs d)) end)).
  { revert Hj. unfold prepareDeviceServiceJSON.
    destruct (subprotocols (attrs d)) as [|v l] eqn:Hsubs.
    - cbn [length Nat.ltb Nat.leb]. destruct (HasChange d "global_domains"); now intros [= <-].
    - cbn [length Nat.ltb Nat.leb].
      destruct (subProtocolsLoop (protocol (attrs d)) (v :: l)) as [r [e|]] eqn:Hloop; [discriminate|].
      apply loop_returns_the_set in Hloop. subst r.
      destruct (HasChange d "global_domains"); now intros [= <-]. }
  split; [exact Hrec|]. split.
  - rewrite Hrec. clear Hrec Hj.
    destruct (HasChange d "global_domains"), (subprotocols (attrs d)); reflexivity.
  - intros m log. rewrite (update_run _ _ _ _ Hj). reflexivity.
Qed.

(** *** Create *)

(** C6, as amended. With the gate passed and the device found: a pre-check
    that finds the service ends the create with the "already exists"
    diagnostic, the log ending with the listing and no POST. Otherwise,
    once the POST is accepted, a second listing with exactly one match
    makes its identifier the tracked identity, under which the resource is
    then read. The create ends with that identity when the read finds the
    record and stores it, or returns an error; a read answered 404, or
    with a record that has no identifier, ends the create with the
    identity cleared and no diagnostic. A second listing with any other
    number of matches ends the create with the "not found after POST"
    diagnostic. *)
Theorem create_recovers_the_identity d m log cfg log1 :
  resourceDeviceServiceVersionCheck (bastionAPIVersion m) = None ->
  readDeviceOptions (device_id (attrs d)) m log = (Done (cfg, None), log1) ->
  jsonDevice_ID cfg <> "" ->
  let dev := device_id (attrs d) in
  let name := service_name (attrs d) in
  let log2 := (log1 ++ [searchRequest dev name])%list in
  (forall r, listed m log1 dev name [r] ->
     resourceDeviceServiceCreate d m log
     = (Done (d, ["service_name " ++ name ++ " on device_id " ++ dev ++ " already exists"]), log2))
  /\ (forall before j,
        listed m log1 dev name before -> length before <> 1%nat ->
        prepareDeviceServiceJSON d true = (j, None) ->
        respErr (remote m log2 (createRequest d j)) = None ->
        respCode (remote m log2 (createRequest d j)) = StatusOK
        \/ respCode (remote m log2 (createRequest d j)) = StatusNoContent ->
        let log3 := (log2 ++ [createRequest d j])%list in
        let log4 := (log3 ++ [searchRequest dev name])%list in
        (forall r, listed m log3 dev name [r] ->
           resourceDeviceServiceCreate d m log = resourceDeviceServiceRead (SetId d (ID r)) m log4
           /\ (forall found log5,
                 readDeviceServiceOptions dev (ID r) m log4 = (Done (found, None), log5) ->
                 (ID found <> "" -> fillError found = None ->
                  resourceDeviceServiceCreate d m log
                  = (Done (filled (SetId d (ID r)) found, []), log5)
                  /\ Id (filled (SetId d (ID r)) found) = ID r)
                 /\ (forall e, ID found <> "" -> fillError found = Some e ->
                       resourceDeviceServiceCreate d m log = (Panicked e, log5))
                 /\ (ID found = "" ->
                     resourceDeviceServiceCreate d m log = (Done (SetId d "", []), log5)))
           /\ (respErr (remote m log4 (readRequest dev (ID r))) = None ->
               respCode (remote m log4 (readRequest dev (ID r))) = StatusNotFound ->
               resourceDeviceServiceCreate d m log
               = (Done (SetId d "", []), (log4 ++ [readRequest dev (ID r)])%list))
           /\ (forall found e log5,
                 readDeviceServiceOptions dev (ID r) m log4 = (Done (found, Some e), log5) ->
                 resourceDeviceServiceCreate d m log = (Done (SetId d (ID r), [e]), log5)))
        /\ (forall after, listed m log3 dev name after -> length after <> 1%nat ->
            resourceDeviceServiceCreate d m log
            = (Done (d, ["service_name " ++ name ++ " on device_id " ++ dev ++ " not found after POST"]),
               log4))).
Proof.
  intros Hgate Hdev Hid. cbn zeta.
  split.
  - intros r Hlisted. unfold resourceDeviceServiceCreate. rewrite Hgate.
    unfold bind at 1. rewrite Hdev.
    destruct (String.eqb_spec (jsonDevice_ID cfg) ""); [contradiction|].
    unfold bind at 1. rewrite (search_listed _ _ _ _ _ Hlisted). reflexivity.
  - intros before j Hbefore Hlen Hj Herr Hcode.
    assert (Hposted :
      addDeviceService d m
        (log1 ++ [searchRequest (device_id (attrs d)) (service_name (attrs d))])%list
      = (Done None,
         ((log1 ++ [searchRequest (device_id (attrs d)) (service_name (attrs d))])
          ++ [createRequest d j])%list)).
    { rewrite (add_run _ _ _ _ Hj); cbn zeta. rewrite Herr.
      destruct Hcode as [-> | ->]; reflexivity. }
    assert (Hrun : resourceDeviceServiceCreate d m log
                   = bind (searchResourceDeviceService (device_id (attrs d)) (service_name (attrs d)) m)
                       (fun x => let '(id, ex, err) := x in
                          match err with
                          | Some _ => ret (d, diag_FromErr err)
                          | None =>
                              if negb ex then
                                ret (d, diag_FromErr (Some ("service_name " ++ service_name (attrs d)
                                                            ++ " on device_id " ++ device_id (attrs d)
                                                            ++ " not found after POST")))
                              else resourceDeviceServiceRead (SetId d id) m
                          end)
                       ((log1 ++ [searchRequest (device_id (attrs d)) (service_name (attrs d))])
                        ++ [createRequest d j])%list).
    { unfold resourceDeviceServiceCreate. rewrite Hgate.
      unfold bind at 1. rewrite Hdev.
      destruct (String.eqb_spec (jsonDevice_ID cfg) ""); [contradiction|].
      unfold bind at 1. rewrite (search_listed _ _ _ _ _ Hbefore).
      destruct (Nat.eqb_spec (length before) 1); [contradiction|].
      unfold bind at 1. rewrite Hposted. reflexivity. }
    split.
    + intros r Hlisted.
      assert (Hread : resourceDeviceServiceCreate d m log
                      = resourceDeviceServiceRead (SetId d (ID r)) m
                          (((log1 ++ [searchRequest (device_id (attrs d)) (service_name (attrs d))])
                            ++ [createRequest d j])
                           ++ [searchRequest (device_id (attrs d)) (service_name (attrs d))])%list).
      { rewrite Hrun. unfold bind. rewrite (search_listed _ _ _ _ _ Hlisted). reflexivity. }
      split; [exact Hread|].
      rewrite Hread, (read_run _ _ _ Hgate).
      change (device_id (attrs (SetId d (ID r)))) with (device_id (attrs d)).
      change (Id (SetId d (ID r))) with (ID r).
      split; [|split].
      * intros found log5 Hfound. rewrite Hfound. split; [|split].
        -- intros Hne Hfill. destruct (String.eqb_spec (ID found) ""); [contradiction|].
           rewrite Hfill. split; reflexivity.
        -- intros e Hne Hfill. destruct (String.eqb_spec (ID found) ""); [contradiction|].
           rewrite Hfill. reflexivity.
        -- intros ->. reflexivity.
      * intros Hgot Hcode404. rewrite readOptions_run; cbn zeta.
        rewrite Hgot, Hcode404. reflexivity.
      * intros found e log5 Hfound. rewrite Hfound. reflexivity.
    + intros after Hlisted Hafter. rewrite Hrun. unfold bind.
      rewrite (search_listed _ _ _ _ _ Hlisted).
      destruct (Nat.eqb_spec (length after) 1); [contradiction|]. reflexivity.
Qed.

(** *** The x509 read *)

Lemma x509_fetch_log m log :
  snd (readConfigX509Options m log) = (log ++ [x509ReadRequest])%list.
Proof.
  unfold readConfigX509Options, bind, newRequest, ret; cbn.
  destruct (respErr _); [reflexivity|].
  destruct (_ =? StatusNotFound)%Z; [reflexivity|].
  destruct (negb _); [reflexivity|].
  destruct (unmarshalConfigX509 _) as [result [e|]]; reflexivity.
Qed.

(** The read handler is the fetch, the test of the default flag, the two
    checks in turn and the fill. *)
Lemma x509_read_run (d : ResourceData ConfigX509Attrs) m log cfg log1 :
  readConfigX509Options m log = (Done (cfg, None), log1) ->
  Default cfg = false ->
  resourceConfigX509Read d m log
  = certificateCheck d (CaCertificate cfg) (ca_certificate (attrs d))
      (certificateCheck d (ServerPublicKey cfg) (server_public_key (attrs d))
         (ret (fst (fillConfigX509 d cfg), []))) log1.
Proof.
  intros Hfetch Hdefault. unfold resourceConfigX509Read, bind.
  rewrite Hfetch, Hdefault. reflexivity.
Qed.

Lemma check_passes (d : ResourceData ConfigX509Attrs) observed declared rest :
  fieldMatches observed declared -> certificateCheck d observed declared rest = rest.
Proof.
  unfold certificateCheck, commonName. intros [-> | (cn & Hcn & Hin)]; [reflexivity|].
  unfold commonName in Hcn.
  destruct (negb (String.eqb declared "")); [|reflexivity].
  destruct (pem_Decode declared) as [block|]; [|discriminate].
  destruct (x509_ParseCertificate (Bytes block)) as [certificate|e]; [|discriminate].
  injection Hcn as ->. now rewrite Hin.
Qed.

Lemma check_drifts (d : ResourceData ConfigX509Attrs) observed declared rest :
  fieldDrifted observed declared ->
  certificateCheck d observed declared rest = ret (SetId d "", []).
Proof.
  unfold certificateCheck. intros (Hdeclared & cn & Hcn & Hout).
  unfold commonName in Hcn.
  destruct (String.eqb_spec declared ""); [contradiction|]. cbn [negb].
  destruct (pem_Decode declared) as [block|]; [|discriminate].
  destruct (x509_ParseCertificate (Bytes block)) as [certificate|e]; [|discriminate].
  injection Hcn as ->. now rewrite Hout.
Qed.

Lemma check_panics (d : ResourceData ConfigX509Attrs) observed declared rest :
  declared <> "" -> pem_Decode declared = None ->
  certificateCheck d observed declared rest = panic nilDereference.
Proof.
  unfold certificateCheck. intros Hdeclared Hnil.
  destruct (String.eqb_spec declared ""); [contradiction|]. cbn [negb].
  now rewrite Hnil.
Qed.

(** C5, as amended. After a fetch without error: a configuration flagged
    default clears the identity whatever the certificates; otherwise the
    resource stays declared (identity kept) when each declared certificate
    is empty or has its common name, after [/CN=], inside the observed
    value, and the first declared certificate whose common name is not
    inside the observed value clears the identity, with no diagnostic; with
    both declared certificates empty the checks are skipped whatever is
    observed. The only request is the GET of the fetch. *)
Theorem x509_drift_by_common_name (d : ResourceData ConfigX509Attrs) m log cfg log1 :
  readConfigX509Options m log = (Done (cfg, None), log1) ->
  (Default cfg = true ->
   resourceConfigX509Read d m log = (Done (SetId d "", []), log1))
  /\ (Default cfg = false ->
      (fieldMatches (CaCertificate cfg) (ca_certificate (attrs d)) ->
       fieldMatches (ServerPublicKey cfg) (server_public_key (attrs d)) ->
       resourceConfigX509Read d m log = (Done (fst (fillConfigX509 d cfg), []), log1)
       /\ Id (fst (fillConfigX509 d cfg)) = Id d)
      /\ (fieldDrifted (CaCertificate cfg) (ca_certificate (attrs d)) ->
          resourceConfigX509Read d m log = (Done (SetId d "", []), log1))
      /\ (fieldMatches (CaCertificate cfg) (ca_certificate (attrs d)) ->
          fieldDrifted (ServerPublicKey cfg) (server_public_key (attrs d)) ->
          resourceConfigX509Read d m log = (Done (SetId d "", []), log1))
      /\ (ca_certificate (attrs d) = "" -> server_public_key (attrs d) = "" ->
          resourceConfigX509Read d m log = (Done (fst (fillConfigX509 d cfg), []), log1)))
  /\ log1 = (log ++ [x509ReadRequest])%list.
Proof.
  intros Hfetch. split; [|split].
  - intros Hdefault. unfold resourceConfigX509Read, bind. now rewrite Hfetch, Hdefault.
  - intros Hdefault. rewrite (x509_read_run d _ _ _ _ Hfetch Hdefault).
    split; [|split; [|split]].
    + intros Hca Hpub. now rewrite (check_passes _ _ _ _ Hca), (check_passes _ _ _ _ Hpub).
    + intros Hca. now rewrite (check_drifts _ _ _ _ Hca).
    + intros Hca Hpub. now rewrite (check_passes _ _ _ _ Hca), (check_drifts _ _ _ _ Hpub).
    + intros Hca Hpub. rewrite Hca, Hpub. reflexivity.
  - pose proof (x509_fetch_log m log) as Hlog. now rewrite Hfetch in Hlog.
Qed.

(** A check panics only on a declared value with no PEM block in it;
    what follows the check runs only when the check passes. *)
Lemma check_panics_only (d : ResourceData ConfigX509Attrs) observed declared rest log msg :
  fst (certificateCheck d observed declared rest log) = Panicked msg ->
  (declared <> "" /\ pem_Decode declared = None /\ msg = nilDereference)
  \/ (fieldMatches observed declared /\ fst (rest log) = Panicked msg).
Proof.
  unfold certificateCheck, fieldMatches, commonName.
  destruct (String.eqb_spec declared "") as [Hempty|Hdeclared]; cbn [negb].
  { intros Hrest. right. split; [now left|exact Hrest]. }
  destruct (pem_Decode declared) as [block|].
  - destruct (x509_ParseCertificate (Bytes block)) as [certificate|e]; [|discriminate].
    destruct (strings_Contains observed _) eqn:Hin; cbn [negb]; [|discriminate].
    intros Hrest. right. split; [|exact Hrest]. right. now exists (Subject_CommonName certificate).
  - intros [= <-]. left. repeat split. exact Hdeclared.
Qed.

(** C9, as amended. After a fetch without error of a configuration that is
    not flagged default, a declared [ca_certificate] that is not empty and in
    which [pem.Decode] finds no block makes the read panic on the nil
    block; so does such a [server_public_key] once the check of
    [ca_certificate] has passed or was skipped. No diagnostic is returned.
    A read that ends earlier returns, whatever the declared certificates:
    on an error of the fetch with that error, on a configuration flagged
    default and on a [ca_certificate] whose common name is not in the
    observed value with the identity cleared. The read panics in the two
    cases above only. *)
Theorem x509_read_panics_without_pem_block (d : ResourceData ConfigX509Attrs) m log cfg err log1 :
  readConfigX509Options m log = (Done (cfg, err), log1) ->
  (err = None -> Default cfg = false ->
   (ca_certificate (attrs d) <> "" -> pem_Decode (ca_certificate (attrs d)) = None ->
    resourceConfigX509Read d m log = (Panicked nilDereference, log1))
   /\ (fieldMatches (CaCertificate cfg) (ca_certificate (attrs d)) ->
       server_public_key (attrs d) <> "" -> pem_Decode (server_public_key (attrs d)) = None ->
       resourceConfigX509Read d m log = (Panicked nilDereference, log1)))
  /\ (forall e, err = Some e -> resourceConfigX509Read d m log = (Done (d, [e]), log1))
  /\ (err = None -> Default cfg = true ->
      resourceConfigX509Read d m log = (Done (SetId d "", []), log1))
  /\ (err = None -> Default cfg = false ->
      fieldDrifted (CaCertificate cfg) (ca_certificate (attrs d)) ->
      resourceConfigX509Read d m log = (Done (SetId d "", []), log1))
  /\ (forall msg,
        fst (resourceConfigX509Read d m log) = Panicked msg ->
        msg = nilDereference /\ err = None /\ Default cfg = false
        /\ ((ca_certificate (attrs d) <> "" /\ pem_Decode (ca_certificate (attrs d)) = None)
            \/ (fieldMatches (CaCertificate cfg) (ca_certificate (attrs d))
                /\ server_public_key (attrs d) <> ""
                /\ pem_Decode (server_public_key (attrs d)) = None))).
Proof.
  intros Hfetch. split; [|split; [|split; [|split]]].
  - intros -> Hdefault. rewrite (x509_read_run d _ _ _ _ Hfetch Hdefault). split.
    + intros Hca Hnil. now rewrite (check_panics _ _ _ _ Hca Hnil).
    + intros Hca Hpub Hnil.
      now rewrite (check_passes _ _ _ _ Hca), (check_panics _ _ _ _ Hpub Hnil).
  - intros e ->. unfold resourceConfigX509Read, bind. now rewrite Hfetch.
  - intros -> Hdefault. unfold resourceConfigX509Read, bind. now rewrite Hfetch, Hdefault.
  - intros -> Hdefault Hca. rewrite (x509_read_run d _ _ _ _ Hfetch Hdefault).
    now rewrite (check_drifts _ _ _ _ Hca).
  - intros msg Hpanic. destruct err as [e|].
    { unfold resourceConfigX509Read, bind in Hpanic. rewrite Hfetch in Hpanic. discriminate. }
    destruct (Default cfg) eqn:Hdefault.
    { unfold resourceConfigX509Read, bind in Hpanic. rewrite Hfetch, Hdefault in Hpanic.
      discriminate. }
    rewrite (x509_read_run d _ _ _ _ Hfetch Hdefault) in Hpanic.
    destruct (check_panics_only _ _ _ _ _ _ Hpanic) as [(Hca & Hnil & ->) | (Hca & Hnext)].
    { repeat split; auto. }
    destruct (check_panics_only _ _ _ _ _ _ Hnext) as [(Hpub & Hnil & ->) | (_ & Hfill)].
    { repeat split; auto. }
    discriminate Hfill.
Qed.

End Properties.

(** ** Further properties of the handlers *)

Section Further.
Context {P : Platform}.

Implicit Types (d : ResourceData DeviceServiceAttrs) (x : ResourceData ConfigX509Attrs)
  (m : Client) (log : Log).

(** *** The validation of the sub-protocols *)

Lemma loop_accepted_is_allowed proto l :
  snd (subProtocolsLoop proto l) = None ->
  l = [] \/ ((proto = "SSH" \/ proto = "RDP")
            /\ Forall (fun v => slices_Contains (allowList proto) v = true) l).
Proof.
  induction l as [|v l IH]; [now left|].
  intros Hloop. right. revert Hloop IH. unfold allowList. cbn [subProtocolsLoop].
  destruct (String.eqb_spec proto "SSH") as [-> | Hssh].
  - cbn [String.eqb Ascii.eqb Bool.eqb].
    destruct (slices_Contains sshSubProtocolsValid v) eqn:Hv; cbn [negb]; [|discriminate].
    destruct (subProtocolsLoop "SSH" l) as [r e]. cbn [snd]. intros He IH.
    split; [now left|]. constructor; [exact Hv|].
    destruct (IH He) as [-> | [_ Hall]]; [constructor|exact Hall].
  - destruct (String.eqb_spec proto "RDP") as [-> | Hrdp]; [|discriminate].
    destruct (slices_Contains rdpSubProtocolsValid v) eqn:Hv; cbn [negb]; [|discriminate].
    destruct (subProtocolsLoop "RDP" l) as [r e]. cbn [snd]. intros He IH.
    split; [now right|]. constructor; [exact Hv|].
    destruct (IH He) as [-> | [_ Hall]]; [constructor|exact Hall].
Qed.

(** X2. [prepareDeviceServiceJSON] returns no error exactly when the
    declared sub-protocol set is empty, or the protocol is SSH or RDP and
    every token of the set is in the allow-list of that protocol; the
    answer is the same for a create and for an update. *)
Theorem validation_accepts_exactly_the_allow_list d newResource :
  (snd (prepareDeviceServiceJSON d newResource) = None
   <-> subprotocols (attrs d) = []
       \/ ((protocol (attrs d) = "SSH" \/ protocol (attrs d) = "RDP")
           /\ Forall (fun v => slices_Contains (allowList (protocol (attrs d))) v = true)
                (subprotocols (attrs d))))
  /\ snd (prepareDeviceServiceJSON d true) = snd (prepareDeviceServiceJSON d false).
Proof.
  split; [|now rewrite !prepare_error].
  rewrite prepare_error. split.
  - destruct (subprotocols (attrs d)) as [|v l] eqn:Hsubs; [now left|].
    intros Hloop. exact (loop_accepted_is_allowed _ _ Hloop).
  - intros [-> | [Hproto Hall]]; [reflexivity|].
    destruct (subprotocols (attrs d)) as [|v l] eqn:Hsubs; [reflexivity|].
    assert (Hcase : (protocol (attrs d) = "SSH" /\ allowList (protocol (attrs d)) = sshSubProtocolsValid)
                    \/ (protocol (attrs d) = "RDP" /\ allowList (protocol (attrs d)) = rdpSubProtocolsValid)).
    { destruct Hproto as [Hp | Hp]; rewrite Hp; [left | right]; split; reflexivity. }
    now rewrite (loop_accepts _ _ _ Hcase Hall).
Qed.

(** The record [prepareDeviceServiceJSON] returns when it returns no
    error. *)
Lemma prepare_payload d newResource j :
  prepareDeviceServiceJSON d newResource = (j, None) ->
  j = mkJsonDeviceService (port (attrs d)) "" (connection_policy (attrs d))
        (if newResource then protocol (attrs d) else "")
        (if newResource then service_name (attrs d) else "")
        (if HasChange d "global_domains" then Some (global_domains (attrs d)) else None)
        (match subprotocols (attrs d) with [] => None | _ :: _ => Some (subprotocols (attrs d)) end).
Proof.
  unfold prepareDeviceServiceJSON.
  destruct (subprotocols (attrs d)) as [|v l] eqn:Hsubs; cbn [length Nat.ltb Nat.leb].
  - destruct newResource, (HasChange d "global_domains"); now intros [= <-].
  - destruct (subProtocolsLoop (protocol (attrs d)) (v :: l)) as [r [e|]] eqn:Hloop; [discriminate|].
    apply loop_returns_the_set in Hloop. subst r.
    destruct newResource, (HasChange d "global_domains"); now intros [= <-].
Qed.

(** X3. The payload of a create is the payload of an update with the
    declared protocol and service name added; the keys it puts on the wire
    are those of the update, with [protocol] and [service_name] when they
    are not empty. *)
Theorem create_payload_extends_update_payload d j :
  prepareDeviceServiceJSON d false = (j, None) ->
  prepareDeviceServiceJSON d true
  = (mkJsonDeviceService (Port j) (ID j) (ConnectionPolicy j)
       (protocol (attrs d)) (service_name (attrs d)) (GlobalDomains j) (SubProtocols j), None)
  /\ Encode.keys (Encode.deviceService (fst (prepareDeviceServiceJSON d true)))
     = (["port"; "connection_policy"]
        ++ (if String.eqb (protocol (attrs d)) "" then [] else ["protocol"])
        ++ (if String.eqb (service_name (attrs d)) "" then [] else ["service_name"])
        ++ (if HasChange d "global_domains" then ["global_domains"] else [])
        ++ (match subprotocols (attrs d) with [] => [] | _ :: _ => ["subprotocols"] end))%list.
Proof.
  intros Hj. pose proof (prepare_payload d false j Hj) as Hrec.
  destruct (prepareDeviceServiceJSON d true) as [j' e'] eqn:Hcreate.
  assert (He' : e' = None).
  { pose proof (f_equal snd Hcreate) as Hs. pose proof (f_equal snd Hj) as Hu.
    rewrite prepare_error in Hs, Hu. cbn [snd] in Hs, Hu. congruence. }
  subst e'. pose proof (prepare_payload d true j' Hcreate) as Hrec'.
  rewrite Hrec', Hrec. cbn [fst Port ID ConnectionPolicy GlobalDomains SubProtocols].
  split; [reflexivity|].
  unfold Encode.deviceService, Encode.keys, Encode.omitemptyStr, Encode.always.
  cbn [Port ID ConnectionPolicy Protocol ServiceName GlobalDomains SubProtocols String.eqb app map fst].
  destruct (String.eqb (protocol (attrs d)) ""), (String.eqb (service_name (attrs d)) ""),
    (HasChange d "global_domains"), (subprotocols (attrs d)); reflexivity.
Qed.

(** *** The resolver and the read *)

(** X4. The resolver always returns after exactly one request. It reports
    found only with no error, for a listing answered 200 that decodes to
    exactly one record, whose identifier it returns; whenever it reports
    not found the identifier is empty; and a listing answered with any
    status other than 200, a 404 included, is an error that carries the
    status and the body. *)
Theorem resolver_finds_only_the_single_record deviceID serviceName m log :
  exists id ex err,
    searchResourceDeviceService deviceID serviceName m log
    = (Done (id, ex, err), (log ++ [searchRequest deviceID serviceName])%list)
    /\ (ex = true ->
        err = None /\ exists r, listed m log deviceID serviceName [r] /\ id = ID r)
    /\ (ex = false -> id = "")
    /\ (respErr (remote m log (searchRequest deviceID serviceName)) = None ->
        respCode (remote m log (searchRequest deviceID serviceName)) <> StatusOK ->
        err = Some ("api doesn't return OK: "
                    ++ itoa (respCode (remote m log (searchRequest deviceID serviceName)))
                    ++ " with body:" ++ nl
                    ++ respBody (remote m log (searchRequest deviceID serviceName)))).
Proof.
  rewrite search_run; cbn zeta. unfold listed.
  destruct (respErr _) as [e|] eqn:Herr.
  { do 3 eexists. split; [reflexivity|]. repeat split; discriminate. }
  destruct (Z.eqb_spec (respCode (remote m log (searchRequest deviceID serviceName))) StatusOK)
    as [Hcode | Hcode]; cbn [negb].
  - destruct (unmarshalDeviceServices _) as [results [e|]] eqn:Hbody.
    { do 3 eexists. split; [reflexivity|]. repeat split; try discriminate. contradiction. }
    destruct results as [|r [|r' rest]]; cbn [length Nat.eqb nth].
    + do 3 eexists. split; [reflexivity|]. repeat split; try discriminate. contradiction.
    + do 3 eexists. split; [reflexivity|]. split; [|split]; [| discriminate | contradiction].
      intros _. split; [reflexivity|]. exists r. repeat split; assumption.
    + do 3 eexists. split; [reflexivity|]. repeat split; try discriminate. contradiction.
  - do 3 eexists. split; [reflexivity|]. repeat split; try discriminate.
Qed.

(** X5. The read of a device service issues at most one request, the GET
    of the service, on every path. When it returns, a diagnostic comes
    with the resource as it was, the resource keeps its identifier or is
    the same resource with the identifier cleared, and the device and the
    prior state are the ones it was given. It panics only while it fills a
    record that was read without error and has an identifier, on the first
    error of [d.Set], with that error; where [d.Set] returns no error, the
    read returns. *)
Theorem read_keeps_the_resource_on_error d m log :
  exists rest,
    snd (resourceDeviceServiceRead d m log) = (log ++ rest)%list
    /\ (rest = [] \/ rest = [readRequest (device_id (attrs d)) (Id d)])
    /\ (forall d' diags,
          fst (resourceDeviceServiceRead d m log) = Done (d', diags) ->
          (diags <> [] -> d' = d)
          /\ (Id d' = Id d \/ d' = SetId d "")
          /\ device_id (attrs d') = device_id (attrs d)
          /\ prior d' = prior d)
    /\ (forall e,
          fst (resourceDeviceServiceRead d m log) = Panicked e ->
          exists cfg,
            fst (readDeviceServiceOptions (device_id (attrs d)) (Id d) m log) = Done (cfg, None)
            /\ ID cfg <> "" /\ fillError cfg = Some e)
    /\ ((forall cfg, fillError cfg = None) ->
        exists d' diags, fst (resourceDeviceServiceRead d m log) = Done (d', diags)).
Proof.
  destruct (resourceDeviceServiceVersionCheck (bastionAPIVersion m)) as [e|] eqn:Hgate.
  { unfold resourceDeviceServiceRead. rewrite Hgate. exists []. rewrite app_nil_r.
    split; [reflexivity|]. split; [now left|]. split; [|split].
    - intros d' diags [= <- <-]. repeat split; auto.
    - intros e' [=].
    - intros _. now eexists _, _. }
  rewrite (read_run _ _ _ Hgate).
  destruct (readDeviceServiceOptions (device_id (attrs d)) (Id d) m log) as [o log'] eqn:Hread.
  pose proof (readOptions_run (device_id (attrs d)) (Id d) m log) as Hrun. cbn zeta in Hrun.
  rewrite Hread in Hrun. injection Hrun as Ho Hlog. subst log'. clear Hread.
  exists [readRequest (device_id (attrs d)) (Id d)].
  assert (Hleaf : forall (d' : ResourceData DeviceServiceAttrs) (diags : Diagnostics),
            ((diags <> [] -> d' = d) /\ (Id d' = Id d \/ d' = SetId d "")
             /\ device_id (attrs d') = device_id (attrs d) /\ prior d' = prior d) ->
            forall d'' diags',
              @Done (ResourceData DeviceServiceAttrs * Diagnostics) (d', diags) = Done (d'', diags') ->
              (diags' <> [] -> d'' = d) /\ (Id d'' = Id d \/ d'' = SetId d "")
              /\ device_id (attrs d'') = device_id (attrs d) /\ prior d'' = prior d).
  { intros d' diags Hkeep d'' diags' [= <- <-]. exact Hkeep. }
  destruct o as [[cfg [e|]]|msg]; [| |discriminate Ho]; clear Ho.
  - split; [reflexivity|]. split; [now right|]. split; [|split].
    + apply Hleaf. repeat split; auto.
    + intros e' [=].
    + intros _. now eexists _, _.
  - destruct (String.eqb_spec (ID cfg) "") as [Hid|Hid].
    + split; [reflexivity|]. split; [now right|]. split; [|split].
      * apply Hleaf. repeat split; auto. intros Hne. now contradiction Hne.
      * intros e' [=].
      * intros _. now eexists _, _.
    + destruct (fillError cfg) as [e|] eqn:Hfill.
      * split; [reflexivity|]. split; [now right|]. split; [|split].
        -- intros d' diags [=].
        -- intros e' [= <-]. exists cfg. repeat split; auto.
        -- intros Hall. rewrite Hall in Hfill. discriminate.
      * split; [reflexivity|]. split; [now right|]. split; [|split].
        -- apply Hleaf. repeat split; auto. intros Hne. now contradiction Hne.
        -- intros e' [=].
        -- intros _. now eexists _, _.
Qed.

(** X6. Filling the resource from the payload of its own create gives back
    the resource, when the declared global domains changed or are empty
    (an unchanged set is left out of the payload, and the fill then sets
    it empty), [d.Set] returns no error and the declared sets are as
    [Set.List()] returns them. *)
Theorem fill_of_the_create_payload d j log :
  prepareDeviceServiceJSON d true = (j, None) ->
  HasChange d "global_domains" = true \/ global_domains (attrs d) = [] ->
  fillError j = None ->
  Set_List (global_domains (attrs d)) = global_domains (attrs d) ->
  Set_List (subprotocols (attrs d)) = subprotocols (attrs d) ->
  fillDeviceService d j log = (Done d, log)
  /\ attrs (filled d j) = attrs d
  /\ Id (filled d j) = Id d.
Proof.
  intros Hj Hdomains Hfill Hgd Hsp. rewrite fill_run, Hfill.
  assert (Hback : filled d j = d).
  { rewrite (prepare_payload d true j Hj). unfold filled.
    cbn [ServiceName ConnectionPolicy Port Protocol GlobalDomains SubProtocols].
    assert (Hd : match (if HasChange d "global_domains" then Some (global_domains (attrs d)) else None) with
                 | Some l => Set_List l | None => [] end = global_domains (attrs d)).
    { destruct Hdomains as [-> | Hempty]; [exact Hgd|].
      destruct (HasChange d "global_domains"); [exact Hgd|now rewrite Hempty]. }
    assert (Hs : match (match subprotocols (attrs d) with
                        | [] => None | _ :: _ => Some (subprotocols (attrs d)) end) with
                 | Some l => Set_List l | None => [] end = subprotocols (attrs d)).
    { destruct (subprotocols (attrs d)) eqn:Hsubs; [reflexivity|exact Hsp]. }
    rewrite Hd, Hs. destruct d as [id before a mode]. now destruct a. }
  rewrite Hback. repeat split.
Qed.

(** *** Update, create and import *)

(** X7. Once its gate is passed, the update stops at the first failure
    with the partial mode left on: a refused payload ends it before any
    request, a PUT that fails in transport or is answered with a status
    other than 200 or 204 ends it after that one request with the error;
    only an accepted PUT is followed by the read, with the partial mode
    off. *)
Theorem update_stops_at_the_first_failure d m log :
  resourceDeviceVersionCheck (bastionAPIVersion m) = None ->
  (forall e, snd (prepareDeviceServiceJSON d false) = Some e ->
     resourceDeviceServiceUpdate d m log = (Done (Partial d true, [e]), log))
  /\ (forall j, prepareDeviceServiceJSON d false = (j, None) ->
        (forall e, respErr (remote m log (updateRequest d j)) = Some e ->
           resourceDeviceServiceUpdate d m log
           = (Done (Partial d true, [e]), (log ++ [updateRequest d j])%list))
        /\ (respErr (remote m log (updateRequest d j)) = None ->
            respCode (remote m log (updateRequest d j)) <> StatusOK ->
            respCode (remote m log (updateRequest d j)) <> StatusNoContent ->
            resourceDeviceServiceUpdate d m log
            = (Done (Partial d true,
                     [notOKOrNoContent (respCode (remote m log (updateRequest d j)))
                        (respBody (remote m log (updateRequest d j)))]),
               (log ++ [updateRequest d j])%list))
        /\ (respErr (remote m log (updateRequest d j)) = None ->
            respCode (remote m log (updateRequest d j)) = StatusOK
            \/ respCode (remote m log (updateRequest d j)) = StatusNoContent ->
            resourceDeviceServiceUpdate d m log
            = resourceDeviceServiceRead (Partial d false) m (log ++ [updateRequest d j])%list)).
Proof.
  intros Hgate. split.
  - intros e He. unfold resourceDeviceServiceUpdate. rewrite Hgate.
    unfold bind, updateDeviceService.
    change (prepareDeviceServiceJSON (Partial d true) false) with (prepareDeviceServiceJSON d false).
    destruct (prepareDeviceServiceJSON d false) as [j err]. cbn in He. subst err. reflexivity.
  - intros j Hj.
    assert (Hrun : resourceDeviceServiceUpdate d m log
                   = bind (updateDeviceService (Partial d true) m)
                       (fun err => match err with
                                   | Some _ => ret (Partial d true, diag_FromErr err)
                                   | None => resourceDeviceServiceRead (Partial d false) m
                                   end) log).
    { unfold resourceDeviceServiceUpdate. now rewrite Hgate. }
    rewrite Hrun. unfold bind.
    rewrite (update_run (Partial d true) m log j Hj); cbn zeta.
    change (updateRequest (Partial d true) j) with (updateRequest d j).
    split; [|split].
    + intros e He. now rewrite He.
    + intros Herr Hok Hnc. rewrite Herr.
      destruct (Z.eqb_spec (respCode (remote m log (updateRequest d j))) StatusOK); [contradiction|].
      destruct (Z.eqb_spec (respCode (remote m log (updateRequest d j))) StatusNoContent);
        [contradiction|reflexivity].
    + intros Herr [Hcode | Hcode]; rewrite Herr, Hcode; reflexivity.
Qed.

(** X8. Once the gate is passed, the create returns the resource as it was,
    with one diagnostic, at each failure before the identity is recovered:
    an error of the device lookup, a device without identifier (the listing
    is then not asked), a listing answered with a status other than 200,
    and a POST that fails in transport or is answered with a status other
    than 200 or 204 (the listing is then not asked again). *)
Theorem create_stops_at_the_first_failure d m log :
  resourceDeviceServiceVersionCheck (bastionAPIVersion m) = None ->
  (forall cfg e log1,
     readDeviceOptions (device_id (attrs d)) m log = (Done (cfg, Some e), log1) ->
     resourceDeviceServiceCreate d m log = (Done (d, [e]), log1))
  /\ (forall cfg log1,
        readDeviceOptions (device_id (attrs d)) m log = (Done (cfg, None), log1) ->
        jsonDevice_ID cfg = "" ->
        resourceDeviceServiceCreate d m log
        = (Done (d, ["device with ID " ++ device_id (attrs d) ++ " doesn't exists"]), log1))
  /\ (forall cfg log1,
        readDeviceOptions (device_id (attrs d)) m log = (Done (cfg, None), log1) ->
        jsonDevice_ID cfg <> "" ->
        let listing := searchRequest (device_id (attrs d)) (service_name (attrs d)) in
        (respErr (remote m log1 listing) = None ->
         respCode (remote m log1 listing) <> StatusOK ->
         resourceDeviceServiceCreate d m log
         = (Done (d, ["api doesn't return OK: " ++ itoa (respCode (remote m log1 listing))
                      ++ " with body:" ++ nl ++ respBody (remote m log1 listing)]),
            (log1 ++ [listing])%list))
        /\ (forall before j,
              listed m log1 (device_id (attrs d)) (service_name (attrs d)) before ->
              length before <> 1%nat ->
              prepareDeviceServiceJSON d true = (j, None) ->
              let log2 := (log1 ++ [listing])%list in
              (forall e, respErr (remote m log2 (createRequest d j)) = Some e ->
                 resourceDeviceServiceCreate d m log
                 = (Done (d, [e]), (log2 ++ [createRequest d j])%list))
              /\ (respErr (remote m log2 (createRequest d j)) = None ->
                  respCode (remote m log2 (createRequest d j)) <> StatusOK ->
                  respCode (remote m log2 (createRequest d j)) <> StatusNoContent ->
                  resourceDeviceServiceCreate d m log
                  = (Done (d, [notOKOrNoContent (respCode (remote m log2 (createRequest d j)))
                                 (respBody (remote m log2 (createRequest d j)))]),
                     (log2 ++ [createRequest d j])%list)))).
Proof.
  intros Hgate. split; [|split].
  - intros cfg e log1 Hdev. unfold resourceDeviceServiceCreate. rewrite Hgate.
    unfold bind at 1. now rewrite Hdev.
  - intros cfg log1 Hdev Hid. unfold resourceDeviceServiceCreate. rewrite Hgate.
    unfold bind at 1. rewrite Hdev, Hid. reflexivity.
  - intros cfg log1 Hdev Hid. cbn zeta.
    assert (Hrun :
      resourceDeviceServiceCreate d m log =
      bind (searchResourceDeviceService (device_id (attrs d)) (service_name (attrs d)) m)
        (fun r => let '(_, ex, err) := r in
           match err with
           | Some _ => ret (d, diag_FromErr err)
           | None =>
               if ex : bool then
                 ret (d, diag_FromErr (Some ("service_name " ++ service_name (attrs d)
                                             ++ " on device_id " ++ device_id (attrs d)
                                             ++ " already exists")))
               else
                 bind (addDeviceService d m)
                   (fun err => match err with
                      | Some _ => ret (d, diag_FromErr err)
                      | None =>
                          bind (searchResourceDeviceService
                                  (device_id (attrs d)) (service_name (attrs d)) m)
                            (fun r => let '(id, ex, err) := r in
                               match err with
                               | Some _ => ret (d, diag_FromErr err)
                               | None =>
                                   if negb ex then
                                     ret (d, diag_FromErr (Some ("service_name " ++ service_name (attrs d)
                                                                 ++ " on device_id " ++ device_id (attrs d)
                                                                 ++ " not found after POST")))
                                   else resourceDeviceServiceRead (SetId d id) m
                               end)
                      end)
           end) log1).
    { unfold resourceDeviceServiceCreate. rewrite Hgate.
      unfold bind at 1. rewrite Hdev.
      destruct (String.eqb_spec (jsonDevice_ID cfg) ""); [contradiction|reflexivity]. }
    split.
    + intros Herr Hcode. rewrite Hrun. unfold bind at 1.
      rewrite search_run; cbn zeta. rewrite Herr.
      destruct (Z.eqb_spec (respCode (remote m log1
                  (searchRequest (device_id (attrs d)) (service_name (attrs d))))) StatusOK);
        [contradiction|reflexivity].
    + intros before j Hbefore Hlen Hj. split.
      * intros e He. rewrite Hrun. unfold bind at 1.
        rewrite (search_listed _ _ _ _ _ Hbefore).
        destruct (Nat.eqb_spec (length before) 1); [contradiction|].
        unfold bind at 1. rewrite (add_run _ _ _ _ Hj); cbn zeta. now rewrite He.
      * intros Herr Hok Hnc. rewrite Hrun. unfold bind at 1.
        rewrite (search_listed _ _ _ _ _ Hbefore).
        destruct (Nat.eqb_spec (length before) 1); [contradiction|].
        unfold bind at 1. rewrite (add_run _ _ _ _ Hj); cbn zeta. rewrite Herr.
        destruct (Z.eqb_spec (respCode (remote m
                    (log1 ++ [searchRequest (device_id (attrs d)) (service_name (attrs d))])%list
                    (createRequest d j))) StatusOK); [contradiction|].
        destruct (Z.eqb_spec (respCode (remote m
                    (log1 ++ [searchRequest (device_id (attrs d)) (service_name (attrs d))])%list
                    (createRequest d j))) StatusNoContent); [contradiction|reflexivity].
Qed.

(** X9. An import whose identifier is [parent/name] and whose listing finds
    the single record [r] tracks the identifier of [r] under device
    [parent] and takes every other attribute from the read of that
    identifier, the two lists as the sets stored from them. The read is not
    checked for absence: answered 404, the import still succeeds, with the
    attributes at their zero values; it fails only on an error of the
    read, and it panics on an error of [d.Set]. *)
Theorem import_fills_from_the_read d m log parent name r :
  resourceDeviceServiceVersionCheck (bastionAPIVersion m) = None ->
  Id d = parent ++ "/" ++ name ->
  count_char "/" parent = 0%nat -> count_char "/" name = 0%nat ->
  listed m log parent name [r] ->
  let log1 := (log ++ [searchRequest parent name])%list in
  let get := readRequest parent (ID r) in
  (respErr (remote m log1 get) = None ->
   respCode (remote m log1 get) = StatusNotFound ->
   fillError zeroDeviceService = None ->
   Set_error "device_id" (StringValue parent) = None ->
   resourceDeviceServiceImport d m log
   = (Done ([mkResourceData (ID r) (prior d)
               (mkDeviceServiceAttrs parent "" "" 0 "" [] []) (partial d)], None),
      (log1 ++ [get])%list))
  /\ (forall found,
        respErr (remote m log1 get) = None ->
        respCode (remote m log1 get) = StatusOK ->
        unmarshalDeviceService (respBody (remote m log1 get)) = (found, None) ->
        fillError found = None ->
        Set_error "device_id" (StringValue parent) = None ->
        resourceDeviceServiceImport d m log
        = (Done ([mkResourceData (ID r) (prior d)
                    (mkDeviceServiceAttrs parent (ServiceName found) (ConnectionPolicy found)
                       (Port found) (Protocol found)
                       (match GlobalDomains found with Some l => Set_List l | None => [] end)
                       (match SubProtocols found with Some l => Set_List l | None => [] end))
                    (partial d)], None),
           (log1 ++ [get])%list))
  /\ (respErr (remote m log1 get) = None ->
      respCode (remote m log1 get) <> StatusNotFound ->
      respCode (remote m log1 get) <> StatusOK ->
      resourceDeviceServiceImport d m log
      = (Done ([], Some ("api doesn't return OK: " ++ itoa (respCode (remote m log1 get))
                         ++ " with body:" ++ nl ++ respBody (remote m log1 get))),
         (log1 ++ [get])%list))
  /\ (forall found log2 e,
        readDeviceServiceOptions parent (ID r) m log1 = (Done (found, None), log2) ->
        fillError found = Some e
        \/ (fillError found = None /\ Set_error "device_id" (StringValue parent) = Some e) ->
        resourceDeviceServiceImport d m log = (Panicked e, log2)).
Proof.
  intros Hgate Hid Hp Hn Hlisted. cbn zeta.
  assert (Hrun : resourceDeviceServiceImport d m log
                 = bind (readDeviceServiceOptions parent (ID r) m)
                     (fun c => let '(cfg, err) := c in
                        match err with
                        | Some _ => ret ([], err)
                        | None =>
                            bind (fillDeviceService d cfg)
                              (fun d0 => bind (setOrPanic (SetId d0 (ID r)) "device_id"
                                                 (StringValue parent))
                                           (fun d1 => ret ([d1], @None string)))
                        end) (log ++ [searchRequest parent name])%list).
  { unfold resourceDeviceServiceImport. rewrite Hgate, Hid, (split_parent_name _ _ Hp Hn).
    cbn [length Nat.eqb negb nth]. unfold bind at 1.
    rewrite (search_listed _ _ _ _ _ Hlisted). cbn [length Nat.eqb nth negb].
    reflexivity. }
  rewrite Hrun. clear Hrun.
  split; [|split; [|split]].
  - intros Herr Hcode Hfill Hdev. unfold bind at 1. rewrite readOptions_run; cbn zeta.
    rewrite Herr, Hcode. cbn [Z.eqb Pos.eqb StatusNotFound].
    rewrite import_tail, Hfill, Hdev. reflexivity.
  - intros found Herr Hcode Hbody Hfill Hdev. unfold bind at 1. rewrite readOptions_run; cbn zeta.
    rewrite Herr, Hcode, Hbody. cbn [Z.eqb Pos.eqb StatusNotFound StatusOK negb].
    rewrite import_tail, Hfill, Hdev. reflexivity.
  - intros Herr Hnf Hok. unfold bind at 1. rewrite readOptions_run; cbn zeta. rewrite Herr.
    destruct (Z.eqb_spec (respCode (remote m (log ++ [searchRequest parent name])%list
                (readRequest parent (ID r)))) StatusNotFound); [contradiction|].
    destruct (Z.eqb_spec (respCode (remote m (log ++ [searchRequest parent name])%list
                (readRequest parent (ID r)))) StatusOK); [contradiction|reflexivity].
  - intros found log2 e Hread Hrefused. unfold bind at 1. rewrite Hread, import_tail.
    destruct Hrefused as [-> | [-> ->]]; reflexivity.
Qed.

(** X10. The import never writes to the remote: on every path it issues at
    most two requests, each a GET with no payload. When it returns, it
    returns an error and no resource, or no error and exactly one resource,
    whose prior state is the one it was given. It panics only on an error
    of [d.Set], with that error; where [d.Set] returns no error, the
    import returns. *)
Theorem import_only_reads d m log :
  exists rest,
    snd (resourceDeviceServiceImport d m log) = (log ++ rest)%list
    /\ Forall readsOnly rest
    /\ (length rest <= 2)%nat
    /\ (forall resources err,
          fst (resourceDeviceServiceImport d m log) = Done (resources, err) ->
          (err <> None -> resources = [])
          /\ (err = None -> exists d', resources = [d'] /\ prior d' = prior d))
    /\ (forall e,
          fst (resourceDeviceServiceImport d m log) = Panicked e ->
          exists key v, Set_error key v = Some e)
    /\ ((forall key v, Set_error key v = None) ->
        exists resources err, fst (resourceDeviceServiceImport d m log) = Done (resources, err)).
Proof.
  set (ends := fun out : Outcome (list (ResourceData DeviceServiceAttrs) * error) * Log =>
    exists rest,
      snd out = (log ++ rest)%list
      /\ Forall readsOnly rest
      /\ (length rest <= 2)%nat
      /\ (forall resources err,
            fst out = Done (resources, err) ->
            (err <> None -> resources = [])
            /\ (err = None -> exists d', resources = [d'] /\ prior d' = prior d))
      /\ (forall e, fst out = Panicked e -> exists key v, Set_error key v = Some e)
      /\ ((forall key v, Set_error key v = None) ->
          exists resources err, fst out = Done (resources, err))).
  change (ends (resourceDeviceServiceImport d m log)).
  assert (Hfail : forall (e : string) rest,
            Forall readsOnly rest -> (length rest <= 2)%nat ->
            ends (Done ([], Some e), (log ++ rest)%list)).
  { intros e rest Hreads Hlen. exists rest.
    split; [reflexivity|]. split; [exact Hreads|]. split; [exact Hlen|].
    split; [intros ? ? [= <- <-]; split; [reflexivity|discriminate]|].
    split; [intros ? [=] | intros _; eexists _, _; reflexivity]. }
  assert (Htail : forall cfg id parent rest,
            Forall readsOnly rest -> (length rest <= 2)%nat ->
            ends (bind (fillDeviceService d cfg)
                    (fun d0 => bind (setOrPanic (SetId d0 id) "device_id" (StringValue parent))
                                 (fun d1 => ret ([d1], @None string)))
                    (log ++ rest)%list)).
  { intros cfg id parent rest Hreads Hlen. rewrite import_tail. exists rest.
    split; [reflexivity|]. split; [exact Hreads|]. split; [exact Hlen|].
    destruct (fillError cfg) as [e|] eqn:Hfill.
    - split; [intros ? ? [=]|]. split.
      + intros e' [= <-]. exact (fill_error_is_set_error _ _ Hfill).
      + intros Hall. destruct (fill_error_is_set_error _ _ Hfill) as (key & v & Hkey).
        rewrite Hall in Hkey. discriminate.
    - destruct (Set_error "device_id" (StringValue parent)) as [e|] eqn:Hdev.
      + split; [intros ? ? [=]|]. split.
        * intros e' [= <-]. eauto.
        * intros Hall. rewrite Hall in Hdev. discriminate.
      + split; [intros ? ? [= <- <-]; split; [congruence|intros _; eexists; split; reflexivity]|].
        split; [intros ? [=] | intros _; eexists _, _; reflexivity]. }
  clearbody ends.
  unfold resourceDeviceServiceImport.
  assert (Hnone : forall e : string, ends (Done ([], Some e), log)).
  { intros e. rewrite <- (app_nil_r log). apply Hfail; [constructor|cbn; lia]. }
  destruct (resourceDeviceServiceVersionCheck _) as [e|]; [apply Hnone|].
  destruct (negb _); [apply Hnone|].
  unfold bind at 1. rewrite search_run; cbn zeta.
  set (listing := searchRequest _ _).
  assert (Hlisting : Forall readsOnly [listing] /\ (length [listing] <= 2)%nat)
    by (split; [repeat constructor|cbn; lia]).
  destruct Hlisting as [Hr1 Hl1].
  destruct (respErr (remote m log listing)) as [e|]; [apply Hfail; assumption|].
  destruct (negb _); [apply Hfail; assumption|].
  destruct (unmarshalDeviceServices _) as [results [e|]]; [apply Hfail; assumption|].
  destruct (Nat.eqb (length results) 1); cbn [negb]; [|apply Hfail; assumption].
  unfold bind at 1. rewrite readOptions_run; cbn zeta.
  set (get := readRequest _ _).
  assert (Hlog : ((log ++ [listing]) ++ [get])%list = (log ++ [listing; get])%list)
    by now rewrite <- app_assoc.
  rewrite Hlog.
  assert (Hboth : Forall readsOnly [listing; get] /\ (length [listing; get] <= 2)%nat)
    by (split; [repeat constructor|cbn; lia]).
  destruct Hboth as [Hr2 Hl2].
  destruct (respErr (remote m _ get)) as [e|]; [apply Hfail; assumption|].
  destruct (_ =? StatusNotFound)%Z; [apply Htail; assumption|].
  destruct (negb _); [apply Hfail; assumption|].
  destruct (unmarshalDeviceService _) as [cfg [e|]]; [apply Hfail; assumption|].
  apply Htail; assumption.
Qed.

(** *** The x509 configuration *)

Lemma x509_fetch_run m log :
  let r := remote m log x509ReadRequest in
  readConfigX509Options m log =
  (Done
     (match respErr r with
      | Some _ => (zeroConfigX509, respErr r)
      | None =>
          if (respCode r =? StatusNotFound)%Z then (zeroConfigX509, None)
          else if negb (respCode r =? StatusOK)%Z then
            (zeroConfigX509, Some (apiReturnedError (respCode r) (respBody r)))
          else
            match unmarshalConfigX509 (respBody r) with
            | (result, Some e) => (result, Some ("error unmarshaling JSON: " ++ e))
            | (result, None) => (result, None)
            end
      end),
   (log ++ [x509ReadRequest])%list).
Proof.
  unfold readConfigX509Options, bind, newRequest, ret, x509ReadRequest, apiReturnedError; cbn.
  destruct (respErr _); [reflexivity|].
  destruct (_ =? StatusNotFound)%Z; [reflexivity|].
  destruct (negb _); [reflexivity|].
  destruct (unmarshalConfigX509 _) as [result [e|]]; reflexivity.
Qed.

Lemma x509_write_run method x m log :
  let r := remote m log (x509WriteRequest method x) in
  bind (newRequest m "/config/x509" method (ConfigX509Payload (prepareConfigX509JSON x)))
    (fun a => let '(body, code, err) := a in
       match err with
       | Some _ => ret err
       | None =>
           if negb (code =? StatusOK)%Z && negb (code =? StatusNoContent)%Z then
             ret (Some ("API returned error: " ++ itoa code ++ " with body:" ++ nl ++ body))
           else ret None
       end) log
  = (Done
       (match respErr r with
        | Some _ => respErr r
        | None =>
            if negb (respCode r =? StatusOK)%Z && negb (respCode r =? StatusNoContent)%Z
            then Some (apiReturnedError (respCode r) (respBody r))
            else None
        end),
     (log ++ [x509WriteRequest method x])%list).
Proof.
  unfold bind, newRequest, ret, x509WriteRequest, apiReturnedError; cbn.
  by_status.
Qed.

(** X11. The payload of the x509 create and update always carries
    [server_public_key] and [server_private_key], carries [ca_certificate]
    only when it is not empty and [enable] only when it is true (a declared
    [enable = false] is not on the wire), and never carries [default]. The
    create sends it in one POST and the update in one PUT to the same
    path. *)
Theorem x509_payload_fields x m log :
  Encode.keys (Encode.configX509 (prepareConfigX509JSON x))
  = ((if String.eqb (ca_certificate (attrs x)) "" then [] else ["ca_certificate"])
     ++ ["server_public_key"; "server_private_key"]
     ++ (if enable (attrs x) then ["enable"] else []))%list
  /\ snd (addConfigX509 x m log) = (log ++ [x509WriteRequest MethodPost x])%list
  /\ snd (updateConfigX509 x m log) = (log ++ [x509WriteRequest MethodPut x])%list.
Proof.
  split; [|split].
  - unfold Encode.configX509, Encode.keys, Encode.omitemptyStr, Encode.omitemptyBool,
      Encode.always, prepareConfigX509JSON.
    cbn [CaCertificate ServerPublicKey ServerPrivateKey Enable Default].
    destruct (String.eqb (ca_certificate (attrs x)) ""), (enable (attrs x)); reflexivity.
  - unfold addConfigX509. cbn zeta. now rewrite x509_write_run.
  - unfold updateConfigX509. cbn zeta. now rewrite x509_write_run.
Qed.

(** X12. The x509 delete issues one DELETE and clears the tracked identity
    only when it is answered 200 or 204; on a transport error or any other
    status, a 404 included, it returns the error and the resource as it
    was. *)
Theorem x509_delete_clears_on_success_only x m log :
  snd (resourceConfigX509Delete x m log) = (log ++ [x509DeleteRequest])%list
  /\ (respErr (remote m log x509DeleteRequest) = None ->
      respCode (remote m log x509DeleteRequest) = StatusOK
      \/ respCode (remote m log x509DeleteRequest) = StatusNoContent ->
      fst (resourceConfigX509Delete x m log) = Done (SetId x "", []))
  /\ (respErr (remote m log x509DeleteRequest) = None ->
      respCode (remote m log x509DeleteRequest) <> StatusOK ->
      respCode (remote m log x509DeleteRequest) <> StatusNoContent ->
      fst (resourceConfigX509Delete x m log)
      = Done (x, [apiReturnedError (respCode (remote m log x509DeleteRequest))
                    (respBody (remote m log x509DeleteRequest))]))
  /\ (forall e, respErr (remote m log x509DeleteRequest) = Some e ->
        fst (resourceConfigX509Delete x m log) = Done (x, [e])).
Proof.
  assert (Hrun : resourceConfigX509Delete x m log
    = (Done (match respErr (remote m log x509DeleteRequest) with
             | Some e => (x, [e])
             | None =>
                 if negb (respCode (remote m log x509DeleteRequest) =? StatusOK)%Z
                    && negb (respCode (remote m log x509DeleteRequest) =? StatusNoContent)%Z
                 then (x, [apiReturnedError (respCode (remote m log x509DeleteRequest))
                             (respBody (remote m log x509DeleteRequest))])
                 else (SetId x "", [])
             end),
       (log ++ [x509DeleteRequest])%list)).
  { unfold resourceConfigX509Delete, deleteConfigX509, bind, newRequest, ret,
      x509DeleteRequest, apiReturnedError; cbn.
    destruct (respErr _); [reflexivity|].
    destruct (negb _ && negb _); reflexivity. }
  rewrite Hrun. cbn [fst snd]. split; [reflexivity|]. split; [|split].
  - intros Herr [Hcode | Hcode]; rewrite Herr, Hcode; reflexivity.
  - intros Herr Hok Hnc. rewrite Herr.
    destruct (Z.eqb_spec (respCode (remote m log x509DeleteRequest)) StatusOK); [contradiction|].
    destruct (Z.eqb_spec (respCode (remote m log x509DeleteRequest)) StatusNoContent);
      [contradiction|reflexivity].
  - intros e He. now rewrite He.
Qed.

Lemma check_errors (x : ResourceData ConfigX509Attrs) observed declared rest block e :
  declared <> "" -> pem_Decode declared = Some block ->
  x509_ParseCertificate (Bytes block) = inr e ->
  certificateCheck x observed declared rest = ret (x, [e]).
Proof.
  unfold certificateCheck. intros Hdeclared Hblock Hparse.
  destruct (String.eqb_spec declared ""); [contradiction|]. cbn [negb].
  now rewrite Hblock, Hparse.
Qed.

(** X13. An x509 read whose GET is answered 404 takes the configuration as
    empty and not default: with no certificate declared the identity is
    kept and [enable] is set to false; with a declared certificate that
    decodes and parses, the identity is cleared, since an empty observed
    value holds no common name. *)
Theorem x509_read_of_a_missing_configuration x m log :
  respErr (remote m log x509ReadRequest) = None ->
  respCode (remote m log x509ReadRequest) = StatusNotFound ->
  (ca_certificate (attrs x) = "" -> server_public_key (attrs x) = "" ->
   resourceConfigX509Read x m log
   = (Done (SetAttrs x (mkConfigX509Attrs "" "" (server_private_key (attrs x)) false), []),
      (log ++ [x509ReadRequest])%list))
  /\ (forall cn, ca_certificate (attrs x) <> "" ->
        commonName (ca_certificate (attrs x)) = Some cn ->
        resourceConfigX509Read x m log = (Done (SetId x "", []), (log ++ [x509ReadRequest])%list))
  /\ (forall cn, ca_certificate (attrs x) = "" -> server_public_key (attrs x) <> "" ->
        commonName (server_public_key (attrs x)) = Some cn ->
        resourceConfigX509Read x m log = (Done (SetId x "", []), (log ++ [x509ReadRequest])%list)).
Proof.
  intros Herr Hcode.
  assert (Hfetch : readConfigX509Options m log
                   = (Done (zeroConfigX509, None), (log ++ [x509ReadRequest])%list)).
  { rewrite x509_fetch_run; cbn zeta. now rewrite Herr, Hcode. }
  rewrite (x509_read_run x _ _ _ _ Hfetch eq_refl).
  cbn [CaCertificate ServerPublicKey zeroConfigX509].
  split; [|split].
  - intros Hca Hpub. rewrite Hca, Hpub. unfold certificateCheck, fillConfigX509. cbn.
    now rewrite Hca, Hpub.
  - intros cn Hca Hcn. apply (f_equal (fun c => c (log ++ [x509ReadRequest])%list)).
    apply check_drifts. split; [exact Hca|]. exists cn. split; [exact Hcn|reflexivity].
  - intros cn Hca Hpub Hcn. rewrite (check_passes _ _ _ _ (or_introl Hca)).
    apply (f_equal (fun c => c (log ++ [x509ReadRequest])%list)).
    apply check_drifts. split; [exact Hpub|]. exists cn. split; [exact Hcn|reflexivity].
Qed.

(** X14. The x509 read issues exactly one request, the GET of the
    configuration, whatever happens. When it returns, the declared
    certificates, the private key and the prior state are the ones it was
    given (the read only ever writes [enable]); the identity is kept or
    cleared; and a read that returns a diagnostic returns the resource as it
    was. *)
Theorem x509_read_only_reads x m log :
  snd (resourceConfigX509Read x m log) = (log ++ [x509ReadRequest])%list
  /\ (forall x' diags, fst (resourceConfigX509Read x m log) = Done (x', diags) ->
        x509Kept x x' diags).
Proof.
  unfold resourceConfigX509Read, bind. rewrite x509_fetch_run; cbn zeta.
  set (log1 := (log ++ [x509ReadRequest])%list).
  assert (Hleaves : forall c : M (ResourceData ConfigX509Attrs * Diagnostics),
    (c = panic nilDereference
     \/ (exists e, c = ret (x, [e]))
     \/ c = ret (SetId x "", [])
     \/ exists en, c = ret (SetAttrs x (mkConfigX509Attrs (ca_certificate (attrs x))
                              (server_public_key (attrs x)) (server_private_key (attrs x)) en), [])) ->
    snd (c log1) = log1
    /\ (forall x' diags, fst (c log1) = Done (x', diags) -> x509Kept x x' diags)).
  { intros c [-> | [[e ->] | [-> | [en ->]]]]; (split; [reflexivity|x509_leaf]). }
  destruct (match respErr (remote m log x509ReadRequest) with
            | Some _ => _ | None => _ end) as [cfg [e|]].
  { apply Hleaves. right; left. now exists e. }
  destruct (Default cfg).
  { apply Hleaves. right; right; now left. }
  assert (Hfill : (let '(d', err) := fillConfigX509 x cfg in
                   match err with
                   | Some _ => ret (d', diag_FromErr err)
                   | None => ret (d', [])
                   end)
                  = ret (SetAttrs x (mkConfigX509Attrs (ca_certificate (attrs x))
                           (server_public_key (attrs x)) (server_private_key (attrs x))
                           (Enable cfg)), [])) by reflexivity.
  rewrite Hfill.
  destruct (negb (String.eqb (ca_certificate (attrs x)) "")).
  - destruct (pem_Decode (ca_certificate (attrs x))) as [block|];
      [|apply Hleaves; now left].
    destruct (x509_ParseCertificate (Bytes block)) as [certificate|e];
      [|apply Hleaves; right; left; now exists e].
    destruct (negb (strings_Contains _ _)); [apply Hleaves; right; right; now left|].
    destruct (negb (String.eqb (server_public_key (attrs x)) ""));
      [|apply Hleaves; right; right; right; now eexists].
    destruct (pem_Decode (server_public_key (attrs x))) as [block'|];
      [|apply Hleaves; now left].
    destruct (x509_ParseCertificate (Bytes block')) as [certificate'|e];
      [|apply Hleaves; right; left; now exists e].
    destruct (negb (strings_Contains _ _)); [apply Hleaves; right; right; now left|].
    apply Hleaves; right; right; right; now eexists.
  - destruct (negb (String.eqb (server_public_key (attrs x)) ""));
      [|apply Hleaves; right; right; right; now eexists].
    destruct (pem_Decode (server_public_key (attrs x))) as [block'|];
      [|apply Hleaves; now left].
    destruct (x509_ParseCertificate (Bytes block')) as [certificate'|e];
      [|apply Hleaves; right; left; now exists e].
    destruct (negb (strings_Contains _ _)); [apply Hleaves; right; right; now left|].
    apply Hleaves; right; right; right; now eexists.
Qed.

(** What follows the one write of the x509 create and update. *)
Lemma x509_write_outcome method x m log
    (next : M (ResourceData ConfigX509Attrs * Diagnostics)) :
  bind (bind (newRequest m "/config/x509" method (ConfigX509Payload (prepareConfigX509JSON x)))
          (fun a => let '(body, code, err) := a in
             match err with
             | Some _ => ret err
             | None =>
                 if negb (code =? StatusOK)%Z && negb (code =? StatusNoContent)%Z then
                   ret (Some ("API returned error: " ++ itoa code ++ " with body:" ++ nl ++ body))
                 else ret None
             end))
    (fun err => match err with
                | Some _ => ret (x, diag_FromErr err)
                | None => next
                end) log
  = match respErr (remote m log (x509WriteRequest method x)) with
    | Some e => (Done (x, [e]), (log ++ [x509WriteRequest method x])%list)
    | None =>
        if negb (respCode (remote m log (x509WriteRequest method x)) =? StatusOK)%Z
           && negb (respCode (remote m log (x509WriteRequest method x)) =? StatusNoContent)%Z
        then (Done (x, [apiReturnedError (respCode (remote m log (x509WriteRequest method x)))
                          (respBody (remote m log (x509WriteRequest method x)))]),
              (log ++ [x509WriteRequest method x])%list)
        else next (log ++ [x509WriteRequest method x])%list
    end.
Proof.
  unfold bind at 1. rewrite x509_write_run; cbn zeta.
  destruct (respErr _); [reflexivity|]. destruct (negb _ && negb _); reflexivity.
Qed.

(** X15. The x509 create and update stop on a write that fails: after the
    one POST or PUT they return the transport error, or the error carrying
    the status and the body when the status is neither 200 nor 204, with
    the resource as it was and no read. An accepted write is followed by
    the read, the create having first set the identity to [x509Config]. *)
Theorem x509_write_is_followed_by_the_read x m log :
  ((forall e, respErr (remote m log (x509WriteRequest MethodPost x)) = Some e ->
      resourceConfigX509Create x m log
      = (Done (x, [e]), (log ++ [x509WriteRequest MethodPost x])%list))
   /\ (respErr (remote m log (x509WriteRequest MethodPost x)) = None ->
       respCode (remote m log (x509WriteRequest MethodPost x)) <> StatusOK ->
       respCode (remote m log (x509WriteRequest MethodPost x)) <> StatusNoContent ->
       resourceConfigX509Create x m log
       = (Done (x, [apiReturnedError (respCode (remote m log (x509WriteRequest MethodPost x)))
                      (respBody (remote m log (x509WriteRequest MethodPost x)))]),
          (log ++ [x509WriteRequest MethodPost x])%list))
   /\ (respErr (remote m log (x509WriteRequest MethodPost x)) = None ->
       respCode (remote m log (x509WriteRequest MethodPost x)) = StatusOK
       \/ respCode (remote m log (x509WriteRequest MethodPost x)) = StatusNoContent ->
       resourceConfigX509Create x m log
       = resourceConfigX509Read (SetId x "x509Config") m
           (log ++ [x509WriteRequest MethodPost x])%list))
  /\ ((forall e, respErr (remote m log (x509WriteRequest MethodPut x)) = Some e ->
         resourceConfigX509Update x m log
         = (Done (x, [e]), (log ++ [x509WriteRequest MethodPut x])%list))
      /\ (respErr (remote m log (x509WriteRequest MethodPut x)) = None ->
          respCode (remote m log (x509WriteRequest MethodPut x)) <> StatusOK ->
          respCode (remote m log (x509WriteRequest MethodPut x)) <> StatusNoContent ->
          resourceConfigX509Update x m log
          = (Done (x, [apiReturnedError (respCode (remote m log (x509WriteRequest MethodPut x)))
                         (respBody (remote m log (x509WriteRequest MethodPut x)))]),
             (log ++ [x509WriteRequest MethodPut x])%list))
      /\ (respErr (remote m log (x509WriteRequest MethodPut x)) = None ->
          respCode (remote m log (x509WriteRequest MethodPut x)) = StatusOK
          \/ respCode (remote m log (x509WriteRequest MethodPut x)) = StatusNoContent ->
          resourceConfigX509Update x m log
          = resourceConfigX509Read x m (log ++ [x509WriteRequest MethodPut x])%list)).
Proof.
  assert (Hcases : forall method run next,
    run = match respErr (remote m log (x509WriteRequest method x)) with
          | Some e => (Done (x, [e]), (log ++ [x509WriteRequest method x])%list)
          | None =>
              if negb (respCode (remote m log (x509WriteRequest method x)) =? StatusOK)%Z
                 && negb (respCode (remote m log (x509WriteRequest method x)) =? StatusNoContent)%Z
              then (Done (x, [apiReturnedError (respCode (remote m log (x509WriteRequest method x)))
                                (respBody (remote m log (x509WriteRequest method x)))]),
                    (log ++ [x509WriteRequest method x])%list)
              else next (log ++ [x509WriteRequest method x])%list
          end ->
    (forall e, respErr (remote m log (x509WriteRequest method x)) = Some e ->
       run = (Done (x, [e]), (log ++ [x509WriteRequest method x])%list))
    /\ (respErr (remote m log (x509WriteRequest method x)) = None ->
        respCode (remote m log (x509WriteRequest method x)) <> StatusOK ->
        respCode (remote m log (x509WriteRequest method x)) <> StatusNoContent ->
        run = (Done (x, [apiReturnedError (respCode (remote m log (x509WriteRequest method x)))
                           (respBody (remote m log (x509WriteRequest method x)))]),
               (log ++ [x509WriteRequest method x])%list))
    /\ (respErr (remote m log (x509WriteRequest method x)) = None ->
        respCode (remote m log (x509WriteRequest method x)) = StatusOK
        \/ respCode (remote m log (x509WriteRequest method x)) = StatusNoContent ->
        run = next (log ++ [x509WriteRequest method x])%list)).
  { intros method run next ->. split; [|split].
    - intros e He. now rewrite He.
    - intros Herr Hok Hnc. rewrite Herr.
      destruct (Z.eqb_spec (respCode (remote m log (x509WriteRequest method x))) StatusOK);
        [contradiction|].
      destruct (Z.eqb_spec (respCode (remote m log (x509WriteRequest method x))) StatusNoContent);
        [contradiction|reflexivity].
    - intros Herr [Hcode | Hcode]; rewrite Herr, Hcode; reflexivity. }
  split; apply Hcases.
  - unfold resourceConfigX509Create, addConfigX509. cbn zeta. apply x509_write_outcome.
  - unfold resourceConfigX509Update, updateConfigX509. cbn zeta. apply x509_write_outcome.
Qed.

(** X16. After a fetch without error of a configuration that is not flagged
    default, a declared certificate in which a PEM block is found but
    which does not parse as a certificate makes the x509 read return the
    error of the parser, with the resource as it was: for [ca_certificate],
    and for [server_public_key] once the check of [ca_certificate] passed
    or was skipped. *)
Theorem x509_read_returns_the_parse_error x m log cfg log1 block e :
  readConfigX509Options m log = (Done (cfg, None), log1) ->
  Default cfg = false ->
  x509_ParseCertificate (Bytes block) = inr e ->
  (ca_certificate (attrs x) <> "" -> pem_Decode (ca_certificate (attrs x)) = Some block ->
   resourceConfigX509Read x m log = (Done (x, [e]), log1))
  /\ (fieldMatches (CaCertificate cfg) (ca_certificate (attrs x)) ->
      server_public_key (attrs x) <> "" ->
      pem_Decode (server_public_key (attrs x)) = Some block ->
      resourceConfigX509Read x m log = (Done (x, [e]), log1)).
Proof.
  intros Hfetch Hdefault Hparse. rewrite (x509_read_run x _ _ _ _ Hfetch Hdefault). split.
  - intros Hca Hblock. now rewrite (check_errors _ _ _ _ _ _ Hca Hblock Hparse).
  - intros Hca Hpub Hblock.
    now rewrite (check_passes _ _ _ _ Hca), (check_errors _ _ _ _ _ _ Hpub Hblock Hparse).
Qed.

(** X17. Once the gate is passed, a read whose GET is answered 200 with a
    body that decodes to a record: a record without identifier clears the
    tracked identity, like a 404; a record with an identifier, when [d.Set]
    returns no error, replaces the service name, connection policy, port
    and protocol by those of the record and the global domains and
    sub-protocols by the sets stored from the lists of the record (an
    absent list gives the empty set), and keeps the tracked identity and
    the device, whatever identifier the record carries; on an error of
    [d.Set] the read panics with it. *)
Theorem read_takes_the_attributes_of_the_record d m log cfg :
  resourceDeviceServiceVersionCheck (bastionAPIVersion m) = None ->
  respErr (remote m log (readRequest (device_id (attrs d)) (Id d))) = None ->
  respCode (remote m log (readRequest (device_id (attrs d)) (Id d))) = StatusOK ->
  unmarshalDeviceService (respBody (remote m log (readRequest (device_id (attrs d)) (Id d))))
  = (cfg, None) ->
  (ID cfg = "" ->
   resourceDeviceServiceRead d m log
   = (Done (SetId d "", []), (log ++ [readRequest (device_id (attrs d)) (Id d)])%list))
  /\ (ID cfg <> "" -> fillError cfg = None ->
      resourceDeviceServiceRead d m log
      = (Done (mkResourceData (Id d) (prior d)
                 (mkDeviceServiceAttrs (device_id (attrs d)) (ServiceName cfg) (ConnectionPolicy cfg)
                    (Port cfg) (Protocol cfg)
                    (match GlobalDomains cfg with Some l => Set_List l | None => [] end)
                    (match SubProtocols cfg with Some l => Set_List l | None => [] end))
                 (partial d), []),
         (log ++ [readRequest (device_id (attrs d)) (Id d)])%list))
  /\ (forall e, ID cfg <> "" -> fillError cfg = Some e ->
      resourceDeviceServiceRead d m log
      = (Panicked e, (log ++ [readRequest (device_id (attrs d)) (Id d)])%list)).
Proof.
  intros Hgate Herr Hcode Hbody.
  rewrite (read_run _ _ _ Hgate), readOptions_run; cbn zeta.
  rewrite Herr, Hcode, Hbody. cbn [Z.eqb StatusOK StatusNotFound negb Pos.eqb].
  split; [|split].
  - intros ->. reflexivity.
  - intros Hid Hfill. destruct (String.eqb_spec (ID cfg) ""); [contradiction|].
    rewrite Hfill. reflexivity.
  - intros e Hid Hfill. destruct (String.eqb_spec (ID cfg) ""); [contradiction|].
    rewrite Hfill. reflexivity.
Qed.

End Further.

(** ** The properties on the sample platform *)



(** C2 at a listing that answers two services for the one name. *)
Lemma several_matches_read_as_not_found_witness :
  respErr (remote Sample.duplicated [] (searchRequest "dev123" "svcA")) = None
  /\ respCode (remote Sample.duplicated [] (searchRequest "dev123" "svcA")) = StatusOK
  /\ unmarshalDeviceServices (Platform := Sample.platform)
       (respBody (remote Sample.duplicated [] (searchRequest "dev123" "svcA")))
     = (Sample.twins, None)
  /\ (1 < length Sample.twins)%nat
  /\ searchResourceDeviceService (P := Sample.platform) "dev123" "svcA" Sample.duplicated []
     = (Done ("", false, None), [searchRequest "dev123" "svcA"]).
Proof.
  split; [reflexivity|]. split; [reflexivity|]. split; [reflexivity|]. split; [vm_compute; lia|].
  destruct (several_matches_read_as_not_found (P := Sample.platform)
              "dev123" "svcA" Sample.duplicated [] Sample.twins
              ltac:(reflexivity) ltac:(reflexivity) ltac:(reflexivity))
    as (Hseveral & _).
  apply Hseveral. vm_compute; lia.
Defined.

(** C2 as stated fails: two matches for the one key, and the resolver
    answers not found with no error. *)
Lemma two_matches_are_no_error :
  length (fst (Decode.deviceServices
                 (respBody (remote Sample.duplicated [] (searchRequest "dev123" "svcA"))))) = 2%nat
  /\ searchResourceDeviceService (P := Sample.platform) "dev123" "svcA" Sample.duplicated []
     = (Done ("", false, None), [searchRequest "dev123" "svcA"]).
Proof. split; reflexivity. Qed.

(** C3 at [svcA] declared under SSH with an RDP token, in front of the
    appliance. *)
Lemma refused_subprotocol_is_never_posted_witness :
  In "RDP_PRINTER" (subprotocols (attrs Sample.mixed))
  /\ slices_Contains (allowList (protocol (attrs Sample.mixed))) "RDP_PRINTER" = false
  /\ refused (protocol (attrs Sample.mixed)) (subprotocols (attrs Sample.mixed))
       "subprotocols RDP_PRINTER not valid for SSH service"
  /\ snd (prepareDeviceServiceJSON Sample.mixed true)
     = Some "subprotocols RDP_PRINTER not valid for SSH service"
  /\ resourceDeviceServiceCreate (P := Sample.platform) Sample.mixed Sample.appliance []
     = (Done (Sample.mixed, ["subprotocols RDP_PRINTER not valid for SSH service"]),
        [Sample.deviceRequest; searchRequest "dev123" "svcA"]).
Proof.
  split; [right; left; reflexivity|]. split; [reflexivity|].
  destruct (refused_subprotocol_is_never_posted (P := Sample.platform)
              Sample.mixed Sample.appliance [] "RDP_PRINTER"
              ltac:(right; left; reflexivity) ltac:(reflexivity))
    as (e & Hrefused & Hprepare & _ & _ & Hcreate).
  assert (He : e = "subprotocols RDP_PRINTER not valid for SSH service").
  { vm_compute in Hprepare. now injection Hprepare as <-. }
  subst e.
  split; [exact Hrefused|]. split; [exact Hprepare|].
  apply (Hcreate Sample.deviceRecord [Sample.deviceRequest] []).
  - reflexivity.
  - reflexivity.
  - vm_compute. discriminate.
  - by_listing.
  - vm_compute. discriminate.
Defined.

(** C3 as stated fails twice: the refusal comes after two requests to the
    remote, and under a protocol with no allow-list the message does not
    name the token. *)
Lemma refusal_follows_two_requests :
  resourceDeviceServiceCreate (P := Sample.platform) Sample.mixed Sample.appliance []
  = (Done (Sample.mixed, ["subprotocols RDP_PRINTER not valid for SSH service"]),
     [Sample.deviceRequest; searchRequest "dev123" "svcA"])
  /\ In (searchRequest "dev123" "svcA")
       (snd (resourceDeviceServiceCreate (P := Sample.platform) Sample.mixed Sample.appliance []))
  /\ snd (prepareDeviceServiceJSON Sample.vnc true)
     = Some "subprotocols need to not set for VNC service"
  /\ strings_Contains "subprotocols need to not set for VNC service" "RDP_PRINTER" = false.
Proof.
  split; [vm_compute; reflexivity|]. split; [vm_compute; right; left; reflexivity|].
  split; reflexivity.
Qed.

(** C4 at a tracked service of which only the port changed. *)
Lemma update_payload_fields_witness :
  prepareDeviceServiceJSON Sample.moved false = (Sample.movedPayload, None)
  /\ Encode.keys (Encode.deviceService Sample.movedPayload)
     = ["port"; "connection_policy"; "subprotocols"]
  /\ snd (updateDeviceService Sample.moved Sample.populated [])
     = [updateRequest Sample.moved Sample.movedPayload].
Proof.
  split; [reflexivity|].
  destruct (update_payload_fields Sample.moved Sample.movedPayload ltac:(reflexivity))
    as (_ & Hkeys & Hput).
  split; [exact Hkeys | exact (Hput Sample.populated [])].
Defined.

(** C4 as stated fails: only the port changed, and the payload of the
    update carries the connection policy and the sub-protocols too. *)
Lemma unchanged_fields_are_sent :
  prepareDeviceServiceJSON Sample.moved false = (Sample.movedPayload, None)
  /\ Encode.keys (Encode.deviceService Sample.movedPayload)
     = ["port"; "connection_policy"; "subprotocols"]
  /\ HasChange Sample.moved "port" = true
  /\ HasChange Sample.moved "connection_policy" = false
  /\ HasChange Sample.moved "subprotocols" = false.
Proof. repeat split. Qed.

(** C5 at the configuration of [example.com]: declared [example.com] stays
    declared, declared [other.com] is no longer declared, nothing declared
    stays declared. *)
Lemma x509_drift_by_common_name_witness :
  readConfigX509Options (P := Sample.platform) Sample.x509Appliance []
  = (Done (Sample.x509Observed, None), [x509ReadRequest])
  /\ Default Sample.x509Observed = false
  /\ (resourceConfigX509Read (P := Sample.platform) Sample.certExample Sample.x509Appliance []
      = (Done (fst (fillConfigX509 Sample.certExample Sample.x509Observed), []), [x509ReadRequest])
      /\ Id (fst (fillConfigX509 Sample.certExample Sample.x509Observed)) = "x509Config")
  /\ resourceConfigX509Read (P := Sample.platform) Sample.certOther Sample.x509Appliance []
     = (Done (SetId Sample.certOther "", []), [x509ReadRequest])
  /\ resourceConfigX509Read (P := Sample.platform) Sample.certNone Sample.x509Appliance []
     = (Done (fst (fillConfigX509 Sample.certNone Sample.x509Observed), []), [x509ReadRequest]).
Proof.
  split; [reflexivity|]. split; [reflexivity|].
  split; [|split].
  - destruct (x509_drift_by_common_name (P := Sample.platform) Sample.certExample
                Sample.x509Appliance [] Sample.x509Observed [x509ReadRequest]
                ltac:(reflexivity)) as (_ & Hdeclared & _).
    destruct (Hdeclared ltac:(reflexivity)) as (Hstill & _).
    apply Hstill; right; exists "example.com"; split; reflexivity.
  - destruct (x509_drift_by_common_name (P := Sample.platform) Sample.certOther
                Sample.x509Appliance [] Sample.x509Observed [x509ReadRequest]
                ltac:(reflexivity)) as (_ & Hdeclared & _).
    destruct (Hdeclared ltac:(reflexivity)) as (_ & Hdrift & _).
    apply Hdrift. split; [discriminate|]. exists "other.com"; split; reflexivity.
  - destruct (x509_drift_by_common_name (P := Sample.platform) Sample.certNone
                Sample.x509Appliance [] Sample.x509Observed [x509ReadRequest]
                ltac:(reflexivity)) as (_ & Hdeclared & _).
    destruct (Hdeclared ltac:(reflexivity)) as (_ & _ & _ & Hskipped).
    apply Hskipped; reflexivity.
Defined.

(** C5 as stated fails twice: the declared CA certificate has its common
    name inside the observed value, and the identity is cleared all the
    same, once because the configuration is flagged default and once
    because the server key has another common name. *)
Lemma matching_certificate_is_cleared :
  commonName (P := Sample.platform) (ca_certificate (attrs Sample.certExample)) = Some "example.com"
  /\ strings_Contains (CaCertificate Sample.x509DefaultObserved) "/CN=example.com" = true
  /\ readConfigX509Options (P := Sample.platform) Sample.x509Defaulted []
     = (Done (Sample.x509DefaultObserved, None), [x509ReadRequest])
  /\ resourceConfigX509Read (P := Sample.platform) Sample.certExample Sample.x509Defaulted []
     = (Done (SetId Sample.certExample "", []), [x509ReadRequest])
  /\ commonName (P := Sample.platform) (ca_certificate (attrs Sample.certSplit)) = Some "example.com"
  /\ strings_Contains (CaCertificate Sample.x509Observed) "/CN=example.com" = true
  /\ resourceConfigX509Read (P := Sample.platform) Sample.certSplit Sample.x509Appliance []
     = (Done (SetId Sample.certSplit "", []), [x509ReadRequest]).
Proof. repeat split. Qed.

(** C6 at [svcA] declared for the first time: in front of the remote that
    holds it already, of the appliance, of the remote that lists the
    service and does not return it, and of the remote that stores
    nothing. *)
Lemma create_recovers_the_identity_witness :
  resourceDeviceServiceVersionCheck (P := Sample.platform) (bastionAPIVersion Sample.appliance) = None
  /\ readDeviceOptions (Platform := Sample.platform) "dev123" Sample.appliance []
     = (Done (Sample.deviceRecord, None), [Sample.deviceRequest])
  /\ ID Sample.deviceRecord <> ""
  /\ resourceDeviceServiceCreate (P := Sample.platform) Sample.fresh Sample.populated []
     = (Done (Sample.fresh, ["service_name svcA on device_id dev123 already exists"]),
        [Sample.deviceRequest; searchRequest "dev123" "svcA"])
  /\ (resourceDeviceServiceCreate (P := Sample.platform) Sample.fresh Sample.appliance []
      = (Done (filled (P := Sample.platform) (SetId Sample.fresh "svc-1") Sample.serviceRecord, []),
         [Sample.deviceRequest; searchRequest "dev123" "svcA";
          createRequest Sample.fresh Sample.freshPayload;
          searchRequest "dev123" "svcA"; readRequest "dev123" "svc-1"])
      /\ Id (filled (P := Sample.platform) (SetId Sample.fresh "svc-1") Sample.serviceRecord)
         = "svc-1")
  /\ resourceDeviceServiceCreate (P := Sample.platform) Sample.fresh Sample.listedOnly []
     = (Done (SetId Sample.fresh "", []),
        [Sample.deviceRequest; searchRequest "dev123" "svcA";
         createRequest Sample.fresh Sample.freshPayload;
         searchRequest "dev123" "svcA"; readRequest "dev123" "svc-1"])
  /\ resourceDeviceServiceCreate (P := Sample.platform) Sample.fresh Sample.forgetful []
     = (Done (Sample.fresh, ["service_name svcA on device_id dev123 not found after POST"]),
        [Sample.deviceRequest; searchRequest "dev123" "svcA";
         createRequest Sample.fresh Sample.freshPayload; searchRequest "dev123" "svcA"]).
Proof.
  split; [reflexivity|]. split; [reflexivity|]. split; [discriminate|].
  split; [|split; [|split]].
  - destruct (create_recovers_the_identity (P := Sample.platform) Sample.fresh Sample.populated []
                Sample.deviceRecord [Sample.deviceRequest]
                ltac:(reflexivity) ltac:(reflexivity) ltac:(discriminate)) as (Hexists & _).
    apply (Hexists Sample.serviceRecord). by_listing.
  - destruct (create_recovers_the_identity (P := Sample.platform) Sample.fresh Sample.appliance []
                Sample.deviceRecord [Sample.deviceRequest]
                ltac:(reflexivity) ltac:(reflexivity) ltac:(discriminate)) as (_ & Hcreated).
    destruct (Hcreated [] Sample.freshPayload) as (Hone & _).
    + by_listing.
    + vm_compute. discriminate.
    + reflexivity.
    + reflexivity.
    + right. reflexivity.
    + destruct (Hone Sample.serviceRecord) as (_ & Hread & _).
      * by_listing.
      * destruct (Hread Sample.serviceRecord
                    [Sample.deviceRequest; searchRequest "dev123" "svcA";
                     createRequest Sample.fresh Sample.freshPayload;
                     searchRequest "dev123" "svcA"; readRequest "dev123" "svc-1"]
                    ltac:(reflexivity)) as (Hfilled & _).
        apply Hfilled; [discriminate|reflexivity].
  - destruct (create_recovers_the_identity (P := Sample.platform) Sample.fresh Sample.listedOnly []
                Sample.deviceRecord [Sample.deviceRequest]
                ltac:(reflexivity) ltac:(reflexivity) ltac:(discriminate)) as (_ & Hcreated).
    destruct (Hcreated [] Sample.freshPayload) as (Hone & _).
    + by_listing.
    + vm_compute. discriminate.
    + reflexivity.
    + reflexivity.
    + right. reflexivity.
    + destruct (Hone Sample.serviceRecord) as (_ & _ & Hgone & _).
      * by_listing.
      * apply Hgone; reflexivity.
  - destruct (create_recovers_the_identity (P := Sample.platform) Sample.fresh Sample.forgetful []
                Sample.deviceRecord [Sample.deviceRequest]
                ltac:(reflexivity) ltac:(reflexivity) ltac:(discriminate)) as (_ & Hcreated).
    destruct (Hcreated [] Sample.freshPayload) as (_ & Hnone).
    + by_listing.
    + vm_compute. discriminate.
    + reflexivity.
    + reflexivity.
    + right. reflexivity.
    + apply (Hnone []); [by_listing|discriminate].
Defined.

(** C6 as stated fails: the POST is accepted and the listing after it
    returns exactly one match, [svc-1]; the read under that identifier is
    answered 404, and the create ends without a diagnostic and with no
    tracked identity. *)
Lemma created_service_is_not_tracked :
  respCode (remote Sample.listedOnly [Sample.deviceRequest; searchRequest "dev123" "svcA"]
              (createRequest Sample.fresh Sample.freshPayload)) = StatusNoContent
  /\ listed (P := Sample.platform) Sample.listedOnly
       [Sample.deviceRequest; searchRequest "dev123" "svcA";
        createRequest Sample.fresh Sample.freshPayload] "dev123" "svcA" [Sample.serviceRecord]
  /\ ID Sample.serviceRecord = "svc-1"
  /\ resourceDeviceServiceCreate (P := Sample.platform) Sample.fresh Sample.listedOnly []
     = (Done (mkResourceData "" (prior Sample.fresh) (attrs Sample.fresh) false, []),
        [Sample.deviceRequest; searchRequest "dev123" "svcA";
         createRequest Sample.fresh Sample.freshPayload;
         searchRequest "dev123" "svcA"; readRequest "dev123" "svc-1"]).
Proof. split; [reflexivity|]. split; [by_listing|]. split; reflexivity. Qed.

(** C7 at the identifiers of the specification: [dev123] and
    [dev123/svcA/extra] are refused, [dev123/svcA] is resolved under device
    [dev123] as service [svcA], and fails where the service is not found. *)
Lemma import_requires_parent_and_name_witness :
  resourceDeviceServiceVersionCheck (P := Sample.platform) (bastionAPIVersion Sample.populated) = None
  /\ resourceDeviceServiceImport (P := Sample.platform) (Sample.imported "dev123") Sample.populated []
     = (Done ([], Some "id must be <device_id>/<service_name>"), [])
  /\ resourceDeviceServiceImport (P := Sample.platform) (Sample.imported "dev123/svcA/extra")
       Sample.populated []
     = (Done ([], Some "id must be <device_id>/<service_name>"), [])
  /\ strings_Split (Id (Sample.imported "dev123/svcA")) "/" = ["dev123"; "svcA"]
  /\ (exists d', resourceDeviceServiceImport (P := Sample.platform) (Sample.imported "dev123/svcA")
                   Sample.populated []
                 = (Done ([d'], None), [searchRequest "dev123" "svcA"; readRequest "dev123" "svc-1"])
                 /\ Id d' = "svc-1" /\ device_id (attrs d') = "dev123")
  /\ resourceDeviceServiceImport (P := Sample.platform) (Sample.imported "dev123/svcA") Sample.appliance []
     = (Done ([], Some "don't find service_name with id dev123/svcA (id must be <device_id>/<service_name>)"),
        [searchRequest "dev123" "svcA"]).
Proof.
  split; [reflexivity|].
  destruct (import_requires_parent_and_name (P := Sample.platform) Sample.populated []
              ltac:(reflexivity)) as (Hrefused & Hresolved).
  split; [apply Hrefused; vm_compute; lia|].
  split; [apply Hrefused; vm_compute; lia|].
  destruct (Hresolved (Sample.imported "dev123/svcA") "dev123" "svcA"
              ltac:(reflexivity) ltac:(reflexivity) ltac:(reflexivity)) as (Hsplit & Hfound).
  split; [exact Hsplit|].
  split.
  - assert (Hsearch : searchResourceDeviceService (P := Sample.platform) "dev123" "svcA" Sample.populated []
                      = (Done ("svc-1", true, None), [searchRequest "dev123" "svcA"])) by reflexivity.
    rewrite Hsearch in Hfound.
    assert (Hread : readDeviceServiceOptions (P := Sample.platform) "dev123" "svc-1" Sample.populated
                      [searchRequest "dev123" "svcA"]
                    = (Done (Sample.serviceRecord, None),
                       [searchRequest "dev123" "svcA"; readRequest "dev123" "svc-1"])) by reflexivity.
    rewrite Hread in Hfound. exact Hfound.
  - destruct (import_requires_parent_and_name (P := Sample.platform) Sample.appliance []
                ltac:(reflexivity)) as (_ & Hmissing).
    destruct (Hmissing (Sample.imported "dev123/svcA") "dev123" "svcA"
                ltac:(reflexivity) ltac:(reflexivity) ltac:(reflexivity)) as (_ & Hnone).
    assert (Hsearch : searchResourceDeviceService (P := Sample.platform) "dev123" "svcA" Sample.appliance []
                      = (Done ("", false, None), [searchRequest "dev123" "svcA"])) by reflexivity.
    rewrite Hsearch in Hnone. exact Hnone.
Defined.

(** C8 at a remote of version 3.10, outside [defaultVersionsValid]: with the
    device gate of the sample platform the update ends with the message of
    the device resource; with a device gate that accepts, the PUT is
    issued. *)
Lemma update_consults_the_device_gate_witness :
  resourceDeviceServiceVersionCheck (P := Sample.platform) (bastionAPIVersion Sample.outdated)
  = Some "resource wallix-bastion_device_service not available with api version 3.10"
  /\ resourceDeviceServiceUpdate (P := Sample.platform) Sample.moved Sample.outdated []
     = (Done (Partial Sample.moved true,
              ["resource wallix-bastion_device not available with api version 3.10"]), [])
  /\ (exists rest,
        snd (resourceDeviceServiceUpdate (P := Sample.lenientPlatform) Sample.moved Sample.outdated [])
        = updateRequest Sample.moved Sample.movedPayload :: rest).
Proof.
  split; [reflexivity|]. split.
  - destruct (update_consults_the_device_gate (P := Sample.platform) Sample.moved Sample.outdated [])
      as (Hrefuse & _).
    apply Hrefuse. reflexivity.
  - destruct (update_consults_the_device_gate (P := Sample.lenientPlatform) Sample.moved Sample.outdated [])
      as (_ & Haccept).
    apply (Haccept Sample.movedPayload); reflexivity.
Defined.

(** C9 at the configuration of [example.com]: a declared [ca_certificate],
    and a declared [server_public_key], with no PEM block in it; the same
    [server_public_key] behind a CA certificate of [other.com]; and the
    same [ca_certificate] read from a remote that is not reached and from
    one whose configuration is flagged default. *)
Lemma x509_read_panics_without_pem_block_witness :
  readConfigX509Options (P := Sample.platform) Sample.x509Appliance []
  = (Done (Sample.x509Observed, None), [x509ReadRequest])
  /\ Default Sample.x509Observed = false
  /\ resourceConfigX509Read (P := Sample.platform) Sample.garbageCa Sample.x509Appliance []
     = (Panicked nilDereference, [x509ReadRequest])
  /\ resourceConfigX509Read (P := Sample.platform) Sample.garbagePub Sample.x509Appliance []
     = (Panicked nilDereference, [x509ReadRequest])
  /\ resourceConfigX509Read (P := Sample.platform) Sample.garbageBehind Sample.x509Appliance []
     = (Done (SetId Sample.garbageBehind "", []), [x509ReadRequest])
  /\ resourceConfigX509Read (P := Sample.platform) Sample.garbageCa Sample.unreachable []
     = (Done (Sample.garbageCa, ["dial tcp: connection refused"]), [x509ReadRequest])
  /\ resourceConfigX509Read (P := Sample.platform) Sample.garbageCa Sample.x509Defaulted []
     = (Done (SetId Sample.garbageCa "", []), [x509ReadRequest]).
Proof.
  split; [reflexivity|]. split; [reflexivity|]. split; [|split; [|split; [|split]]].
  - destruct (x509_read_panics_without_pem_block (P := Sample.platform) Sample.garbageCa
                Sample.x509Appliance [] Sample.x509Observed None [x509ReadRequest]
                ltac:(reflexivity)) as (Hpanics & _).
    destruct (Hpanics eq_refl eq_refl) as (Hca & _).
    apply Hca; [discriminate|reflexivity].
  - destruct (x509_read_panics_without_pem_block (P := Sample.platform) Sample.garbagePub
                Sample.x509Appliance [] Sample.x509Observed None [x509ReadRequest]
                ltac:(reflexivity)) as (Hpanics & _).
    destruct (Hpanics eq_refl eq_refl) as (_ & Hpub).
    apply Hpub; [left; reflexivity|discriminate|reflexivity].
  - destruct (x509_read_panics_without_pem_block (P := Sample.platform) Sample.garbageBehind
                Sample.x509Appliance [] Sample.x509Observed None [x509ReadRequest]
                ltac:(reflexivity)) as (_ & _ & _ & Hdrift & _).
    apply Hdrift; [reflexivity|reflexivity|].
    split; [discriminate|]. exists "other.com". split; reflexivity.
  - destruct (x509_read_panics_without_pem_block (P := Sample.platform) Sample.garbageCa
                Sample.unreachable [] zeroConfigX509 (Some "dial tcp: connection refused")
                [x509ReadRequest] ltac:(reflexivity)) as (_ & Hfetch & _).
    apply Hfetch. reflexivity.
  - destruct (x509_read_panics_without_pem_block (P := Sample.platform) Sample.garbageCa
                Sample.x509Defaulted [] Sample.x509DefaultObserved None [x509ReadRequest]
                ltac:(reflexivity)) as (_ & _ & Hdefault & _).
    apply Hdefault; reflexivity.
Defined.

(** X1 at a remote of version 3.10 holding the service. *)
Lemma service_gate_fails_fast_witness :
  slices_Contains (defaultVersionsValid (Platform := Sample.platform))
    (bastionAPIVersion Sample.outdated) = false
  /\ resourceDeviceServiceCreate (P := Sample.platform) Sample.fresh Sample.outdated []
     = (Done (Sample.fresh,
              ["resource wallix-bastion_device_service not available with api version 3.10"]), [])
  /\ resourceDeviceServiceRead (P := Sample.platform) Sample.svcA Sample.outdated []
     = (Done (Sample.svcA,
              ["resource wallix-bastion_device_service not available with api version 3.10"]), [])
  /\ resourceDeviceServiceDelete (P := Sample.platform) Sample.svcA Sample.outdated []
     = (Done (Sample.svcA,
              ["resource wallix-bastion_device_service not available with api version 3.10"]), [])
  /\ resourceDeviceServiceImport (P := Sample.platform) (Sample.imported "dev123/svcA")
       Sample.outdated []
     = (Done ([], Some "resource wallix-bastion_device_service not available with api version 3.10"), []).
Proof.
  split; [reflexivity|].
  split; [exact (proj1 (service_gate_fails_fast (P := Sample.platform)
                          Sample.fresh Sample.outdated [] ltac:(reflexivity)))|].
  split; [exact (proj1 (proj2 (service_gate_fails_fast (P := Sample.platform)
                                 Sample.svcA Sample.outdated [] ltac:(reflexivity))))|].
  split; [exact (proj1 (proj2 (proj2 (service_gate_fails_fast (P := Sample.platform)
                                        Sample.svcA Sample.outdated [] ltac:(reflexivity)))))|].
  exact (proj2 (proj2 (proj2 (service_gate_fails_fast (P := Sample.platform)
                                (Sample.imported "dev123/svcA") Sample.outdated []
                                ltac:(reflexivity))))).
Defined.

(** C9 as stated fails twice: a declared certificate with no PEM block in
    it, and the read ends without a panic, once because the configuration
    is flagged default and once because the check of the CA certificate
    ends the read before the server key is decoded. *)
Lemma undecodable_certificate_without_panic :
  pem_Decode (Platform := Sample.platform) (ca_certificate (attrs Sample.garbageCa)) = None
  /\ resourceConfigX509Read (P := Sample.platform) Sample.garbageCa Sample.x509Defaulted []
     = (Done (SetId Sample.garbageCa "", []), [x509ReadRequest])
  /\ pem_Decode (Platform := Sample.platform) (server_public_key (attrs Sample.garbageBehind)) = None
  /\ resourceConfigX509Read (P := Sample.platform) Sample.garbageBehind Sample.x509Appliance []
     = (Done (SetId Sample.garbageBehind "", []), [x509ReadRequest]).
Proof. repeat split. Qed.

(** ** The further properties on the sample platform *)

(** X3 at the tracked service of which only the port changed. *)
Lemma create_payload_extends_update_payload_witness :
  prepareDeviceServiceJSON Sample.moved false = (Sample.movedPayload, None)
  /\ prepareDeviceServiceJSON Sample.moved true
     = (mkJsonDeviceService 2222 "" "SSH" "SSH" "svcA" None (Some ["SSH_SHELL_SESSION"]), None)
  /\ Encode.keys (Encode.deviceService (fst (prepareDeviceServiceJSON Sample.moved true)))
     = ["port"; "connection_policy"; "protocol"; "service_name"; "subprotocols"].
Proof.
  split; [reflexivity|].
  exact (create_payload_extends_update_payload Sample.moved Sample.movedPayload ltac:(reflexivity)).
Defined.

(** X6 at the service declared with a global domain and a sub-protocol. *)
Lemma fill_of_the_create_payload_witness :
  prepareDeviceServiceJSON Sample.full true = (Sample.fullPayload, None)
  /\ HasChange Sample.full "global_domains" = true
  /\ fillError (P := Sample.platform) Sample.fullPayload = None
  /\ fillDeviceService (P := Sample.platform) Sample.full Sample.fullPayload []
     = (Done Sample.full, [])
  /\ attrs (filled (P := Sample.platform) Sample.full Sample.fullPayload) = attrs Sample.full
  /\ Id (filled (P := Sample.platform) Sample.full Sample.fullPayload) = Id Sample.full.
Proof.
  split; [reflexivity|]. split; [reflexivity|]. split; [reflexivity|].
  exact (fill_of_the_create_payload (P := Sample.platform) Sample.full Sample.fullPayload []
           ltac:(reflexivity) ltac:(left; reflexivity) ltac:(reflexivity)
           ltac:(reflexivity) ltac:(reflexivity)).
Defined.

(** X7 at a refused payload, a refused PUT, a lost PUT and an accepted
    PUT. *)
Lemma update_stops_at_the_first_failure_witness :
  resourceDeviceVersionCheck (Platform := Sample.platform) (bastionAPIVersion Sample.readOnly) = None
  /\ resourceDeviceServiceUpdate (P := Sample.platform) Sample.mixed Sample.readOnly []
     = (Done (Partial Sample.mixed true, ["subprotocols RDP_PRINTER not valid for SSH service"]), [])
  /\ resourceDeviceServiceUpdate (P := Sample.platform) Sample.moved Sample.readOnly []
     = (Done (Partial Sample.moved true, [notOKOrNoContent 403 "forbidden"]),
        [updateRequest Sample.moved Sample.movedPayload])
  /\ resourceDeviceServiceUpdate (P := Sample.platform) Sample.moved Sample.writeLost []
     = (Done (Partial Sample.moved true, ["dial tcp: connection refused"]),
        [updateRequest Sample.moved Sample.movedPayload])
  /\ resourceDeviceServiceUpdate (P := Sample.platform) Sample.moved Sample.populated []
     = resourceDeviceServiceRead (P := Sample.platform) (Partial Sample.moved false) Sample.populated
         [updateRequest Sample.moved Sample.movedPayload].
Proof.
  split; [reflexivity|]. split; [|split; [|split]].
  - destruct (update_stops_at_the_first_failure (P := Sample.platform)
                Sample.mixed Sample.readOnly [] ltac:(reflexivity)) as (Hrefused & _).
    apply Hrefused. reflexivity.
  - destruct (update_stops_at_the_first_failure (P := Sample.platform)
                Sample.moved Sample.readOnly [] ltac:(reflexivity)) as (_ & Hput).
    destruct (Hput Sample.movedPayload ltac:(reflexivity)) as (_ & Hstatus & _).
    apply Hstatus; [reflexivity | vm_compute; discriminate | vm_compute; discriminate].
  - destruct (update_stops_at_the_first_failure (P := Sample.platform)
                Sample.moved Sample.writeLost [] ltac:(reflexivity)) as (_ & Hput).
    destruct (Hput Sample.movedPayload ltac:(reflexivity)) as (Hlost & _).
    apply Hlost. reflexivity.
  - destruct (update_stops_at_the_first_failure (P := Sample.platform)
                Sample.moved Sample.populated [] ltac:(reflexivity)) as (_ & Hput).
    destruct (Hput Sample.movedPayload ltac:(reflexivity)) as (_ & _ & Haccepted).
    apply Haccepted; [reflexivity | right; reflexivity].
Defined.

(** X8 at an unreachable remote, an unknown device, a listing out of order,
    a refused POST and a lost POST. *)
Lemma create_stops_at_the_first_failure_witness :
  resourceDeviceServiceVersionCheck (P := Sample.platform) (bastionAPIVersion Sample.appliance) = None
  /\ resourceDeviceServiceCreate (P := Sample.platform) Sample.fresh Sample.unreachable []
     = (Done (Sample.fresh, ["dial tcp: connection refused"]), [Sample.deviceRequest])
  /\ resourceDeviceServiceCreate (P := Sample.platform) Sample.fresh Sample.nowhere []
     = (Done (Sample.fresh, ["device with ID dev123 doesn't exists"]), [Sample.deviceRequest])
  /\ resourceDeviceServiceCreate (P := Sample.platform) Sample.fresh Sample.listingDown []
     = (Done (Sample.fresh, ["api doesn't return OK: 500 with body:" ++ nl ++ "boom"]),
        [Sample.deviceRequest; searchRequest "dev123" "svcA"])
  /\ resourceDeviceServiceCreate (P := Sample.platform) Sample.fresh Sample.postRefused []
     = (Done (Sample.fresh, [notOKOrNoContent 403 "forbidden"]),
        [Sample.deviceRequest; searchRequest "dev123" "svcA";
         createRequest Sample.fresh Sample.freshPayload])
  /\ resourceDeviceServiceCreate (P := Sample.platform) Sample.fresh Sample.postLost []
     = (Done (Sample.fresh, ["dial tcp: connection refused"]),
        [Sample.deviceRequest; searchRequest "dev123" "svcA";
         createRequest Sample.fresh Sample.freshPayload]).
Proof.
  split; [reflexivity|]. split; [|split; [|split; [|split]]].
  - destruct (create_stops_at_the_first_failure (P := Sample.platform)
                Sample.fresh Sample.unreachable [] ltac:(reflexivity)) as (Hlookup & _).
    apply (Hlookup zeroDeviceService). reflexivity.
  - destruct (create_stops_at_the_first_failure (P := Sample.platform)
                Sample.fresh Sample.nowhere [] ltac:(reflexivity)) as (_ & Hunknown & _).
    apply (Hunknown zeroDeviceService); reflexivity.
  - destruct (create_stops_at_the_first_failure (P := Sample.platform)
                Sample.fresh Sample.listingDown [] ltac:(reflexivity)) as (_ & _ & Hfound).
    destruct (Hfound Sample.deviceRecord [Sample.deviceRequest]
                ltac:(reflexivity) ltac:(discriminate)) as (Hlisting & _).
    apply Hlisting; [reflexivity | vm_compute; discriminate].
  - destruct (create_stops_at_the_first_failure (P := Sample.platform)
                Sample.fresh Sample.postRefused [] ltac:(reflexivity)) as (_ & _ & Hfound).
    destruct (Hfound Sample.deviceRecord [Sample.deviceRequest]
                ltac:(reflexivity) ltac:(discriminate)) as (_ & Hpost).
    destruct (Hpost [] Sample.freshPayload) as (_ & Hstatus).
    + by_listing.
    + vm_compute. discriminate.
    + reflexivity.
    + apply Hstatus; [reflexivity | vm_compute; discriminate | vm_compute; discriminate].
  - destruct (create_stops_at_the_first_failure (P := Sample.platform)
                Sample.fresh Sample.postLost [] ltac:(reflexivity)) as (_ & _ & Hfound).
    destruct (Hfound Sample.deviceRecord [Sample.deviceRequest]
                ltac:(reflexivity) ltac:(discriminate)) as (_ & Hpost).
    destruct (Hpost [] Sample.freshPayload) as (Hlost & _).
    + by_listing.
    + vm_compute. discriminate.
    + reflexivity.
    + apply Hlost. reflexivity.
Defined.

(** X9 at [dev123/svcA]: the service read after the listing, the service
    gone when it is read, the service read with a sub-protocol listed
    twice, and the service read where [d.Set] refuses the port. *)
Lemma import_fills_from_the_read_witness :
  resourceDeviceServiceVersionCheck (P := Sample.platform) (bastionAPIVersion Sample.populated) = None
  /\ listed (P := Sample.platform) Sample.populated [] "dev123" "svcA" [Sample.serviceRecord]
  /\ resourceDeviceServiceImport (P := Sample.platform) (Sample.imported "dev123/svcA")
       Sample.populated []
     = (Done ([mkResourceData "svc-1" (mkDeviceServiceAttrs "" "" "" 0 "" [] [])
                 (mkDeviceServiceAttrs "dev123" "svcA" "SSH" 22 "SSH" [] []) false], None),
        [searchRequest "dev123" "svcA"; readRequest "dev123" "svc-1"])
  /\ resourceDeviceServiceImport (P := Sample.platform) (Sample.imported "dev123/svcA")
       Sample.vanishing []
     = (Done ([mkResourceData "svc-1" (mkDeviceServiceAttrs "" "" "" 0 "" [] [])
                 (mkDeviceServiceAttrs "dev123" "" "" 0 "" [] []) false], None),
        [searchRequest "dev123" "svcA"; readRequest "dev123" "svc-1"])
  /\ resourceDeviceServiceImport (P := Sample.platform) (Sample.imported "dev123/svcA")
       Sample.repeating []
     = (Done ([mkResourceData "svc-1" (mkDeviceServiceAttrs "" "" "" 0 "" [] [])
                 (Sample.sshService ["SSH_SHELL_SESSION"; "SSH_X11"]) false], None),
        [searchRequest "dev123" "svcA"; readRequest "dev123" "svc-1"])
  /\ resourceDeviceServiceImport (P := Sample.refusingPlatform) (Sample.imported "dev123/svcA")
       Sample.populated []
     = (Panicked "port: value refused",
        [searchRequest "dev123" "svcA"; readRequest "dev123" "svc-1"]).
Proof.
  split; [reflexivity|]. split; [by_listing|]. split; [|split; [|split]].
  - destruct (import_fills_from_the_read (P := Sample.platform) (Sample.imported "dev123/svcA")
                Sample.populated [] "dev123" "svcA" Sample.serviceRecord
                ltac:(reflexivity) ltac:(reflexivity) ltac:(reflexivity) ltac:(reflexivity)
                ltac:(by_listing)) as (_ & Hfound & _).
    apply (Hfound Sample.serviceRecord); reflexivity.
  - destruct (import_fills_from_the_read (P := Sample.platform) (Sample.imported "dev123/svcA")
                Sample.vanishing [] "dev123" "svcA" Sample.serviceRecord
                ltac:(reflexivity) ltac:(reflexivity) ltac:(reflexivity) ltac:(reflexivity)
                ltac:(by_listing)) as (Hgone & _).
    apply Hgone; reflexivity.
  - destruct (import_fills_from_the_read (P := Sample.platform) (Sample.imported "dev123/svcA")
                Sample.repeating [] "dev123" "svcA" Sample.serviceRecord
                ltac:(reflexivity) ltac:(reflexivity) ltac:(reflexivity) ltac:(reflexivity)
                ltac:(by_listing)) as (_ & Hfound & _).
    apply (Hfound Sample.repeatedRecord); reflexivity.
  - destruct (import_fills_from_the_read (P := Sample.refusingPlatform)
                (Sample.imported "dev123/svcA")
                Sample.populated [] "dev123" "svcA" Sample.serviceRecord
                ltac:(reflexivity) ltac:(reflexivity) ltac:(reflexivity) ltac:(reflexivity)
                ltac:(by_listing)) as (_ & _ & _ & Hpanics).
    apply (Hpanics Sample.serviceRecord); [reflexivity|left; reflexivity].
Defined.

(** X13 at a remote that answers 404: nothing declared, a declared CA
    certificate, a declared server key only. *)
Lemma x509_read_of_a_missing_configuration_witness :
  respErr (remote Sample.nowhere [] x509ReadRequest) = None
  /\ respCode (remote Sample.nowhere [] x509ReadRequest) = StatusNotFound
  /\ resourceConfigX509Read (P := Sample.platform) Sample.certNone Sample.nowhere []
     = (Done (SetAttrs Sample.certNone (mkConfigX509Attrs "" "" "key" false), []), [x509ReadRequest])
  /\ resourceConfigX509Read (P := Sample.platform) Sample.certExample Sample.nowhere []
     = (Done (SetId Sample.certExample "", []), [x509ReadRequest])
  /\ resourceConfigX509Read (P := Sample.platform) Sample.certPubOnly Sample.nowhere []
     = (Done (SetId Sample.certPubOnly "", []), [x509ReadRequest]).
Proof.
  split; [reflexivity|]. split; [reflexivity|]. split; [|split].
  - destruct (x509_read_of_a_missing_configuration (P := Sample.platform) Sample.certNone
                Sample.nowhere [] ltac:(reflexivity) ltac:(reflexivity)) as (Hnone & _).
    apply Hnone; reflexivity.
  - destruct (x509_read_of_a_missing_configuration (P := Sample.platform) Sample.certExample
                Sample.nowhere [] ltac:(reflexivity) ltac:(reflexivity)) as (_ & Hca & _).
    apply (Hca "example.com"); [discriminate|reflexivity].
  - destruct (x509_read_of_a_missing_configuration (P := Sample.platform) Sample.certPubOnly
                Sample.nowhere [] ltac:(reflexivity) ltac:(reflexivity)) as (_ & _ & Hpub).
    apply (Hpub "example.com"); [reflexivity|discriminate|reflexivity].
Defined.

(** X16 at a PEM block that is no certificate, declared as CA certificate
    and as server key. *)
Lemma x509_read_returns_the_parse_error_witness :
  readConfigX509Options (P := Sample.platform) Sample.x509Appliance []
  = (Done (Sample.x509Observed, None), [x509ReadRequest])
  /\ Default Sample.x509Observed = false
  /\ x509_ParseCertificate (Platform := Sample.platform) (Bytes (mkPemBlock "garbage"))
     = inr "x509: malformed certificate"
  /\ resourceConfigX509Read (P := Sample.platform) Sample.brokenCa Sample.x509Appliance []
     = (Done (Sample.brokenCa, ["x509: malformed certificate"]), [x509ReadRequest])
  /\ resourceConfigX509Read (P := Sample.platform) Sample.brokenPub Sample.x509Appliance []
     = (Done (Sample.brokenPub, ["x509: malformed certificate"]), [x509ReadRequest]).
Proof.
  split; [reflexivity|]. split; [reflexivity|]. split; [reflexivity|]. split.
  - destruct (x509_read_returns_the_parse_error (P := Sample.platform) Sample.brokenCa
                Sample.x509Appliance [] Sample.x509Observed [x509ReadRequest]
                (mkPemBlock "garbage") "x509: malformed certificate"
                ltac:(reflexivity) ltac:(reflexivity) ltac:(reflexivity)) as (Hca & _).
    apply Hca; [discriminate|reflexivity].
  - destruct (x509_read_returns_the_parse_error (P := Sample.platform) Sample.brokenPub
                Sample.x509Appliance [] Sample.x509Observed [x509ReadRequest]
                (mkPemBlock "garbage") "x509: malformed certificate"
                ltac:(reflexivity) ltac:(reflexivity) ltac:(reflexivity)) as (_ & Hpub).
    apply Hpub; [left; reflexivity|discriminate|reflexivity].
Defined.

(** X17 at the tracked service read from the remote that holds it, with the
    port the operator declared replaced by the one observed; read from a
    remote that lists a sub-protocol twice; and read where [d.Set] refuses
    the port. *)
Lemma read_takes_the_attributes_of_the_record_witness :
  resourceDeviceServiceVersionCheck (P := Sample.platform) (bastionAPIVersion Sample.populated) = None
  /\ unmarshalDeviceService (Platform := Sample.platform)
       (respBody (remote Sample.populated [] (readRequest "dev123" "svc-1")))
     = (Sample.serviceRecord, None)
  /\ ID Sample.serviceRecord <> ""
  /\ resourceDeviceServiceRead (P := Sample.platform) Sample.moved Sample.populated []
     = (Done (mkResourceData "svc-1" (Sample.sshService ["SSH_SHELL_SESSION"])
                (Sample.sshService []) false, []),
        [readRequest "dev123" "svc-1"])
  /\ unmarshalDeviceService (Platform := Sample.platform)
       (respBody (remote Sample.repeating [] (readRequest "dev123" "svc-1")))
     = (Sample.repeatedRecord, None)
  /\ resourceDeviceServiceRead (P := Sample.platform) Sample.moved Sample.repeating []
     = (Done (mkResourceData "svc-1" (Sample.sshService ["SSH_SHELL_SESSION"])
                (Sample.sshService ["SSH_SHELL_SESSION"; "SSH_X11"]) false, []),
        [readRequest "dev123" "svc-1"])
  /\ resourceDeviceServiceRead (P := Sample.refusingPlatform) Sample.moved Sample.populated []
     = (Panicked "port: value refused", [readRequest "dev123" "svc-1"]).
Proof.
  split; [reflexivity|]. split; [reflexivity|]. split; [discriminate|].
  split; [|split; [reflexivity|split]].
  - destruct (read_takes_the_attributes_of_the_record (P := Sample.platform)
                Sample.moved Sample.populated [] Sample.serviceRecord
                ltac:(reflexivity) ltac:(reflexivity) ltac:(reflexivity) ltac:(reflexivity))
      as (_ & Hfilled & _).
    apply Hfilled; [discriminate|reflexivity].
  - destruct (read_takes_the_attributes_of_the_record (P := Sample.platform)
                Sample.moved Sample.repeating [] Sample.repeatedRecord
                ltac:(reflexivity) ltac:(reflexivity) ltac:(reflexivity) ltac:(reflexivity))
      as (_ & Hfilled & _).
    apply Hfilled; [discriminate|reflexivity].
  - destruct (read_takes_the_attributes_of_the_record (P := Sample.refusingPlatform)
                Sample.moved Sample.populated [] Sample.serviceRecord
                ltac:(reflexivity) ltac:(reflexivity) ltac:(reflexivity) ltac:(reflexivity))
      as (_ & _ & Hpanics).
    apply Hpanics; [discriminate|reflexivity].
Defined.
